(** * photo-keyword-tagger: a shallow embedding and its verified properties

    The development follows the Python package [photo_keyword_tagger]:

    - [file_finder]       JPEG -> RAW matching by filename stem ([find_raw_file],
                          [find_raw_files]);
    - [keyword_generator] the request to the inference service and the decoding
                          of its streamed JSON answer ([generate_keywords]);
    - [xmp_tagger]        sidecar path derivation and the exiftool invocation
                          ([get_xmp_path], [add_keywords_to_xmp],
                          [batch_add_keywords]);
    - [pipeline]          the directory pipeline ([process_directory]).

    The library functions the package calls are modelled after CPython 3.11:
    [pathlib] (pure POSIX paths, [glob]), [fnmatch.translate], [json.loads].

    Conventions.
    - A Python [str] is a Rocq [string]; text outside ASCII is held in its
      UTF-8 encoding, so that character-wise operations are exact on ASCII.
    - A Python exception is a value of [exn]; a call returns an [outcome].
    - The file system is a list of existing entries in the order in which a
      directory scan meets them; lookups are case-sensitive, and symbolic
      links, permissions and [..] components are not modelled.
    - The limits of the interpreter (recursion depth, the digit limit of
      [int]) are not modelled: [json.loads] has all the fuel it needs.
    - The exiftool process and the inference service are parameters
      ([Externals]); every call to one of them is appended to the trace of
      the world.
    - Console output ([print], [tqdm]) is not modelled. *)

From Stdlib Require Import String Ascii List ZArith Lia Bool Arith.
From Stdlib Require Import DecimalString.
Import ListNotations.
Open Scope string_scope.
Open Scope list_scope.

Set Implicit Arguments.

(* ================================================================== *)
(** * Python strings *)
(* ================================================================== *)

Module pystr.

(** The double quote, which a string literal of this file never holds. *)
Definition dq : string := String "034"%char "".

(** One-character string. *)
Definition chr (c : ascii) : string := String c "".

(** [q s] is [s] with every apostrophe turned into a double quote: the JSON
    texts of the examples are written with apostrophes. *)
Fixpoint q (s : string) : string :=
  match s with
  | "" => ""
  | String c s' =>
      String (if Ascii.eqb c "'"%char then "034"%char else c) (q s')
  end.

Fixpoint drop (n : nat) (s : string) : string :=
  match n, s with
  | O, _ => s
  | S _, "" => ""
  | S n', String _ s' => drop n' s'
  end.

Fixpoint take (n : nat) (s : string) : string :=
  match n, s with
  | O, _ => ""
  | S _, "" => ""
  | S n', String c s' => String c (take n' s')
  end.

(** [c in s] *)
Fixpoint contains (c : ascii) (s : string) : bool :=
  match s with
  | "" => false
  | String a s' => Ascii.eqb a c || contains c s'
  end.

(** [s.startswith(p)] *)
Fixpoint startswith (p s : string) : bool :=
  match p, s with
  | "", _ => true
  | String _ _, "" => false
  | String a p', String b s' => Ascii.eqb a b && startswith p' s'
  end.

(** [sub in s] for a substring [sub] *)
Fixpoint has_substring (sub s : string) : bool :=
  startswith sub s ||
  match s with
  | "" => false
  | String _ s' => has_substring sub s'
  end.

(** [s.endswith(p)], as a proposition *)
Definition endswith (p s : string) : Prop :=
  exists pre, s = (pre ++ p)%string.

(** [s.split(sep)] for a one-character separator *)
Fixpoint split (sep : ascii) (s : string) : list string :=
  match s with
  | "" => [""]
  | String c s' =>
      if Ascii.eqb c sep then "" :: split sep s'
      else match split sep s' with
           | [] => [chr c]
           | w :: ws => String c w :: ws
           end
  end.

(** [s.lstrip(c)] *)
Fixpoint lstrip (c : ascii) (s : string) : string :=
  match s with
  | "" => ""
  | String a s' => if Ascii.eqb a c then lstrip c s' else s
  end.

(** [s.rfind(c)]; [None] stands for [-1]. *)
Fixpoint rfind (c : ascii) (s : string) : option nat :=
  match s with
  | "" => None
  | String a s' =>
      match rfind c s' with
      | Some i => Some (S i)
      | None => if Ascii.eqb a c then Some 0 else None
      end
  end.

(** The last character, if any. *)
Fixpoint last_char (s : string) : option ascii :=
  match s with
  | "" => None
  | String a "" => Some a
  | String _ s' => last_char s'
  end.

Definition is_upper (c : ascii) : bool :=
  ((65 <=? nat_of_ascii c) && (nat_of_ascii c <=? 90))%nat.

Definition lower_char (c : ascii) : ascii :=
  if is_upper c then ascii_of_nat (nat_of_ascii c + 32) else c.

(** [s.lower()], on the ASCII letters *)
Fixpoint lower (s : string) : string :=
  match s with
  | "" => ""
  | String c s' => String (lower_char c) (lower s')
  end.

(** [str(n)] for an [int] *)
Definition of_Z (z : Z) : string := NilZero.string_of_int (Z.to_int z).

End pystr.

(* ================================================================== *)
(** * Exceptions and outcomes *)
(* ================================================================== *)

Inductive exn : Type :=
| FileNotFoundError (msg : string)
| NotADirectoryError (msg : string)
| IsADirectoryError (msg : string)
| ValueError (msg : string)
| JSONDecodeError (msg : string)      (* a subclass of ValueError *)
| StopIteration
| RecursionError
| AttributeError (msg : string)
| TypeError (msg : string)
| IndexError (msg : string)
| NotImplementedError (msg : string)
| PipelineError (msg : string)
| XMPSidecarError (msg : string)
| CalledProcessError (returncode : Z) (cmd : list string)
| APIError (msg : string).            (* whatever the service client raises *)

Inductive outcome (A : Type) : Type :=
| Returned (a : A)
| Raised (e : exn).
Arguments Returned {A} a.
Arguments Raised {A} e.

(** The text carried by an exception, [str(e)]; a failed process has none of
    its own in this model. *)
Definition message (e : exn) : string :=
  match e with
  | FileNotFoundError m | NotADirectoryError m | IsADirectoryError m
  | ValueError m | JSONDecodeError m | AttributeError m | TypeError m
  | IndexError m | NotImplementedError m | PipelineError m
  | XMPSidecarError m | APIError m => m
  | StopIteration | RecursionError | CalledProcessError _ _ => ""
  end.

(** Decidable equality with its specification, for dictionary keys and for
    the [in] operator on lists. *)
Class Eqb (K : Type) : Type := {
  eqb : K -> K -> bool;
  eqb_spec : forall x y, reflect (x = y) (eqb x y)
}.

#[export] Instance string_Eqb : Eqb string :=
  {| eqb := String.eqb; eqb_spec := String.eqb_spec |}.

(* ================================================================== *)
(** * pathlib: pure POSIX paths *)
(* ================================================================== *)

Module pathlib.
Import pystr.

(** A parsed path: the root ([""], ["/"] or ["//"]) and the components after
    it.  Python keeps the root as the first element of [_parts]; here it is
    a field of its own. *)
Record Path : Type := mkPath { root : string; parts : list string }.

(** [_PosixFlavour.splitroot] *)
Definition splitroot (part : string) : string * string :=
  if startswith "/" part then
    let stripped := lstrip "/"%char part in
    if (String.length part - String.length stripped =? 2)%nat
    then ("//", stripped)
    else ("/", stripped)
  else ("", part).

(** A component that parsing keeps: not empty and not ["."]. *)
Definition kept (x : string) : bool :=
  negb (String.eqb x "") && negb (String.eqb x ".").

(** [Path(s)]: [_Flavour.parse_parts] on a single string. *)
Definition of_str (s : string) : Path :=
  let '(r, rel) := splitroot s in
  mkPath r (filter kept (split "/"%char rel)).

(** [str(p)] *)
Definition str (p : Path) : string :=
  let s := (root p ++ String.concat "/" (parts p))%string in
  if String.eqb s "" then "." else s.

(** [p.name] *)
Definition name (p : Path) : string := last (parts p) "".

(** The split point of a file name: the index of its last dot, when the dot
    is neither the first nor the last character. *)
Definition suffix_index (nm : string) : option nat :=
  match rfind "."%char nm with
  | Some i =>
      if ((0 <? i) && (i <? String.length nm - 1))%nat then Some i else None
  | None => None
  end.

(** [p.suffix] *)
Definition suffix (p : Path) : string :=
  match suffix_index (name p) with
  | Some i => drop i (name p)
  | None => ""
  end.

(** [p.stem] *)
Definition stem (p : Path) : string :=
  match suffix_index (name p) with
  | Some i => take i (name p)
  | None => name p
  end.

(** [p.parent] *)
Definition parent (p : Path) : Path :=
  mkPath (root p) (removelast (parts p)).

(** [p / key] for a string [key]: [_make_child] with
    [join_parsed_parts]. *)
Definition joinpath (p : Path) (key : string) : Path :=
  let k := of_str key in
  if String.eqb (root k) "" then mkPath (root p) (parts p ++ parts k)
  else k.

(** [p._make_child_relpath(part)] *)
Definition make_child_relpath (p : Path) (part : string) : Path :=
  mkPath (root p) (parts p ++ [part]).

(** [p == p']: the parsed forms are compared. *)
Definition Path_eq_dec (p p' : Path) : {p = p'} + {p <> p'}.
Proof. decide equality; [apply (list_eq_dec string_dec) | apply string_dec]. Defined.

Definition Path_eqb (p p' : Path) : bool :=
  if Path_eq_dec p p' then true else false.

(** A path as parsing produces it. *)
Definition wf_part (x : string) : Prop :=
  x <> "" /\ x <> "." /\ contains "/"%char x = false.

Definition wf (p : Path) : Prop :=
  (root p = "" \/ root p = "/" \/ root p = "//") /\
  Forall wf_part (parts p).

End pathlib.

Abbreviation Path := pathlib.Path.
Infix "//" := pathlib.joinpath (at level 40, left associativity).

#[export] Instance Path_Eqb : Eqb Path.
Proof.
  refine {| eqb := pathlib.Path_eqb |}.
  intros x y. unfold pathlib.Path_eqb.
  destruct (pathlib.Path_eq_dec x y); constructor; assumption.
Defined.

(* ================================================================== *)
(** * fnmatch: shell patterns *)
(* ================================================================== *)

Module fnmatch.
Import pystr.

(** What one piece of a translated pattern matches: any run of characters
    ([*]), any one character ([?]), one character of a bracket expression,
    or one given character. *)
Inductive item : Type :=
| Star
| AnyChar
| Class (stuff : string)
| Lit (c : ascii).

(** [s.find(c)]; [None] stands for [-1]. *)
Fixpoint index_of (c : ascii) (s : string) : option nat :=
  match s with
  | "" => None
  | String a s' =>
      if Ascii.eqb a c then Some 0 else option_map S (index_of c s')
  end.

(** The index, in the text after an opening bracket, of the bracket that
    closes the expression: a leading [!], and a closing bracket right after
    it, are members of the expression, as in the [j] scan of [translate]. *)
Definition bracket_end (r : string) : option nat :=
  let j0 := if startswith "!" r then 1 else 0 in
  let j1 := if startswith "]" (drop j0 r) then S j0 else j0 in
  option_map (fun k => j1 + k) (index_of "]"%char (drop j1 r)).

(** [translate]: [skip] counts the characters of a bracket expression
    still to be passed over, [after_star] tells that the last piece added
    is a star (consecutive stars are compressed into one). *)
Fixpoint translate_from (skip : nat) (after_star : bool) (pat : string)
  : list item :=
  match pat with
  | "" => []
  | String c r =>
      match skip with
      | S k => translate_from k after_star r
      | O =>
          if Ascii.eqb c "*"%char then
            if after_star then translate_from 0 true r
            else Star :: translate_from 0 true r
          else if Ascii.eqb c "?"%char then
            AnyChar :: translate_from 0 false r
          else if Ascii.eqb c "["%char then
            match bracket_end r with
            | None => Lit "["%char :: translate_from 0 false r
            | Some j => Class (take j r) :: translate_from (S j) false r
            end
          else Lit c :: translate_from 0 false r
      end
  end.

Definition translate (pat : string) : list item :=
  translate_from 0 false pat.

(** Membership in the body of a bracket expression: [lo-hi] is a range
    (empty when [lo > hi]), every other character stands for itself.  This
    is what the character class built by [translate] denotes once its
    chunks are merged and escaped. *)
Fixpoint in_body (body : string) (c : ascii) : bool :=
  match body with
  | "" => false
  | String lo (String "-"%char (String hi rest)) =>
      ((nat_of_ascii lo <=? nat_of_ascii c)%nat &&
       (nat_of_ascii c <=? nat_of_ascii hi)%nat) || in_body rest c
  | String a rest => Ascii.eqb a c || in_body rest c
  end.

Definition in_class (stuff : string) (c : ascii) : bool :=
  match stuff with
  | String "!"%char body => negb (in_body body c)
  | _ => in_body stuff c
  end.

(** Full match of a name against translated pieces (the compiled regular
    expression is applied with [fullmatch], dot matching every
    character, case-sensitively on POSIX). *)
Fixpoint matches (ts : list item) (s : string) : bool :=
  match ts with
  | [] => String.eqb s ""
  | Star :: ts' =>
      (fix star (s : string) : bool :=
         matches ts' s ||
         match s with
         | "" => false
         | String _ s' => star s'
         end) s
  | AnyChar :: ts' =>
      match s with
      | "" => false
      | String _ s' => matches ts' s'
      end
  | Class stuff :: ts' =>
      match s with
      | "" => false
      | String a s' => in_class stuff a && matches ts' s'
      end
  | Lit c :: ts' =>
      match s with
      | "" => false
      | String a s' => Ascii.eqb a c && matches ts' s'
      end
  end.

(** [re.compile(fnmatch.translate(pat)).fullmatch(name) is not None] *)
Definition fnmatch (pat name : string) : bool := matches (translate pat) name.

End fnmatch.

(* ================================================================== *)
(** * The file system and pathlib's glob *)
(* ================================================================== *)

Inductive entry_kind : Type :=
| Directory
| RegularFile (content : string).

(** The existing entries, in scan order. *)
Definition FS : Type := list (Path * entry_kind).

Module os.
Import pystr pathlib.

Definition is_directory (k : entry_kind) : bool :=
  match k with Directory => true | RegularFile _ => false end.

(** [p.exists()] *)
Definition exists_ (fs : FS) (p : Path) : bool :=
  existsb (fun e => Path_eqb (fst e) p) fs.

(** [p.is_dir()] *)
Definition is_dir (fs : FS) (p : Path) : bool :=
  existsb (fun e => Path_eqb (fst e) p && is_directory (snd e)) fs.

(** The kind of the entry at [p], if there is one. *)
Definition lookup (fs : FS) (p : Path) : option entry_kind :=
  option_map snd (find (fun e => Path_eqb (fst e) p) fs).

(** [open(p).read()] *)
Definition read (fs : FS) (p : Path) : outcome string :=
  match lookup fs p with
  | Some (RegularFile content) => Returned content
  | Some Directory =>
      Raised (IsADirectoryError ("[Errno 21] Is a directory: '" ++ str p ++ "'"))
  | None =>
      Raised (FileNotFoundError
                ("[Errno 2] No such file or directory: '" ++ str p ++ "'"))
  end.

(** [e] is an entry of the directory [p]. *)
Definition child_of (p : Path) (e : Path) : bool :=
  negb (match parts e with [] => true | _ => false end) &&
  Path_eqb (parent e) p.

(** [e] lies below the directory [p], at any depth. *)
Fixpoint strict_prefix (l m : list string) : bool :=
  match l, m with
  | [], [] => false
  | [], _ :: _ => true
  | _ :: _, [] => false
  | x :: l', y :: m' => String.eqb x y && strict_prefix l' m'
  end.

Definition below (p : Path) (e : Path) : bool :=
  String.eqb (root e) (root p) && strict_prefix (parts p) (parts e).

(** [os.scandir(p)]: the names of the entries of [p], each with its
    [is_dir()]. *)
Definition scandir (fs : FS) (p : Path) : list (string * bool) :=
  map (fun e => (name (fst e), is_directory (snd e)))
      (filter (fun e => child_of p (fst e)) fs).

End os.

Module glob.
Import pystr pathlib os.

(** [_is_wildcard_pattern] *)
Definition is_wildcard_pattern (pat : string) : bool :=
  contains "*"%char pat || contains "?"%char pat || contains "["%char pat.

(** [_RecursiveWildcardSelector._iterate_directories]: the starting
    directory, then every directory below it. *)
Definition iterate_directories (fs : FS) (parent_path : Path) : list Path :=
  parent_path ::
  map fst (filter (fun e => is_directory (snd e) && below parent_path (fst e)) fs).

(** The [yielded] set of the recursive selector: a path is yielded the
    first time it comes up. *)
Fixpoint dedup (yielded : list Path) (l : list Path) : list Path :=
  match l with
  | [] => []
  | p :: l' =>
      if existsb (Path_eqb p) yielded then dedup yielded l'
      else p :: dedup (p :: yielded) l'
  end.

(** [_make_selector] raises when [**] is only a part of a component. *)
Fixpoint invalid_pattern (pattern_parts : list string) : bool :=
  match pattern_parts with
  | [] => false
  | pat :: child_parts =>
      if String.eqb pat "" then false
      else if String.eqb pat "**" then invalid_pattern child_parts
      else has_substring "**" pat || invalid_pattern child_parts
  end.

(** The chain of selectors built by [_make_selector], applied to a
    directory: [_select_from]. *)
Fixpoint select_from (fs : FS) (pattern_parts : list string)
         (parent_path : Path) : list Path :=
  match pattern_parts with
  | [] => [parent_path]                          (* _TerminatingSelector *)
  | pat :: child_parts =>
      let dironly := match child_parts with [] => false | _ => true end in
      if String.eqb pat "" then [parent_path]    (* _TerminatingSelector *)
      else if String.eqb pat "**" then           (* _RecursiveWildcardSelector *)
        dedup [] (flat_map (select_from fs child_parts)
                           (iterate_directories fs parent_path))
      else if is_wildcard_pattern pat then       (* _WildcardSelector *)
        flat_map
          (fun entry =>
             if dironly && negb (snd entry) then []
             else if fnmatch.fnmatch pat (fst entry)
                  then select_from fs child_parts
                         (make_child_relpath parent_path (fst entry))
                  else [])
          (scandir fs parent_path)
      else                                       (* _PreciseSelector *)
        let path := make_child_relpath parent_path pat in
        if (if dironly then is_dir fs path else exists_ fs path)
        then select_from fs child_parts path
        else []
  end.

(** [list(self.glob(pattern))] *)
Definition glob (fs : FS) (self : Path) (pattern : string)
  : outcome (list Path) :=
  if String.eqb pattern "" then
    Raised (ValueError "Unacceptable pattern: ''")
  else
    let pp := of_str pattern in
    if negb (String.eqb (root pp) "") then
      Raised (NotImplementedError "Non-relative patterns are unsupported")
    else
      let pattern_parts :=
        parts pp ++
        match last_char pattern with
        | Some c => if Ascii.eqb c "/"%char then [""] else []
        | None => []
        end in
      match pattern_parts with
      | [] => Raised (IndexError "tuple index out of range")
      | pat :: _ =>
          if invalid_pattern pattern_parts then
            Raised (ValueError
              "Invalid pattern: '**' can only be an entire path component")
          else if String.eqb pat "" then
            Raised (AttributeError
              "'_TerminatingSelector' object has no attribute 'select_from'")
          else if is_dir fs self then
            Returned (select_from fs pattern_parts self)
          else Returned []
      end.

End glob.

(* ================================================================== *)
(** * file_finder *)
(* ================================================================== *)

Definition default_extensions : list string := [".arw"; ".dng"; ".ARW"; ".DNG"].

(** The loop of [find_raw_file] over the extensions:
    [for ext in extensions: ... if matches: return matches[0]]. *)
Fixpoint first_match (fs : FS) (base_path : Path) (jpeg_stem : string)
         (extensions : list string) : outcome (option Path) :=
  match extensions with
  | [] => Returned None
  | ext :: rest =>
      let pattern := ("**/" ++ jpeg_stem ++ ext)%string in
      match glob.glob fs base_path pattern with
      | Raised e => Raised e
      | Returned [] => first_match fs base_path jpeg_stem rest
      | Returned (m :: _) => Returned (Some m)
      end
  end.

Definition find_raw_file (fs : FS) (jpeg_path base_path : Path)
           (extensions : option (list string)) : outcome (option Path) :=
  let extensions :=
    match extensions with
    | None => default_extensions
    | Some l => l
    end in
  if negb (os.exists_ fs base_path) then
    Raised (FileNotFoundError
              ("Base path does not exist: " ++ pathlib.str base_path))
  else
    let jpeg_stem := pathlib.stem jpeg_path in
    first_match fs base_path jpeg_stem extensions.

(* ================================================================== *)
(** * Python dictionaries and decoded JSON values *)
(* ================================================================== *)

(** A [dict] keeps its keys in insertion order; assigning to a key that is
    present replaces the value where the key stands. *)
Module dict.
Section Dict.
Context {K V : Type} `{Eqb K}.

Definition t : Type := list (K * V).

(** [d[k] = v] *)
Fixpoint set (d : t) (k : K) (v : V) : t :=
  match d with
  | [] => [(k, v)]
  | (k', v') :: d' =>
      if eqb k' k then (k', v) :: d' else (k', v') :: set d' k v
  end.

(** [d.get(k)] *)
Fixpoint get (d : t) (k : K) : option V :=
  match d with
  | [] => None
  | (k', v') :: d' => if eqb k' k then Some v' else get d' k
  end.

(** [list(d.keys())], [list(d.values())] *)
Definition keys (d : t) : list K := map fst d.
Definition values (d : t) : list V := map snd d.

(** [dict(pairs)] *)
Definition of_list (pairs : list (K * V)) : t :=
  fold_left (fun d kv => set d (fst kv) (snd kv)) pairs [].
End Dict.
Arguments t : clear implicits.
End dict.

(** The values [json.loads] produces.  A float is kept as the literal it was
    read from. *)
#[warnings="-register-all"]
Inductive pyval : Type :=
| PNone
| PBool (b : bool)
| PInt (z : Z)
| PFloat (literal : string)
| PStr (s : string)
| PList (l : list pyval)
| PDict (d : list (string * pyval)).

(** [type(v).__name__] *)
Definition type_name (v : pyval) : string :=
  match v with
  | PNone => "NoneType"
  | PBool _ => "bool"
  | PInt _ => "int"
  | PFloat _ => "float"
  | PStr _ => "str"
  | PList _ => "list"
  | PDict _ => "dict"
  end.

(* ================================================================== *)
(** * json.loads *)
(* ================================================================== *)

(** The decoder of CPython 3.11 (the C scanner), on the text that remains
    to be read.  A [JSONDecodeError] carries its message without the
    position that Python appends to it. *)
Module json.
Import pystr.

Definition is_ws (c : ascii) : bool :=
  Ascii.eqb c " "%char || Ascii.eqb c "009"%char ||
  Ascii.eqb c "010"%char || Ascii.eqb c "013"%char.

(** [_w(s, end).end()]: pass over white space. *)
Fixpoint skip_ws (s : string) : string :=
  match s with
  | "" => ""
  | String c s' => if is_ws c then skip_ws s' else s
  end.

Definition is_digit (c : ascii) : bool :=
  ((48 <=? nat_of_ascii c) && (nat_of_ascii c <=? 57))%nat.

Definition hex_digit (c : ascii) : option N :=
  let n := N_of_ascii c in
  if ((48 <=? n) && (n <=? 57))%N then Some (n - 48)%N
  else if ((97 <=? n) && (n <=? 102))%N then Some (n - 87)%N
  else if ((65 <=? n) && (n <=? 70))%N then Some (n - 55)%N
  else None.

Definition hex4 (a b c d : ascii) : option N :=
  match hex_digit a, hex_digit b, hex_digit c, hex_digit d with
  | Some x, Some y, Some z, Some w => Some (((x * 16 + y) * 16 + z) * 16 + w)%N
  | _, _, _, _ => None
  end.

(** [chr(n)], in UTF-8. *)
Definition utf8 (n : N) : string :=
  let b := ascii_of_N in
  if (n <? 128)%N then chr (b n)
  else if (n <? 2048)%N then
    String (b (192 + n / 64)%N) (chr (b (128 + n mod 64)%N))
  else if (n <? 65536)%N then
    String (b (224 + n / 4096)%N)
      (String (b (128 + (n / 64) mod 64)%N) (chr (b (128 + n mod 64)%N)))
  else
    String (b (240 + n / 262144)%N)
      (String (b (128 + (n / 4096) mod 64)%N)
         (String (b (128 + (n / 64) mod 64)%N) (chr (b (128 + n mod 64)%N)))).

(** The table [BACKSLASH] of one-character escapes. *)
Definition BACKSLASH (esc : ascii) : option ascii :=
  if Ascii.eqb esc "034"%char then Some "034"%char
  else if Ascii.eqb esc "\"%char then Some "\"%char
  else if Ascii.eqb esc "/"%char then Some "/"%char
  else if Ascii.eqb esc "b"%char then Some "008"%char
  else if Ascii.eqb esc "f"%char then Some "012"%char
  else if Ascii.eqb esc "n"%char then Some "010"%char
  else if Ascii.eqb esc "r"%char then Some "013"%char
  else if Ascii.eqb esc "t"%char then Some "009"%char
  else None.

Definition unterminated : exn :=
  JSONDecodeError "Unterminated string starting at".
Definition invalid_uXXXX : exn := JSONDecodeError "Invalid \uXXXX escape".

(** Put decoded text in front of what the rest of the string decodes to. *)
Definition push (x : string) (r : outcome (string * string))
  : outcome (string * string) :=
  match r with
  | Returned (str, rest) => Returned ((x ++ str)%string, rest)
  | Raised e => Raised e
  end.

Definition is_high_surrogate (n : N) : bool := ((55296 <=? n) && (n <=? 56319))%N.
Definition is_low_surrogate (n : N) : bool := ((56320 <=? n) && (n <=? 57343))%N.

(** [scanstring(s, end, strict=True)], on the text after the opening
    quote: the decoded string and the text after the closing quote.  As in
    the C scanner, a [\uXXXX] escape needs a character after its four
    digits, and a second escape is read as the low half of a surrogate
    pair only when a character follows it too. *)
Fixpoint scanstring (s : string) : outcome (string * string) :=
  match s with
  | "" => Raised unterminated
  | String c rest =>
      if Ascii.eqb c "034"%char then Returned ("", rest)
      else if Ascii.eqb c "\"%char then
        match rest with
        | "" => Raised unterminated
        | String esc rest1 =>
            if Ascii.eqb esc "u"%char then
              match rest1 with
              | String h1 (String h2 (String h3 (String h4
                  ((String _ _) as rest2)))) =>
                  match hex4 h1 h2 h3 h4 with
                  | None => Raised invalid_uXXXX
                  | Some uni =>
                      if is_high_surrogate uni then
                        match rest2 with
                        | String b1 (String b2
                            (String g1 (String g2 (String g3 (String g4
                               ((String _ _) as rest4)))))) =>
                            if Ascii.eqb b1 "\"%char && Ascii.eqb b2 "u"%char then
                              match hex4 g1 g2 g3 g4 with
                              | None => Raised invalid_uXXXX
                              | Some uni2 =>
                                  if is_low_surrogate uni2 then
                                    push (utf8 (65536 + ((uni - 55296) * 1024
                                                         + (uni2 - 56320)))%N)
                                         (scanstring rest4)
                                  else push (utf8 uni) (scanstring rest2)
                              end
                            else push (utf8 uni) (scanstring rest2)
                        | _ => push (utf8 uni) (scanstring rest2)
                        end
                      else push (utf8 uni) (scanstring rest2)
                  end
              | _ => Raised invalid_uXXXX
              end
            else
              match BACKSLASH esc with
              | Some char => push (chr char) (scanstring rest1)
              | None => Raised (JSONDecodeError "Invalid \escape")
              end
        end
      else if (nat_of_ascii c <? 32)%nat then
        Raised (JSONDecodeError "Invalid control character at")
      else push (chr c) (scanstring rest)
  end.

(** The digits at the front of [s], and what follows them. *)
Fixpoint span_digits (s : string) : string * string :=
  match s with
  | "" => ("", "")
  | String c s' =>
      if is_digit c then
        let '(ds, r) := span_digits s' in (String c ds, r)
      else ("", s)
  end.

(** [int(digits)] for a run of decimal digits. *)
Definition Z_of_digits (ds : string) : Z :=
  fold_left (fun acc c => (acc * 10 + Z.of_nat (nat_of_ascii c - 48))%Z)
            (list_ascii_of_string ds) 0%Z.

(** The integer part of a number: [0], or a digit from 1 to 9 followed by
    digits. *)
Definition scan_int (s : string) : option (string * string) :=
  match s with
  | String c r =>
      if Ascii.eqb c "0"%char then Some ("0", r)
      else if is_digit c then Some (span_digits s)
      else None
  | "" => None
  end.

(** The fraction, when a digit follows the point. *)
Definition scan_frac (r : string) : string * string :=
  if startswith "." r then
    let '(fs, rf) := span_digits (drop 1 r) in
    if String.eqb fs "" then ("", r) else (String "."%char fs, rf)
  else ("", r).

(** The exponent, when a digit follows the [e] and its sign. *)
Definition scan_exp (r : string) : string * string :=
  match r with
  | String e re =>
      if Ascii.eqb e "e"%char || Ascii.eqb e "E"%char then
        let '(sg, rs) :=
          if startswith "+" re then ("+", drop 1 re)
          else if startswith "-" re then ("-", drop 1 re)
          else ("", re) in
        let '(es, rd) := span_digits rs in
        if String.eqb es "" then ("", r)
        else ((String e sg ++ es)%string, rd)
      else ("", r)
  | "" => ("", r)
  end.

(** The number at the front of [s], if there is one ([NUMBER_RE]): an
    optional minus sign and an integer part, then a fraction and an exponent
    when they are complete. *)
Definition match_number (s : string) : option (pyval * string) :=
  let sign := if startswith "-" s then "-" else "" in
  match scan_int (drop (String.length sign) s) with
  | None => None
  | Some (ds, r) =>
      let '(frac, r1) := scan_frac r in
      let '(exp, r2) := scan_exp r1 in
      if String.eqb frac "" && String.eqb exp "" then
        Some (PInt (if String.eqb sign "-" then - Z_of_digits ds
                    else Z_of_digits ds)%Z, r2)
      else Some (PFloat (sign ++ ds ++ frac ++ exp), r2)
  end.

Definition expecting_value : exn := JSONDecodeError "Expecting value".
Definition expecting_name : exn :=
  JSONDecodeError "Expecting property name enclosed in double quotes".
Definition expecting_comma : exn := JSONDecodeError "Expecting ',' delimiter".
Definition expecting_colon : exn := JSONDecodeError "Expecting ':' delimiter".

(** [scan_once], with [JSONArray] and [JSONObject].  The recursion is on
    [fuel]; running out of it is the interpreter's [RecursionError].
    [array_items] reads the values of an array from the first one on,
    [object_items] the members of an object from the text after the
    quote that opens a key. *)
Fixpoint scan_once (fuel : nat) (s : string) : outcome (pyval * string) :=
  match fuel with
  | O => Raised RecursionError
  | S f =>
      match s with
      | "" => Raised StopIteration
      | String c rest =>
          if Ascii.eqb c "034"%char then
            match scanstring rest with
            | Returned (str, r) => Returned (PStr str, r)
            | Raised e => Raised e
            end
          else if Ascii.eqb c "{"%char then
            match skip_ws rest with
            | String c' r =>
                if Ascii.eqb c' "}"%char then Returned (PDict [], r)
                else if Ascii.eqb c' "034"%char then
                  match object_items f r with
                  | Returned (pairs, r') =>
                      Returned (PDict (dict.of_list pairs), r')
                  | Raised e => Raised e
                  end
                else Raised expecting_name
            | "" => Raised expecting_name
            end
          else if Ascii.eqb c "["%char then
            if startswith "]" (skip_ws rest) then
              Returned (PList [], drop 1 (skip_ws rest))
            else
              match array_items f (skip_ws rest) with
              | Returned (values, r') => Returned (PList values, r')
              | Raised e => Raised e
              end
          else if startswith "null" s then Returned (PNone, drop 4 s)
          else if startswith "true" s then Returned (PBool true, drop 4 s)
          else if startswith "false" s then Returned (PBool false, drop 5 s)
          else
            match match_number s with
            | Some res => Returned res
            | None =>
                if startswith "NaN" s then Returned (PFloat "NaN", drop 3 s)
                else if startswith "Infinity" s then
                  Returned (PFloat "Infinity", drop 8 s)
                else if startswith "-Infinity" s then
                  Returned (PFloat "-Infinity", drop 9 s)
                else Raised StopIteration
            end
      end
  end

with array_items (fuel : nat) (s : string) : outcome (list pyval * string) :=
  match fuel with
  | O => Raised RecursionError
  | S f =>
      match scan_once f s with
      | Raised StopIteration => Raised expecting_value
      | Raised e => Raised e
      | Returned (value, r) =>
          match skip_ws r with
          | String c r' =>
              if Ascii.eqb c "]"%char then Returned ([value], r')
              else if Ascii.eqb c ","%char then
                match array_items f (skip_ws r') with
                | Returned (values, r'') => Returned (value :: values, r'')
                | Raised e => Raised e
                end
              else Raised expecting_comma
          | "" => Raised expecting_comma
          end
      end
  end

with object_items (fuel : nat) (s : string)
  : outcome (list (string * pyval) * string) :=
  match fuel with
  | O => Raised RecursionError
  | S f =>
      match scanstring s with
      | Raised e => Raised e
      | Returned (key, r) =>
          if startswith ":" (skip_ws r) then
            match scan_once f (skip_ws (drop 1 (skip_ws r))) with
            | Raised StopIteration => Raised expecting_value
            | Raised e => Raised e
            | Returned (value, r2) =>
                match skip_ws r2 with
                | String c r3 =>
                    if Ascii.eqb c "}"%char then Returned ([(key, value)], r3)
                    else if Ascii.eqb c ","%char then
                      if startswith dq (skip_ws r3) then
                        match object_items f (drop 1 (skip_ws r3)) with
                        | Returned (pairs, r5) =>
                            Returned ((key, value) :: pairs, r5)
                        | Raised e => Raised e
                        end
                      else Raised expecting_name
                    else Raised expecting_comma
                | "" => Raised expecting_comma
                end
            end
          else Raised expecting_colon
      end
  end.

(** The byte order mark, U+FEFF. *)
Definition BOM : string := utf8 65279.

(** [json.loads(s)] for a [str]: [JSONDecoder.decode]. *)
Definition loads (s : string) : outcome pyval :=
  if startswith BOM s then
    Raised (JSONDecodeError "Unexpected UTF-8 BOM (decode using utf-8-sig)")
  else
    match scan_once (2 * String.length s + 1) (skip_ws s) with
    | Raised StopIteration => Raised expecting_value
    | Raised e => Raised e
    | Returned (obj, r) =>
        if String.eqb (skip_ws r) "" then Returned obj
        else Raised (JSONDecodeError "Extra data")
    end.

End json.


(** [find_raw_files]: the loop filling [results]. *)
Fixpoint find_raw_files_from (fs : FS) (jpeg_paths : list Path) (base_path : Path)
         (extensions : option (list string))
         (results : dict.t Path (option Path))
  : outcome (dict.t Path (option Path)) :=
  match jpeg_paths with
  | [] => Returned results
  | jpeg_path :: rest =>
      match find_raw_file fs jpeg_path base_path extensions with
      | Raised e => Raised e
      | Returned raw_file =>
          find_raw_files_from fs rest base_path extensions
            (dict.set results jpeg_path raw_file)
      end
  end.

Definition find_raw_files (fs : FS) (jpeg_paths : list Path) (base_path : Path)
           (extensions : option (list string))
  : outcome (dict.t Path (option Path)) :=
  find_raw_files_from fs jpeg_paths base_path extensions [].

(* ================================================================== *)
(** * The world: file system, environment, external calls *)
(* ================================================================== *)

(** What [generate_content_stream] is called with. *)
Record Request : Type := mkRequest {
  req_api_key : string;
  req_model : string;
  req_image : string;
  req_mime_type : string;
  req_prompt : string;
  req_thinking_budget : Z;
  req_response_mime_type : string
}.

(** The calls that leave the program. *)
Inductive event : Type :=
| Spawned (cmd : list string)         (* subprocess.run(cmd, ...) *)
| Streamed (req : Request).           (* client.models.generate_content_stream *)

Record World : Type := mkWorld {
  fs : FS;
  environ : dict.t string string;
  trace : list event                  (* oldest call first *)
}.

(** The two external collaborators, each a function of the calls made so
    far: the exit status of the process that is run (or the exception that
    [subprocess.run] raises when it cannot start it), and the [text] of
    every chunk the service streams, [None] for a chunk without text (or the
    exception the client raises). *)
Record Externals : Type := mkExternals {
  exit_status : list event -> list string -> outcome Z;
  stream : list event -> Request -> outcome (list (option string))
}.

(** Computations that read and extend the world and may raise. *)
Definition M (A : Type) : Type := World -> outcome A * World.

Definition ret {A : Type} (a : A) : M A := fun w => (Returned a, w).

Definition raise {A : Type} (e : exn) : M A := fun w => (Raised e, w).

Definition bind {A B : Type} (c : M A) (k : A -> M B) : M B :=
  fun w =>
    match c w with
    | (Returned a, w') => k a w'
    | (Raised e, w') => (Raised e, w')
    end.

Notation "x <- c ;; k" := (bind c (fun x => k))
  (at level 61, c at next level, right associativity).
Notation "c ;; k" := (bind c (fun _ => k))
  (at level 61, right associativity).

(** A call that only reads the file system. *)
Definition with_fs {A : Type} (f : FS -> outcome A) : M A :=
  fun w => (f (fs w), w).

Definition getenv (name : string) : M (option string) :=
  fun w => (Returned (dict.get (environ w) name), w).

(** [for x in l: body(x)] *)
Fixpoint for_each {A : Type} (l : list A) (body : A -> M unit) : M unit :=
  match l with
  | [] => ret tt
  | x :: l' => body x ;; for_each l' body
  end.

(** [x in l] *)
Definition mem {K : Type} `{Eqb K} (x : K) (l : list K) : bool :=
  existsb (eqb x) l.

Definition is_empty {A : Type} (l : list A) : bool :=
  match l with [] => true | _ :: _ => false end.

(* ================================================================== *)
(** * xmp_tagger *)
(* ================================================================== *)

(** What the writer asks of its [keywords] argument: its truth value, and
    the text [f"{keyword}"] of each of the items that iterating it yields
    (or the exception that iterating it raises). *)
Class Keywords (K : Type) : Type := {
  truth : K -> bool;
  subjects : K -> outcome (list string)
}.

(** [list[str]], the declared type. *)
#[export] Instance list_Keywords : Keywords (list string) :=
  {| truth := fun l => negb (is_empty l); subjects := fun l => Returned l |}.

(** [return raw_file.parent / f"{raw_file.stem}.xmp"] *)
Definition get_xmp_path (raw_file : Path) : Path :=
  pathlib.parent raw_file // (pathlib.stem raw_file ++ ".xmp").

Definition check_xmp_exists (fs : FS) (raw_file : Path) : bool :=
  os.exists_ fs (get_xmp_path raw_file).

(** [(files_with_xmp, files_without_xmp)] *)
Definition ensure_xmp_sidecars (fs : FS) (raw_files : list Path)
  : list Path * list Path :=
  partition (check_xmp_exists fs) raw_files.

Section Effects.

Variable X : Externals.

(** [subprocess.run(cmd, capture_output=True, text=True, check=True)]: the
    call is recorded, and a non-zero exit status raises. *)
Definition subprocess_run (cmd : list string) : M Z :=
  fun w =>
    let w' := mkWorld (fs w) (environ w) (trace w ++ [Spawned cmd]) in
    match exit_status X (trace w) cmd with
    | Returned returncode =>
        if Z.eqb returncode 0 then (Returned returncode, w')
        else (Raised (CalledProcessError returncode cmd), w')
    | Raised e => (Raised e, w')
    end.

(** The argument list of the exiftool call. *)
Definition exiftool_cmd (exiftool_path : string) (keywords : list string)
           (xmp_file : Path) : list string :=
  [exiftool_path; "-overwrite_original"]
  ++ map (fun keyword => ("-XMP-dc:Subject+=" ++ keyword)%string) keywords
  ++ [pathlib.str xmp_file].

Definition add_keywords_to_xmp {K : Type} `{Keywords K}
           (xmp_file : Path) (keywords : K) (exiftool_path : string) : M unit :=
  present <- with_fs (fun fs => Returned (os.exists_ fs xmp_file)) ;;
  if negb present then
    raise (FileNotFoundError ("XMP file not found: " ++ pathlib.str xmp_file))
  else if negb (truth keywords) then
    ret tt
  else
    items <- (fun w => (subjects keywords, w)) ;;
    let cmd := exiftool_cmd exiftool_path items xmp_file in
    returncode <- subprocess_run cmd ;;
    if negb (Z.eqb returncode 0) then raise (CalledProcessError returncode cmd)
    else ret tt.

Definition add_keywords_to_raw {K : Type} `{Keywords K}
           (raw_file : Path) (keywords : K) (exiftool_path : string) : M unit :=
  present <- with_fs (fun fs => Returned (os.exists_ fs raw_file)) ;;
  if negb present then
    raise (FileNotFoundError ("RAW file not found: " ++ pathlib.str raw_file))
  else
    parts <- with_fs (fun fs => Returned (ensure_xmp_sidecars fs [raw_file])) ;;
    if negb (is_empty (snd parts)) then
      raise (XMPSidecarError
               ("Missing XMP sidecar file for " ++ pathlib.str raw_file
                ++ String "010"%char "Expected: "
                ++ pathlib.str (get_xmp_path raw_file)))
    else
      add_keywords_to_xmp (get_xmp_path raw_file) keywords exiftool_path.

Definition batch_add_keywords {K : Type} `{Keywords K}
           (raw_files_keywords : dict.t Path K) (exiftool_path : string)
  : M unit :=
  let raw_files := dict.keys raw_files_keywords in
  (* Check all files exist *)
  for_each raw_files
    (fun raw_file =>
       present <- with_fs (fun fs => Returned (os.exists_ fs raw_file)) ;;
       if negb present then
         raise (FileNotFoundError
                  ("RAW file not found: " ++ pathlib.str raw_file))
       else ret tt) ;;
  (* Check which files have XMP sidecars *)
  parts <- with_fs (fun fs => Returned (ensure_xmp_sidecars fs raw_files)) ;;
  let files_with_xmp := fst parts in
  (* Only add keywords to files that have XMP sidecars *)
  for_each raw_files_keywords
    (fun item =>
       let raw_file := fst item in
       let keywords := snd item in
       if mem raw_file files_with_xmp && truth keywords then
         add_keywords_to_xmp (get_xmp_path raw_file) keywords exiftool_path
       else ret tt).

End Effects.

(* ================================================================== *)
(** * keyword_generator *)
(* ================================================================== *)

Definition mime_types : dict.t string string :=
  [(".jpg", "image/jpeg"); (".jpeg", "image/jpeg"); (".png", "image/png");
   (".gif", "image/gif"); (".webp", "image/webp"); (".bmp", "image/bmp");
   (".tiff", "image/tiff"); (".tif", "image/tiff")].

Definition _get_mime_type (image_path : Path) : string :=
  let extension := pystr.lower (pathlib.suffix image_path) in
  match dict.get mime_types extension with
  | Some mime => mime
  | None => "image/jpeg"
  end.

(** The prompt, around the text of the taxonomy. *)
Definition prompt_head : string :=
  let dq := pystr.dq in
  ("I have a keyword taxonomy that I use in my lightroom catalog. I will share an image and you must return the applicable " ++ dq ++ "leaf" ++ dq ++ " keywords.

Keyword Taxonomy:
")%string.

Definition prompt_tail : string :=
  let dq := pystr.dq in
  ("

Instructions:
1. Carefully analyze the image content, including subjects, locations, actions, colors, mood, composition, and any other relevant details
2. Select ONLY keywords from the provided taxonomy that accurately describe the image
3. Choose keywords that are specific and DIRECTLY relevant - don't include generic keywords unless they truly apply.
   For instance, all pictures might have a light source but unless a picture's main subject is that, it doesn't apply
4. In each category, choose atmost two keywords. Keep the total number of keywords to around 5-6 most important keywords and a maximum of 10.
5. Return your response as a JSON object with a single key " ++ dq ++ "keywords" ++ dq ++ " containing an array of keyword strings
6. Use the spellings and casing as it is from the taxonomy.

Example response format:
{" ++ dq ++ "keywords" ++ dq ++ ": [" ++ dq ++ "landscape" ++ dq ++ ", " ++ dq ++ "mountain" ++ dq ++ ", " ++ dq ++ "sunset" ++ dq ++ ", " ++ dq ++ "nature" ++ dq ++ ", " ++ dq ++ "outdoor" ++ dq ++ "]}

Start by describing what the photo is about in a few sentences in your thoughts. For instance, " ++ dq ++ "This is a street photography shot of a person walking on a street. It seems to be composed with the rule of thirds but this is not prominent enough. The colors are very pastel." ++ dq ++ "
Then select the most important keywords from the taxonomy in your response. For instance, " ++ dq ++ "street photography" ++ dq ++ ", " ++ dq ++ "dreamy" ++ dq ++ ", " ++ dq ++ "walking" ++ dq ++ ".

Now analyze the image and provide the keywords. ")%string.

Definition make_prompt (taxonomy_content : string) : string :=
  prompt_head ++ taxonomy_content ++ prompt_tail.

(** The loop over the streamed chunks:
    [if chunk.text: response_text += chunk.text]. *)
Definition concat_chunks (chunks : list (option string)) : string :=
  fold_left
    (fun response_text chunk =>
       match chunk with
       | Some text =>
           if String.eqb text "" then response_text
           else (response_text ++ text)%string
       | None => response_text
       end)
    chunks "".

(** [result.get("keywords", [])] *)
Definition get_keywords (result : pyval) : outcome pyval :=
  match result with
  | PDict d =>
      Returned (match dict.get d "keywords" with
                | Some keywords => keywords
                | None => PList []
                end)
  | _ =>
      Raised (AttributeError
                ("'" ++ type_name result ++ "' object has no attribute 'get'"))
  end.

(** The [try] block that parses the response: only [JSONDecodeError] is
    caught, and turned into a [ValueError] that quotes the response. *)
Definition parse_response (response_text : string) : outcome pyval :=
  match json.loads response_text with
  | Returned result => get_keywords result
  | Raised (JSONDecodeError _) =>
      Raised (ValueError
                ("Failed to parse Gemini response as JSON: " ++ response_text))
  | Raised e => Raised e
  end.

Section Generator.

Variable X : Externals.

(** [client.models.generate_content_stream(...)], consumed to its end. *)
Definition generate_content_stream (req : Request) : M (list (option string)) :=
  fun w =>
    (stream X (trace w) req,
     mkWorld (fs w) (environ w) (trace w ++ [Streamed req])).

Definition generate_keywords (image_path taxonomy_path : Path)
           (api_key : option string) (model : string) (thinking_budget : Z)
  : M pyval :=
  (* Validate files exist *)
  image_present <- with_fs (fun fs => Returned (os.exists_ fs image_path)) ;;
  if negb image_present then
    raise (FileNotFoundError
             ("Image file not found: " ++ pathlib.str image_path))
  else
  taxonomy_present <- with_fs (fun fs => Returned (os.exists_ fs taxonomy_path)) ;;
  if negb taxonomy_present then
    raise (FileNotFoundError
             ("Taxonomy file not found: " ++ pathlib.str taxonomy_path))
  else
  (* Get API key *)
  api_key <- match api_key with
             | None => getenv "GEMINI_API_KEY"
             | Some _ => ret api_key
             end ;;
  match api_key with
  | None | Some "" =>
      raise (ValueError
        "API key must be provided or set in GEMINI_API_KEY environment variable")
  | Some api_key =>
      (* Read the image; encoding it to base64 and back gives it again *)
      image_data <- with_fs (fun fs => os.read fs image_path) ;;
      let mime_type := _get_mime_type image_path in
      (* Read taxonomy *)
      taxonomy_content <- with_fs (fun fs => os.read fs taxonomy_path) ;;
      let prompt := make_prompt taxonomy_content in
      (* Generate keywords *)
      chunks <- generate_content_stream
                  (mkRequest api_key model image_data mime_type prompt
                             thinking_budget "application/json") ;;
      let response_text := concat_chunks chunks in
      (* Parse JSON response *)
      fun w => (parse_response response_text, w)
  end.

End Generator.

(* ================================================================== *)
(** * Decoded JSON values used as keywords *)
(* ================================================================== *)

Definition is_continuation (c : ascii) : bool :=
  ((128 <=? nat_of_ascii c) && (nat_of_ascii c <? 192))%nat.

Definition starts_with_continuation (s : string) : bool :=
  match s with
  | "" => false
  | String c _ => is_continuation c
  end.

(** The characters of a string, each with the bytes that follow its first
    one in UTF-8. *)
Fixpoint chars (s : string) : list string :=
  match s with
  | "" => []
  | String c s' =>
      match chars s' with
      | w :: ws =>
          if starts_with_continuation s' then String c w :: ws
          else pystr.chr c :: w :: ws
      | [] => [pystr.chr c]
      end
  end.

(** The annotation of [generate_keywords] promises a [list[str]], the code
    returns whatever value the response holds under ["keywords"], and the
    writer treats it by duck typing.  Two facts about floats and containers
    are left to the interpreter: which float literals denote zero, and the
    text [str(x)] of a float, a list or a dict. *)
Section PyRuntime.

Variable float_is_zero : string -> bool.
Variable repr : pyval -> string.

(** [bool(v)] *)
Definition py_bool (v : pyval) : bool :=
  match v with
  | PNone => false
  | PBool b => b
  | PInt z => negb (Z.eqb z 0)
  | PFloat literal => negb (float_is_zero literal)
  | PStr s => negb (String.eqb s "")
  | PList l => negb (is_empty l)
  | PDict d => negb (is_empty d)
  end.

(** [str(v)] *)
Definition py_str (v : pyval) : string :=
  match v with
  | PNone => "None"
  | PBool true => "True"
  | PBool false => "False"
  | PInt z => pystr.of_Z z
  | PStr s => s
  | PFloat _ | PList _ | PDict _ => repr v
  end.

(** [list(iter(v))] *)
Definition py_iter (v : pyval) : outcome (list pyval) :=
  match v with
  | PList l => Returned l
  | PStr s => Returned (map PStr (chars s))
  | PDict d => Returned (map PStr (dict.keys d))
  | _ => Raised (TypeError ("'" ++ type_name v ++ "' object is not iterable"))
  end.

Definition pyval_Keywords : Keywords pyval :=
  {| truth := py_bool;
     subjects := fun v =>
       match py_iter v with
       | Returned items => Returned (map py_str items)
       | Raised e => Raised e
       end |}.

End PyRuntime.

(* ================================================================== *)
(** * pipeline *)
(* ================================================================== *)

(** Step 2 of [process_directory]: the loop that fills [jpeg_to_raw] and
    [missing_raw_files]. *)
Fixpoint locate_raw_files (fs : FS) (jpeg_files : list Path)
         (raw_search_path : Path) (extensions : option (list string))
         (jpeg_to_raw : dict.t Path Path) (missing_raw_files : list Path)
  : outcome (dict.t Path Path * list Path) :=
  match jpeg_files with
  | [] => Returned (jpeg_to_raw, missing_raw_files)
  | jpeg_file :: rest =>
      match find_raw_file fs jpeg_file raw_search_path extensions with
      | Raised e => Raised e
      | Returned None =>
          locate_raw_files fs rest raw_search_path extensions
            jpeg_to_raw (missing_raw_files ++ [jpeg_file])
      | Returned (Some raw_file) =>
          locate_raw_files fs rest raw_search_path extensions
            (dict.set jpeg_to_raw jpeg_file raw_file) missing_raw_files
      end
  end.

(** Step 1: the four globs for JPEG files. *)
Definition scan_jpeg_files (fs : FS) (jpeg_dir : Path) : outcome (list Path) :=
  match glob.glob fs jpeg_dir "*.jpg", glob.glob fs jpeg_dir "*.JPG",
        glob.glob fs jpeg_dir "*.jpeg", glob.glob fs jpeg_dir "*.JPEG" with
  | Returned a, Returned b, Returned c, Returned d => Returned (a ++ b ++ c ++ d)
  | Raised e, _, _, _ => Raised e
  | _, Raised e, _, _ => Raised e
  | _, _, Raised e, _ => Raised e
  | _, _, _, Raised e => Raised e
  end.

(** [{jpeg: raw for jpeg, raw in jpeg_to_raw.items() if raw in files_with_xmp}] *)
Definition with_xmp_only (jpeg_to_raw : dict.t Path Path)
           (files_with_xmp : list Path) : dict.t Path Path :=
  dict.of_list (filter (fun item => mem (snd item) files_with_xmp) jpeg_to_raw).

Section Pipeline.

Variable X : Externals.
Context {KW : Keywords pyval}.

(** Step 4: the loop that fills [raw_to_keywords]. *)
Fixpoint generate_all (items : list (Path * Path)) (taxonomy_path : Path)
         (api_key : option string) (model : string) (thinking_budget : Z)
         (raw_to_keywords : dict.t Path pyval) : M (dict.t Path pyval) :=
  match items with
  | [] => ret raw_to_keywords
  | (jpeg_file, raw_file) :: rest =>
      keywords <- generate_keywords X jpeg_file taxonomy_path api_key model
                    thinking_budget ;;
      generate_all rest taxonomy_path api_key model thinking_budget
        (dict.set raw_to_keywords raw_file keywords)
  end.

Definition process_directory (jpeg_dir raw_search_path taxonomy_path : Path)
           (api_key : option string) (model : string) (thinking_budget : Z)
           (exiftool_path : string) (extensions : option (list string))
  : M (dict.t Path pyval) :=
  (* Validate directories and files exist *)
  ok <- with_fs (fun fs =>
          if negb (os.exists_ fs jpeg_dir) then
            Raised (FileNotFoundError
                      ("JPEG directory not found: " ++ pathlib.str jpeg_dir))
          else if negb (os.is_dir fs jpeg_dir) then
            Raised (NotADirectoryError
                      ("JPEG path is not a directory: " ++ pathlib.str jpeg_dir))
          else if negb (os.exists_ fs raw_search_path) then
            Raised (FileNotFoundError
                      ("RAW search path not found: " ++ pathlib.str raw_search_path))
          else if negb (os.exists_ fs taxonomy_path) then
            Raised (FileNotFoundError
                      ("Taxonomy file not found: " ++ pathlib.str taxonomy_path))
          else Returned tt) ;;
  (* Step 1: Find all JPEG files in the directory *)
  jpeg_files <- with_fs (fun fs => scan_jpeg_files fs jpeg_dir) ;;
  if is_empty jpeg_files then
    raise (PipelineError ("No JPEG files found in " ++ pathlib.str jpeg_dir))
  else
  (* Step 2: Find corresponding RAW files *)
  located <- with_fs (fun fs =>
               locate_raw_files fs jpeg_files raw_search_path extensions [] []) ;;
  let jpeg_to_raw := fst located in
  if is_empty jpeg_to_raw then
    raise (PipelineError "No RAW files found for any JPEG files. Cannot proceed.")
  else
  (* Step 3: Check which RAW files have XMP sidecars *)
  let raw_files := dict.values jpeg_to_raw in
  parts <- with_fs (fun fs => Returned (ensure_xmp_sidecars fs raw_files)) ;;
  let files_with_xmp := fst parts in
  if is_empty files_with_xmp then
    raise (PipelineError "No files with XMP sidecars found. Cannot proceed.")
  else
  (* Step 4: Generate keywords only for files with XMP sidecars *)
  let jpeg_to_raw_with_xmp := with_xmp_only jpeg_to_raw files_with_xmp in
  raw_to_keywords <- generate_all jpeg_to_raw_with_xmp taxonomy_path api_key
                       model thinking_budget [] ;;
  (* Step 5: Write keywords to XMP files *)
  batch_add_keywords X raw_to_keywords exiftool_path ;;
  ret raw_to_keywords.

End Pipeline.

Unset Implicit Arguments.

(* ================================================================== *)
(** * Concrete worlds used by the witnesses and counterexamples *)
(* ================================================================== *)

Module Scenario.

Definition P : string -> Path := pathlib.of_str.

(** A photo directory: two RAW files with a sidecar, one without. *)
Definition photos : FS :=
  [ (P "/photos", Directory);
    (P "/photos/DSC00089.ARW", RegularFile "raw89");
    (P "/photos/DSC00089.xmp", RegularFile "xmp89");
    (P "/photos/DSC00090.ARW", RegularFile "raw90");
    (P "/photos/DSC00090.xmp", RegularFile "xmp90");
    (P "/photos/DSC00091.ARW", RegularFile "raw91") ].

(** An exiftool that succeeds, one that fails; neither streams anything. *)
Definition tool_ok : Externals :=
  mkExternals (fun _ _ => Returned 0%Z) (fun _ _ => Returned []).

Definition tool_fails : Externals :=
  mkExternals (fun _ _ => Returned 1%Z) (fun _ _ => Returned []).

Definition photo_world : World := mkWorld photos [] [].

Definition two_entries : dict.t Path (list string) :=
  [ (P "/photos/DSC00089.ARW", ["landscape"; "sunset"]);
    (P "/photos/DSC00090.ARW", ["portrait"]) ].

Definition mixed_entries : dict.t Path (list string) :=
  [ (P "/photos/DSC00089.ARW", ["landscape"; "sunset"]);
    (P "/photos/DSC00091.ARW", ["night"]);
    (P "/photos/DSC00090.ARW", []) ].

Definition with_missing_raw : dict.t Path (list string) :=
  [ (P "/photos/DSC00089.ARW", ["landscape"]);
    (P "/photos/DSC00404.ARW", ["lost"]) ].


(** An export directory with two JPEG files of the same stem, a RAW tree
    with the RAW file and its sidecar, and a taxonomy. *)
Definition studio : FS :=
  [ (P "/exports", Directory);
    (P "/exports/A.jpg", RegularFile "first jpeg");
    (P "/exports/A.JPG", RegularFile "second jpeg");
    (P "/raw", Directory);
    (P "/raw/A.ARW", RegularFile "raw");
    (P "/raw/A.xmp", RegularFile "xmp");
    (P "/taxonomy.txt", RegularFile "nature") ].

Definition studio_world : World :=
  mkWorld studio [("GEMINI_API_KEY", "secret")] [].

(** A RAW tree with a lower-case ARW file and, deeper, an upper-case DNG
    file of the same stem. *)
Definition raws : FS :=
  [ (P "/raw", Directory);
    (P "/raw/A.arw", RegularFile "arw");
    (P "/raw/2024", Directory);
    (P "/raw/2024/A.DNG", RegularFile "dng") ].

(** A service that streams the given chunks, whatever the request. *)
Definition service (chunks : list (option string)) : Externals :=
  mkExternals (fun _ _ => Returned 0%Z) (fun _ _ => Returned chunks).

(** The fragments of the streaming scenario. *)
Definition fragments : list (option string) :=
  [ Some (pystr.q "{'keywords': ["); Some (pystr.q "'x','y'"); Some "]}" ].

(** A service that answers [x, y] in three fragments for the first JPEG and
    [z] in one piece for any other image. *)
Definition two_answers : Externals :=
  mkExternals (fun _ _ => Returned 0%Z)
    (fun _ req =>
       if String.eqb (req_image req) "first jpeg" then Returned fragments
       else Returned [Some (pystr.q "{'keywords': ['z']}")]).

(** How Python treats the floats and containers of a response; the
    scenarios have none. *)
Definition runtime : Keywords pyval :=
  pyval_Keywords (fun _ => false) (fun _ => "").


(** The run of the pipeline over the studio, with the service of two
    answers. *)
Definition studio_run : outcome (dict.t Path pyval) * World :=
  process_directory (KW := runtime) two_answers
    (P "/exports") (P "/raw") (P "/taxonomy.txt") None
    "gemini-flash-lite-latest" 8132 "exiftool" None studio_world.

End Scenario.

(** The argument list as the specification words it: the binary, a flag
    that suppresses the backup file, a flag that overwrites in place, one
    argument per keyword, the sidecar. *)
Definition spec_command_shape (exiftool_path : string) (keywords : list string)
           (xmp_file : Path) (cmd : list string) : Prop :=
  exists no_backup_flag overwrite_flag : string,
    cmd = [exiftool_path; no_backup_flag; overwrite_flag]
          ++ map (fun keyword => ("-XMP-dc:Subject+=" ++ keyword)%string) keywords
          ++ [pathlib.str xmp_file].

(** The entries of a batch for which the writer is to run: the RAW file has
    a sidecar and the keywords are not empty. *)
Definition eligible (fs : FS) (item : Path * list string) : bool :=
  check_xmp_exists fs (fst item) && negb (is_empty (snd item)).

(** The invocation the writer makes for an entry. *)
Definition invocation (exiftool_path : string) (item : Path * list string)
  : event :=
  Spawned (exiftool_cmd exiftool_path (snd item) (get_xmp_path (fst item))).

(** The call of [generate_keywords] gets as far as the service, which
    streams [chunks]: both files can be read, a credential is at hand, and
    the request built from them is answered. *)
Definition answered (X : Externals) (image_path taxonomy_path : Path)
           (api_key : option string) (model : string) (thinking_budget : Z)
           (w : World) (chunks : list (option string)) : Prop :=
  exists image_data taxonomy_content key : string,
    os.read (fs w) image_path = Returned image_data
    /\ os.read (fs w) taxonomy_path = Returned taxonomy_content
    /\ (api_key = Some key
        \/ (api_key = None
            /\ dict.get (environ w) "GEMINI_API_KEY" = Some key))
    /\ key <> ""
    /\ stream X (trace w)
         (mkRequest key model image_data (_get_mime_type image_path)
                    (make_prompt taxonomy_content) thinking_budget
                    "application/json")
       = Returned chunks.

(** The text of a chunk, empty when it has none. *)
Definition chunk_text (chunk : option string) : string :=
  match chunk with
  | Some text => text
  | None => ""
  end.

(** The structure the specification expects of a response: a JSON object
    with an array under [keywords]. *)
Definition expected_structure (text : string) : Prop :=
  exists (d : list (string * pyval)) (keywords : list pyval),
    json.loads text = Returned (PDict d)
    /\ dict.get d "keywords" = Some (PList keywords).

(** An extension that the glob pattern takes literally: none of the
    characters that [fnmatch] gives a meaning to, and no separator. *)
Definition literal (ext : string) : bool :=
  negb (pystr.contains "*"%char ext || pystr.contains "?"%char ext
        || pystr.contains "["%char ext || pystr.contains "]"%char ext
        || pystr.contains "/"%char ext).

(** The extensions [find_raw_file] searches for. *)
Definition extensions_of (extensions : option (list string)) : list string :=
  match extensions with
  | None => default_extensions
  | Some l => l
  end.

(** [generated X ... w items keywords w']: starting in [w], a call of
    [generate_keywords] for the JPEG of each item in turn returned the
    corresponding element of [keywords], and left the world [w']. *)
Inductive generated (X : Externals) (taxonomy_path : Path)
          (api_key : option string) (model : string) (thinking_budget : Z)
  : World -> list (Path * Path) -> list pyval -> World -> Prop :=
| generated_nil (w : World) :
    generated X taxonomy_path api_key model thinking_budget w [] [] w
| generated_cons (w w1 w2 : World) (jpeg_file raw_file : Path)
                 (items : list (Path * Path)) (keywords : pyval)
                 (rest : list pyval) :
    generate_keywords X jpeg_file taxonomy_path api_key model thinking_budget w
    = (Returned keywords, w1) ->
    generated X taxonomy_path api_key model thinking_budget w1 items rest w2 ->
    generated X taxonomy_path api_key model thinking_budget w
              ((jpeg_file, raw_file) :: items) (keywords :: rest) w2.

(** What an event shows of itself in the examples: the image of a request,
    the command line of a process. *)
Definition show_event (e : event) : string :=
  match e with
  | Streamed req => ("stream " ++ req_image req)%string
  | Spawned cmd => String.concat " " cmd
  end.

(* ================================================================== *)
(** * Notions used in the statements and their proofs *)
(* ================================================================== *)

(** A file name [base.ext], with a plain extension. *)
Definition plain_extension (ext : string) : Prop :=
  ext <> "" /\ pystr.contains "."%char ext = false /\ pystr.contains "/"%char ext = false.

(** What a scanning step may answer on a text of [n] characters: a value
    and a strictly shorter rest, or a [JSONDecodeError] (for [scan_once],
    also [StopIteration]); never a [RecursionError]. *)
Definition scans {A : Type} (n : nat) (may_stop : bool)
           (o : outcome (A * string)) : Prop :=
  match o with
  | Returned (_, r) => String.length r < n
  | Raised e =>
      (exists m, e = JSONDecodeError m) \/ (may_stop = true /\ e = StopIteration)
  end.

(** The pieces of a literal text. *)
Definition literals (s : string) : list fnmatch.item := map fnmatch.Lit (list_ascii_of_string s).

(** What follows [**] in the parsed pattern [**/s]. *)
Definition tail_parts (s : string) : list string :=
  filter pathlib.kept (pystr.split "/"%char s)
  ++ match pystr.last_char ("**/" ++ s) with
     | Some c => if Ascii.eqb c "/"%char then [""] else []
     | None => []
     end.

(** A computation that leaves the file system and the environment alone
    and adds only process runs to the trace. *)
Definition only_spawns {A : Type} (c : M A) : Prop :=
  forall w r w', c w = (r, w') ->
    fs w' = fs w /\ environ w' = environ w
    /\ exists cmds, trace w' = trace w ++ map Spawned cmds.


(* ================================================================== *)
(** * hello_world *)
(* ================================================================== *)

Module hello_world.

(** [say_hello(name="World")] *)
Definition say_hello (name : option string) : string :=
  let name := match name with Some n => n | None => "World" end in
  ("Hello, " ++ name ++ "! Welcome to Photo Keyword Tagger.")%string.

End hello_world.

(* ================================================================== *)
(** * cli *)
(* ================================================================== *)

(** The function that [click] calls with the parsed arguments and options.
    What it writes with [click.echo] is collected in order; the lines that
    the pipeline prints itself are console output like everywhere else. *)
Module cli.

(** A call of [click.echo]: the message, and whether it goes to the
    standard error stream ([err=True]). *)
Record echo : Type := mkEcho { text : string; err : bool }.

(** How the command ends: it returns, or it leaves through
    [sys.exit(code)]. *)
Inductive ending : Type :=
| Completed
| SystemExit (code : Z).

(** [len(v)] *)
Definition py_len (v : pyval) : outcome nat :=
  match v with
  | PStr s => Returned (length (chars s))
  | PList l => Returned (length l)
  | PDict d => Returned (length d)
  | _ => Raised (TypeError ("object of type '" ++ type_name v ++ "' has no len()"))
  end.

Definition newline : string := String "010"%char "".

(** The check mark U+2713 of the success message. *)
Definition check_mark : string := json.utf8 10003.

Section Main.

Variable X : Externals.
Context {KW : Keywords pyval}.

(** Two texts are left to the libraries: [str(e)] for the exceptions that
    carry no message of their own here, and
    [click.style(text, fg="green", bold=True)]. *)
Variable str_of_process_error : exn -> string.
Variable style_green_bold : string -> string.

(** [str(e)], as the handlers format it with [f"{e}"]. *)
Definition str_exn (e : exn) : string :=
  match e with
  | StopIteration | RecursionError | CalledProcessError _ _ =>
      str_of_process_error e
  | _ => message e
  end.

(** The three [except] clauses, in their order: each echoes one line to the
    standard error stream (and is followed by [sys.exit(1)]). *)
Definition handler (e : exn) : echo :=
  match e with
  | PipelineError _ => mkEcho ("Pipeline error: " ++ str_exn e) true
  | FileNotFoundError _ => mkEcho ("File not found: " ++ str_exn e) true
  | _ => mkEcho ("Unexpected error: " ++ str_exn e) true
  end.

(** The lines echoed before the pipeline runs, with [--verbose]. *)
Definition announcement (jpeg_dir raw_search_path taxonomy_path : Path)
           (model : string) (extensions_list : option (list string))
  : list echo :=
  [ mkEcho "Starting photo keyword tagger pipeline..." false;
    mkEcho ("JPEG directory: " ++ pathlib.str jpeg_dir) false;
    mkEcho ("RAW search path: " ++ pathlib.str raw_search_path) false;
    mkEcho ("Taxonomy file: " ++ pathlib.str taxonomy_path) false;
    mkEcho ("Model: " ++ model) false ]
  ++ match extensions_list with
     | Some l => [mkEcho ("Extensions: " ++ String.concat ", " l) false]
     | None => []
     end.

(** The loop over [results.items()] of the verbose listing: the lines it
    echoes, and the exception that [len(keywords)] stops it with, if any. *)
Fixpoint processed_files (items : list (Path * pyval))
  : list echo * option exn :=
  match items with
  | [] => ([], None)
  | (raw_file, keywords) :: rest =>
      match py_len keywords with
      | Raised e => ([], Some e)
      | Returned n =>
          let line :=
            mkEcho ("  " ++ pathlib.name raw_file ++ ": "
                    ++ pystr.of_Z (Z.of_nat n) ++ " keywords") false in
          let '(lines, stopped) := processed_files rest in
          (line :: lines, stopped)
      end
  end.

Definition main (jpeg_dir raw_search_path taxonomy_path : Path)
           (api_key : option string) (model : string) (thinking_budget : Z)
           (exiftool_path : string) (extensions : list string)
           (verbose : bool)
  : World -> (list echo * ending) * World :=
  fun w =>
    (* Convert extensions tuple to list if provided *)
    let extensions_list :=
      if is_empty extensions then None else Some extensions in
    (* Validate API key *)
    match api_key with
    | None | Some "" =>
        (([mkEcho ("Error: API key not provided. Set GEMINI_API_KEY environment variable "
                   ++ "or use --api-key option.") true],
          SystemExit 1), w)
    | Some _ =>
        let announced :=
          if verbose then
            announcement jpeg_dir raw_search_path taxonomy_path model
                         extensions_list
          else [] in
        (* Run the pipeline *)
        match process_directory X jpeg_dir raw_search_path taxonomy_path
                api_key model thinking_budget exiftool_path extensions_list w
        with
        | (Raised e, w') => ((announced ++ [handler e], SystemExit 1), w')
        | (Returned results, w') =>
            (* Success message *)
            let success :=
              mkEcho (style_green_bold
                        (newline ++ check_mark ++ " Successfully processed "
                         ++ pystr.of_Z (Z.of_nat (length results))
                         ++ " files!")) false in
            if verbose then
              let '(lines, stopped) := processed_files results in
              let listing :=
                mkEcho (newline ++ "Processed files:") false :: lines in
              match stopped with
              | None => ((announced ++ success :: listing, Completed), w')
              | Some e =>
                  ((announced ++ success :: listing ++ [handler e],
                    SystemExit 1), w')
              end
            else ((announced ++ [success], Completed), w')
        end
    end.

End Main.

End cli.

(* ================================================================== *)
(** * Notions used in the statements about the rest of the package *)
(* ================================================================== *)

(** A keyword in double quotes, and the response in the format that the
    prompt asks for: an object whose [keywords] member is the array of the
    quoted keywords. *)
Definition quoted (keyword : string) : string :=
  (pystr.dq ++ keyword ++ pystr.dq)%string.

Definition response_of (keywords : list string) : string :=
  ("{" ++ quoted "keywords" ++ ": ["
   ++ String.concat ", " (map quoted keywords) ++ "]}")%string.

(** A character that JSON allows as it stands inside a string: not the
    double quote, not the backslash, not a control character. *)
Definition plain_char (c : ascii) : bool :=
  negb (Ascii.eqb c "034"%char) && negb (Ascii.eqb c "\"%char)
  && (32 <=? nat_of_ascii c)%nat.

Fixpoint plain_text (s : string) : bool :=
  match s with
  | "" => true
  | String c s' => plain_char c && plain_text s'
  end.

(** The file names that step 1 of the pipeline looks for. *)
Definition jpeg_suffixes : list string := [".jpg"; ".JPG"; ".jpeg"; ".JPEG"].

Definition jpeg_name (name : string) : Prop :=
  exists suffix, In suffix jpeg_suffixes /\ pystr.endswith suffix name.

(** A directory in which [**] looks: the starting directory or a directory
    entry below it. *)
Definition searched (fs : FS) (base_path d : Path) : Prop :=
  d = base_path \/ (In (d, Directory) fs /\ os.below base_path d = true).

(** The requests and the process runs of a trace, in order. *)
Definition requests (events : list Request) : list event := map Streamed events.
Definition runs (cmds : list (list string)) : list event := map Spawned cmds.

(** An extension as RAW files have it: a dot, then a text that is not
    empty and holds no dot, no separator and no character special to glob
    patterns. *)
Definition simple_extension (ext : string) : Prop :=
  exists e, ext = String "."%char e /\ plain_extension e /\ literal e = true.

(** The pattern that [find_raw_file] searches with for an extension, and
    what it finds. *)
Definition matches_of (fs : FS) (base_path : Path) (jpeg_stem ext : string)
  : outcome (list Path) :=
  glob.glob fs base_path ("**/" ++ jpeg_stem ++ ext).

(** The entries of a directory that the scan of step 1 selects for one
    suffix, in the order of the file system. *)
Definition scanned (fs : FS) (d : Path) (sfx : string) : list Path :=
  map fst (filter (fun e => os.child_of d (fst e)
                            && fnmatch.fnmatch ("*" ++ sfx)
                                 (pathlib.name (fst e))) fs).

(** The texts of the keywords that the writer passes to exiftool, and the
    command lines of a batch: one for every entry whose keywords are true,
    in the order of the mapping. *)
Definition texts {K : Type} `{Keywords K} (keywords : K) : list string :=
  match subjects keywords with
  | Returned items => items
  | Raised _ => []
  end.

Definition written {K : Type} `{Keywords K} (exiftool_path : string)
           (raw_files_keywords : dict.t Path K) : list (list string) :=
  map (fun item => exiftool_cmd exiftool_path (texts (snd item))
                     (get_xmp_path (fst item)))
      (filter (fun item => truth (snd item)) raw_files_keywords).

(** The JPEG files that go on to step 4: their RAW file has a sidecar. *)
Definition survivors (fs : FS) (jpeg_to_raw : dict.t Path Path)
  : list (Path * Path) :=
  filter (fun item => check_xmp_exists fs (snd item)) jpeg_to_raw.

(** The exit status of the command. *)
Definition exit_code (e : cli.ending) : Z :=
  match e with
  | cli.Completed => 0
  | cli.SystemExit code => code
  end.

(* ================================================================== *)
(** * Properties: strings and paths *)
(* ================================================================== *)

Section StringFacts.
Import pystr.

Lemma append_nil_r (s : string) : (s ++ "")%string = s.
Proof. induction s; simpl; congruence. Qed.

Lemma append_assoc (a b c : string) :
  ((a ++ b) ++ c)%string = (a ++ (b ++ c))%string.
Proof. induction a; simpl; congruence. Qed.

Lemma length_append (a b : string) :
  String.length (a ++ b) = String.length a + String.length b.
Proof. induction a; simpl; congruence. Qed.

Lemma contains_append (c : ascii) (a b : string) :
  contains c (a ++ b) = contains c a || contains c b.
Proof.
  induction a as [|x a IH]; simpl; [reflexivity|].
  rewrite IH. now rewrite orb_assoc.
Qed.

Lemma take_length_append (a b : string) : take (String.length a) (a ++ b) = a.
Proof. induction a; simpl; [now destruct b | congruence]. Qed.

Lemma drop_length_append (a b : string) : drop (String.length a) (a ++ b) = b.
Proof. induction a; simpl; auto. Qed.

Lemma contains_take (c : ascii) (n : nat) (s : string) :
  contains c s = false -> contains c (take n s) = false.
Proof.
  revert s; induction n as [|n IH]; intros [|a s]; simpl; auto.
  intros H. apply orb_false_iff in H as [-> H]. simpl. auto.
Qed.

Lemma split_no_sep (sep : ascii) (s : string) :
  contains sep s = false -> split sep s = [s].
Proof.
  induction s as [|a s IH]; simpl; [reflexivity|].
  intros H. apply orb_false_iff in H as [Ha Hs].
  rewrite Ha, (IH Hs). reflexivity.
Qed.

Lemma rfind_absent (c : ascii) (s : string) :
  contains c s = false -> rfind c s = None.
Proof.
  induction s as [|a s IH]; simpl; [reflexivity|].
  intros H. apply orb_false_iff in H as [Ha Hs].
  now rewrite (IH Hs), Ha.
Qed.

(** The last occurrence of [c] in [s ++ c :: t] is at [len(s)] when [t] has
    no [c]. *)
Lemma rfind_last (c : ascii) (s t : string) :
  contains c t = false ->
  rfind c (s ++ String c t) = Some (String.length s).
Proof.
  intros Ht. induction s as [|a s IH]; simpl.
  - now rewrite (rfind_absent _ _ Ht), Ascii.eqb_refl.
  - now rewrite IH.
Qed.

End StringFacts.

Section PathFacts.
Import pystr pathlib.

(** A name of the form [s.t], with [s] and [t] not empty and no dot in [t],
    splits at that dot. *)
Lemma suffix_index_dotted (s t : string) :
  s <> "" -> t <> "" -> contains "."%char t = false ->
  suffix_index (s ++ String "."%char t) = Some (String.length s).
Proof.
  intros Hs Ht Hdot. unfold suffix_index.
  rewrite (rfind_last _ s t Hdot).
  assert (H : ((0 <? String.length s)
               && (String.length s <? String.length (s ++ String "."%char t) - 1))%nat
              = true).
  { rewrite length_append. simpl.
    destruct s as [|a s]; [congruence|]. destruct t as [|b t]; [congruence|].
    simpl. apply Nat.ltb_lt. lia. }
  now rewrite H.
Qed.

(** A single well-formed component parses to itself. *)
Lemma of_str_component (key : string) :
  wf_part key -> of_str key = mkPath "" [key].
Proof.
  intros (Hne & Hdot & Hsl). unfold of_str, splitroot.
  destruct key as [|a key]; [congruence|].
  assert (Ha : Ascii.eqb a "/"%char = false).
  { simpl in Hsl. now apply orb_false_iff in Hsl as [-> _]. }
  assert (Hcase : startswith "/" (String a key) = false).
  { change (startswith "/" (String a key))
      with (Ascii.eqb "/"%char a && startswith "" key).
    now rewrite Ascii.eqb_sym, Ha. }
  rewrite Hcase. rewrite (split_no_sep _ _ Hsl). simpl.
  unfold kept.
  destruct (String.eqb_spec (String a key) ""); [congruence|].
  destruct (String.eqb_spec (String a key) "."); [congruence|].
  reflexivity.
Qed.

Lemma joinpath_component (p : Path) (key : string) :
  wf_part key -> p // key = mkPath (root p) (parts p ++ [key]).
Proof.
  intros H. unfold joinpath. now rewrite (of_str_component _ H).
Qed.

Lemma name_child (r : string) (ps : list string) (k : string) :
  name (mkPath r (ps ++ [k])) = k.
Proof. unfold name. simpl. apply last_last. Qed.

Lemma parent_child (r : string) (ps : list string) (k : string) :
  parent (mkPath r (ps ++ [k])) = mkPath r ps.
Proof. unfold parent. simpl. now rewrite removelast_last. Qed.

Lemma wf_name (p : Path) : wf p -> contains "/"%char (name p) = false.
Proof.
  intros [_ Hparts]. unfold name.
  destruct (parts p) as [|x l] eqn:E; [reflexivity|].
  assert (Hin : In (last (x :: l) "") (x :: l)).
  { destruct (exists_last (l := x :: l)) as (l' & a & ->); [discriminate|].
    rewrite last_last. apply in_or_app. right. now left. }
  rewrite Forall_forall in Hparts. now destruct (Hparts _ Hin) as (_ & _ & ?).
Qed.

Lemma stem_no_slash (p : Path) : wf p -> contains "/"%char (stem p) = false.
Proof.
  intros H. unfold stem. destruct (suffix_index (name p)).
  - apply contains_take. now apply wf_name.
  - now apply wf_name.
Qed.

Lemma stem_not_empty (p : Path) : name p <> "" -> stem p <> "".
Proof.
  intros H. unfold stem, suffix_index.
  destruct (rfind "."%char (name p)) as [i|]; [|assumption].
  destruct ((0 <? i)%nat && (i <? String.length (name p) - 1)%nat) eqn:E;
    [|assumption].
  apply andb_true_iff in E as [E _]. apply Nat.ltb_lt in E.
  destruct i; [lia|]. destruct (name p); [congruence|]. simpl. discriminate.
Qed.

(** The name of a sidecar, [stem.xmp], is one well-formed component. *)
Lemma xmp_name_wf (s : string) :
  contains "/"%char s = false -> wf_part (s ++ ".xmp").
Proof.
  intros H. repeat split.
  - destruct s; discriminate.
  - destruct s as [|a [|b s]]; discriminate.
  - rewrite contains_append, H. reflexivity.
Qed.

End PathFacts.

Section SidecarPath.
Import pystr pathlib.

Lemma dotted_name_wf (base ext : string) :
  base <> "" -> contains "/"%char base = false -> plain_extension ext ->
  wf_part (base ++ String "."%char ext).
Proof.
  intros Hb Hsl (He & _ & Hesl). repeat split.
  - destruct base; [congruence | discriminate].
  - destruct base as [|a [|b base]]; [congruence| |discriminate].
    destruct ext; [congruence | discriminate].
  - rewrite contains_append. simpl. now rewrite Hsl, Hesl.
Qed.

Lemma get_xmp_path_of_file (dir : Path) (base ext : string) :
  base <> "" -> contains "/"%char base = false -> plain_extension ext ->
  get_xmp_path (dir // (base ++ String "."%char ext)) = dir // (base ++ ".xmp").
Proof.
  intros Hb Hsl Hext. pose proof (dotted_name_wf _ _ Hb Hsl Hext) as Hwf.
  unfold get_xmp_path. rewrite (joinpath_component dir _ Hwf).
  rewrite parent_child. unfold stem. rewrite name_child.
  destruct Hext as (He & Hdot & _).
  rewrite (suffix_index_dotted _ _ Hb He Hdot), take_length_append.
  rewrite !(joinpath_component _ _ (xmp_name_wf _ Hsl)). reflexivity.
Qed.

(** C8.  [get_xmp_path] is the function
    [raw.parent / (raw.stem + ".xmp")] of its argument alone: the equation
    holds for every RAW path, and two RAW paths with the same parent and the
    same stem have the same sidecar.  For a well-formed path that names a
    file the sidecar lies in the same directory, has the same stem and has
    the suffix [.xmp]; and for a file [base.ext] in a directory the sidecar
    is [base.xmp] whatever the extension, so that extensions differing in
    case (or in any other way) give the same sidecar. *)
Theorem get_xmp_path_pure (raw : Path) :
  get_xmp_path raw = parent raw // (stem raw ++ ".xmp")
  /\ (forall raw' : Path,
        parent raw' = parent raw -> stem raw' = stem raw ->
        get_xmp_path raw' = get_xmp_path raw)
  /\ (pathlib.wf raw -> name raw <> "" ->
      parent (get_xmp_path raw) = parent raw
      /\ stem (get_xmp_path raw) = stem raw
      /\ suffix (get_xmp_path raw) = ".xmp")
  /\ (forall (dir : Path) (base ext ext' : string),
        base <> "" -> contains "/"%char base = false ->
        plain_extension ext -> plain_extension ext' ->
        get_xmp_path (dir // (base ++ String "."%char ext))
        = get_xmp_path (dir // (base ++ String "."%char ext'))
        /\ get_xmp_path (dir // (base ++ String "."%char ext))
           = dir // (base ++ ".xmp")).
Proof.
  split; [reflexivity|]. split; [|split].
  - intros raw' Hp Hs. unfold get_xmp_path. now rewrite Hp, Hs.
  - intros Hwf Hname.
    pose proof (stem_no_slash _ Hwf) as Hsl.
    pose proof (stem_not_empty raw Hname) as Hne.
    assert (Hx : get_xmp_path raw
                 = mkPath (root raw)
                     (removelast (parts raw) ++ [(stem raw ++ ".xmp")%string])).
    { unfold get_xmp_path. now rewrite (joinpath_component _ _ (xmp_name_wf _ Hsl)). }
    assert (Hidx : suffix_index (stem raw ++ ".xmp")
                   = Some (String.length (stem raw))).
    { apply (suffix_index_dotted _ "xmp" Hne); [discriminate | reflexivity]. }
    split; [rewrite Hx; apply parent_child|].
    split; [rewrite Hx; unfold stem at 1; rewrite name_child, Hidx;
            apply take_length_append|].
    rewrite Hx. unfold suffix. rewrite name_child, Hidx.
    apply drop_length_append.
  - intros dir base ext ext' Hb Hbs He He'.
    now rewrite !get_xmp_path_of_file.
Qed.

Lemma get_xmp_path_pure_witness :
  let raw := of_str "/photos/2024/DSC00089.ARW" in
  get_xmp_path raw = of_str "/photos/2024/DSC00089.xmp"
  /\ parent (get_xmp_path raw) = parent raw
  /\ stem (get_xmp_path raw) = stem raw
  /\ suffix (get_xmp_path raw) = ".xmp"
  /\ get_xmp_path (of_str "/photos/2024" // "DSC00089.ARW")
     = get_xmp_path (of_str "/photos/2024" // "DSC00089.arw").
Proof.
  cbv zeta.
  destruct (get_xmp_path_pure (of_str "/photos/2024/DSC00089.ARW"))
    as (Heq & _ & Hfile & Hext).
  split; [exact Heq|].
  destruct Hfile as (Hp & Hs & Hx).
  - split; [right; left; reflexivity|].
    repeat (constructor; [repeat split; try discriminate; reflexivity|]).
    constructor.
  - discriminate.
  - split; [exact Hp|]. split; [exact Hs|]. split; [exact Hx|].
    refine (proj1 (Hext (of_str "/photos/2024") "DSC00089" "ARW" "arw" _ _ _ _));
      try discriminate; try reflexivity; repeat split; discriminate.
Defined.

End SidecarPath.

(* ================================================================== *)
(** * Properties: the metadata writer *)
(* ================================================================== *)

Section MemFacts.
Context {K : Type} `{Eqb K}.

Lemma eqb_refl (x : K) : eqb x x = true.
Proof. destruct (eqb_spec x x); congruence. Qed.

Lemma eqb_eq (x y : K) : eqb x y = true <-> x = y.
Proof. destruct (eqb_spec x y); split; congruence. Qed.

Lemma mem_In (x : K) (l : list K) : mem x l = true <-> In x l.
Proof.
  unfold mem. rewrite existsb_exists. split.
  - intros (y & Hy & E). apply eqb_eq in E. now subst.
  - intros Hx. exists x. split; [assumption | apply eqb_refl].
Qed.

Lemma mem_filter (f : K -> bool) (x : K) (l : list K) :
  In x l -> mem x (filter f l) = f x.
Proof.
  intros Hx. destruct (f x) eqn:E.
  - apply mem_In, filter_In. auto.
  - destruct (mem x (filter f l)) eqn:M; [|reflexivity].
    apply mem_In, filter_In in M. destruct M; congruence.
Qed.

End MemFacts.

Section WriterFacts.

Variable X : Externals.

(** The check that every RAW file of a batch exists: it passes without a
    trace, or raises for the first missing file, without a trace either. *)
Lemma check_all_exist_ok (raw_files : list Path) (w : World) :
  (forall raw, In raw raw_files -> os.exists_ (fs w) raw = true) ->
  for_each raw_files
    (fun raw_file =>
       present <- with_fs (fun fs => Returned (os.exists_ fs raw_file)) ;;
       if negb present then
         raise (FileNotFoundError
                  ("RAW file not found: " ++ pathlib.str raw_file))
       else ret tt) w
  = (Returned tt, w).
Proof.
  induction raw_files as [|r l IH]; intros Hall; [reflexivity|].
  simpl. unfold bind at 1. unfold bind at 1. unfold with_fs at 1.
  rewrite (Hall r (or_introl eq_refl)). simpl.
  apply IH. intros raw Hin. apply Hall. now right.
Qed.

Lemma check_all_exist_missing (raw_files : list Path) (w : World) :
  (exists raw, In raw raw_files /\ os.exists_ (fs w) raw = false) ->
  exists raw, In raw raw_files /\ os.exists_ (fs w) raw = false /\
    for_each raw_files
      (fun raw_file =>
         present <- with_fs (fun fs => Returned (os.exists_ fs raw_file)) ;;
         if negb present then
           raise (FileNotFoundError
                    ("RAW file not found: " ++ pathlib.str raw_file))
         else ret tt) w
    = (Raised (FileNotFoundError ("RAW file not found: " ++ pathlib.str raw)), w).
Proof.
  induction raw_files as [|r l IH]; intros (raw & Hin & Hmiss); [destruct Hin|].
  destruct (os.exists_ (fs w) r) eqn:E.
  - destruct Hin as [-> | Hin]; [congruence|].
    destruct IH as (raw' & Hin' & Hmiss' & Hrun); [now exists raw|].
    exists raw'. split; [now right|]. split; [assumption|].
    simpl. unfold bind at 1. unfold bind at 1. unfold with_fs at 1.
    rewrite E. simpl. exact Hrun.
  - exists r. split; [now left|]. split; [assumption|].
    simpl. unfold bind at 1. unfold bind at 1. unfold with_fs at 1.
    rewrite E. reflexivity.
Qed.

(** One call of the writer on an existing sidecar with keywords. *)
Lemma add_keywords_to_xmp_run (xmp_file : Path) (keywords : list string)
      (exiftool_path : string) (w : World) :
  keywords <> [] -> os.exists_ (fs w) xmp_file = true ->
  let cmd := exiftool_cmd exiftool_path keywords xmp_file in
  add_keywords_to_xmp X xmp_file keywords exiftool_path w
  = (match exit_status X (trace w) cmd with
     | Returned returncode =>
         if Z.eqb returncode 0 then Returned tt
         else Raised (CalledProcessError returncode cmd)
     | Raised e => Raised e
     end,
     mkWorld (fs w) (environ w) (trace w ++ [Spawned cmd])).
Proof.
  intros Hk Hx cmd. unfold add_keywords_to_xmp, bind, with_fs.
  rewrite Hx. simpl.
  destruct keywords as [|k ks]; [congruence|]. simpl.
  unfold subprocess_run. fold cmd.
  destruct (exit_status X (trace w) cmd) as [rc|e]; [|reflexivity].
  destruct (Z.eqb rc 0) eqn:E; [|reflexivity].
  simpl. rewrite E. reflexivity.
Qed.

(** The writing loop of the batch, when exiftool succeeds. *)
Lemma write_loop_ok (files_with_xmp : list Path) (exiftool_path : string)
      (d : dict.t Path (list string)) (w : World) :
  (forall tr cmd, exit_status X tr cmd = Returned 0%Z) ->
  (forall item, In item d ->
     mem (fst item) files_with_xmp = check_xmp_exists (fs w) (fst item)) ->
  for_each d
    (fun item =>
       if mem (fst item) files_with_xmp && truth (snd item) then
         add_keywords_to_xmp X (get_xmp_path (fst item)) (snd item) exiftool_path
       else ret tt) w
  = (Returned tt,
     mkWorld (fs w) (environ w)
       (trace w ++ map (invocation exiftool_path) (filter (eligible (fs w)) d))).
Proof.
  intros Hok. revert w. induction d as [|item d IH]; intros w Hmem.
  - simpl. rewrite app_nil_r. now destruct w.
  - simpl. unfold bind at 1.
    rewrite (Hmem item (or_introl eq_refl)).
    unfold eligible at 1. simpl truth.
    destruct (check_xmp_exists (fs w) (fst item) && negb (is_empty (snd item)))
      eqn:E.
    + apply andb_true_iff in E as [Ex Ek].
      rewrite add_keywords_to_xmp_run;
        [| destruct (snd item); [discriminate | congruence] | exact Ex].
      rewrite Hok. simpl.
      rewrite IH; simpl.
      * now rewrite <- app_assoc.
      * intros it Hin. apply Hmem. now right.
    + unfold ret at 1. apply IH. intros it Hin. apply Hmem. now right.
Qed.

End WriterFacts.

(** C2, as amended.  On an existing sidecar and a non-empty keyword
    sequence, [add_keywords_to_xmp] runs the external process exactly once,
    with these arguments in this order: the exiftool path, the single flag
    [-overwrite_original] (which both overwrites in place and suppresses the
    backup file), one [-XMP-dc:Subject+=keyword] argument per keyword, and
    the sidecar path last.  The call succeeds when the process exits with 0,
    and raises the process failure (or the failure to start the process)
    otherwise. *)
Theorem add_keywords_to_xmp_command
        (X : Externals) (xmp_file : Path) (keywords : list string)
        (exiftool_path : string) (w : World) :
  keywords <> [] -> os.exists_ (fs w) xmp_file = true ->
  let cmd := [exiftool_path; "-overwrite_original"]
             ++ map (fun keyword => ("-XMP-dc:Subject+=" ++ keyword)%string) keywords
             ++ [pathlib.str xmp_file] in
  let run := add_keywords_to_xmp X xmp_file keywords exiftool_path w in
  trace (snd run) = trace w ++ [Spawned cmd]
  /\ fs (snd run) = fs w
  /\ length cmd = 3 + length keywords
  /\ fst run = match exit_status X (trace w) cmd with
               | Returned returncode =>
                   if Z.eqb returncode 0 then Returned tt
                   else Raised (CalledProcessError returncode cmd)
               | Raised e => Raised e
               end.
Proof.
  intros Hk Hx cmd run. unfold run.
  rewrite (add_keywords_to_xmp_run X xmp_file keywords exiftool_path w Hk Hx).
  fold (exiftool_cmd exiftool_path keywords xmp_file). simpl.
  repeat split.
  rewrite length_app, length_map. simpl. lia.
Qed.

Lemma add_keywords_to_xmp_command_witness :
  let X := Scenario.tool_ok in
  let w := Scenario.photo_world in
  let xmp := Scenario.P "/photos/DSC00089.xmp" in
  let run := add_keywords_to_xmp X xmp ["landscape"; "sunset"] "exiftool" w in
  trace (snd run)
  = [Spawned ["exiftool"; "-overwrite_original"; "-XMP-dc:Subject+=landscape";
              "-XMP-dc:Subject+=sunset"; "/photos/DSC00089.xmp"]]
  /\ fst run = Returned tt.
Proof.
  pose proof (add_keywords_to_xmp_command Scenario.tool_ok
                (Scenario.P "/photos/DSC00089.xmp") ["landscape"; "sunset"]
                "exiftool" Scenario.photo_world
                ltac:(discriminate) eq_refl) as H.
  cbv zeta in H. destruct H as (Ht & _ & _ & Hr).
  split; [exact Ht | exact Hr].
Defined.

(** C2 as stated fails: the command has one flag, not a backup-suppressing
    flag followed by an overwrite flag, so for one keyword it has four
    arguments and the third is the keyword argument. *)
Lemma add_keywords_to_xmp_two_flags_counterexample :
  let xmp := Scenario.P "/photos/DSC00089.xmp" in
  let cmd := ["exiftool"; "-overwrite_original"; "-XMP-dc:Subject+=landscape";
              "/photos/DSC00089.xmp"] in
  os.exists_ (fs Scenario.photo_world) xmp = true
  /\ add_keywords_to_xmp Scenario.tool_ok xmp ["landscape"] "exiftool"
       Scenario.photo_world
     = (Returned tt, mkWorld Scenario.photos [] [Spawned cmd])
  /\ ~ spec_command_shape "exiftool" ["landscape"] xmp cmd.
Proof.
  cbv zeta. split; [reflexivity|]. split; [reflexivity|].
  intros (f1 & f2 & E). discriminate E.
Qed.

(** C4.  When a RAW file of the mapping does not exist, [batch_add_keywords]
    raises [FileNotFoundError] naming a missing RAW file and leaves the world
    as it found it: no process has been run, no sidecar touched. *)
Theorem batch_add_keywords_missing_raw
        (K : Type) (KW : Keywords K) (X : Externals)
        (raw_files_keywords : dict.t Path K) (exiftool_path : string)
        (w : World) :
  (exists raw, In raw (dict.keys raw_files_keywords)
               /\ os.exists_ (fs w) raw = false) ->
  exists raw,
    In raw (dict.keys raw_files_keywords)
    /\ os.exists_ (fs w) raw = false
    /\ batch_add_keywords X raw_files_keywords exiftool_path w
       = (Raised (FileNotFoundError
                    ("RAW file not found: " ++ pathlib.str raw)), w).
Proof.
  intros Hmiss.
  destruct (check_all_exist_missing _ w Hmiss) as (raw & Hin & Hno & Hrun).
  exists raw. split; [assumption|]. split; [assumption|].
  unfold batch_add_keywords. unfold bind at 1. now rewrite Hrun.
Qed.

Lemma batch_add_keywords_missing_raw_witness :
  exists raw,
    In raw (dict.keys Scenario.with_missing_raw)
    /\ os.exists_ Scenario.photos raw = false
    /\ batch_add_keywords Scenario.tool_ok Scenario.with_missing_raw "exiftool"
         Scenario.photo_world
       = (Raised (FileNotFoundError
                    ("RAW file not found: " ++ pathlib.str raw)),
          Scenario.photo_world).
Proof.
  apply (batch_add_keywords_missing_raw (list string) _ Scenario.tool_ok
           Scenario.with_missing_raw "exiftool" Scenario.photo_world).
  exists (Scenario.P "/photos/DSC00404.ARW").
  split; [right; left; reflexivity | reflexivity].
Defined.

(** C3, as amended.  When every RAW file of the mapping exists and every
    exiftool run exits with 0, [batch_add_keywords] returns after running
    the external writer exactly once for each entry whose RAW file has a
    sidecar and whose keywords are not empty, in the order of the mapping,
    and not at all for the other entries: the trace grows by exactly one
    invocation per eligible entry. *)
Theorem batch_add_keywords_invocations
        (X : Externals) (raw_files_keywords : dict.t Path (list string))
        (exiftool_path : string) (w : World) :
  (forall raw, In raw (dict.keys raw_files_keywords)
               -> os.exists_ (fs w) raw = true) ->
  (forall tr cmd, exit_status X tr cmd = Returned 0%Z) ->
  batch_add_keywords X raw_files_keywords exiftool_path w
  = (Returned tt,
     mkWorld (fs w) (environ w)
       (trace w ++ map (invocation exiftool_path)
                       (filter (eligible (fs w)) raw_files_keywords))).
Proof.
  intros Hall Hok. unfold batch_add_keywords. unfold bind at 1.
  rewrite (check_all_exist_ok _ w Hall).
  unfold bind at 1. unfold with_fs at 1.
  unfold ensure_xmp_sidecars. rewrite partition_as_filter. simpl fst.
  apply (write_loop_ok X _ exiftool_path raw_files_keywords w Hok).
  intros item Hin. apply mem_filter. unfold dict.keys. now apply in_map.
Qed.

Lemma batch_add_keywords_invocations_witness :
  batch_add_keywords Scenario.tool_ok Scenario.mixed_entries "exiftool"
    Scenario.photo_world
  = (Returned tt,
     mkWorld Scenario.photos []
       [Spawned ["exiftool"; "-overwrite_original"; "-XMP-dc:Subject+=landscape";
                 "-XMP-dc:Subject+=sunset"; "/photos/DSC00089.xmp"]]).
Proof.
  refine (eq_trans
            (batch_add_keywords_invocations Scenario.tool_ok
               Scenario.mixed_entries "exiftool" Scenario.photo_world _ _) _).
  - intros raw [<- | [<- | [<- | []]]]; reflexivity.
  - reflexivity.
  - reflexivity.
Defined.

(** C3 as stated fails when exiftool fails: both entries have a sidecar and
    keywords, the first run exits with 1, and the second entry is never
    written. *)
Lemma batch_add_keywords_failure_counterexample :
  let first := ["exiftool"; "-overwrite_original"; "-XMP-dc:Subject+=landscape";
                "-XMP-dc:Subject+=sunset"; "/photos/DSC00089.xmp"] in
  let second := ["exiftool"; "-overwrite_original"; "-XMP-dc:Subject+=portrait";
                 "/photos/DSC00090.xmp"] in
  let run := batch_add_keywords Scenario.tool_fails Scenario.two_entries
               "exiftool" Scenario.photo_world in
  forallb (os.exists_ Scenario.photos) (dict.keys Scenario.two_entries) = true
  /\ filter (eligible Scenario.photos) Scenario.two_entries = Scenario.two_entries
  /\ map (invocation "exiftool") Scenario.two_entries
     = [Spawned first; Spawned second]
  /\ fst run = Raised (CalledProcessError 1 first)
  /\ trace (snd run) = [Spawned first].
Proof. cbv zeta. repeat split. Qed.

(* ================================================================== *)
(** * Properties: json.loads always answers *)
(* ================================================================== *)

Section JsonFacts.
Import pystr json.

Lemma scans_weaken {A : Type} (n m : nat) (b : bool) (o : outcome (A * string)) :
  scans n b o -> n <= m -> scans m b o.
Proof. destruct o as [[a r]|e]; simpl; [lia | auto]. Qed.

Lemma scans_push (n m : nat) (x : string) (o : outcome (string * string)) :
  scans n false o -> n <= m -> scans m false (push x o).
Proof. destruct o as [[a r]|e]; simpl; [lia | auto]. Qed.

Lemma scans_error {A : Type} (n : nat) (b : bool) (m : string) :
  @scans A n b (Raised (JSONDecodeError m)).
Proof. left. now exists m. Qed.

Lemma scanstring_scans (n : nat) :
  forall s, String.length s <= n -> scans (String.length s) false (scanstring s).
Proof.
  induction n as [|n IH]; intros s Hn.
  - destruct s; [apply scans_error | simpl in Hn; lia].
  - destruct s as [|c rest]; [apply scans_error|].
    simpl in Hn.
    assert (Hrec : forall r x, String.length r <= String.length rest ->
                     scans (String.length (String c rest)) false (push x (scanstring r))).
    { intros r x Hr. apply scans_push with (n := String.length r);
        [apply IH; lia | simpl; lia]. }
    unfold scanstring; fold scanstring.
    repeat match goal with
           | |- scans _ _ (Raised (JSONDecodeError _)) => apply scans_error
           | |- scans _ _ (Raised unterminated) => apply scans_error
           | |- scans _ _ (Raised invalid_uXXXX) => apply scans_error
           | |- scans _ _ (Returned _) => simpl; lia
           | |- scans _ _ (push _ (scanstring _)) => apply Hrec; simpl in *; lia
           | |- scans _ _ (if ?b then _ else _) => destruct b
           | |- scans _ _ (match ?x with _ => _ end) => destruct x; simpl in Hn
           end.
Qed.

Lemma skip_ws_length (s : string) : String.length (skip_ws s) <= String.length s.
Proof.
  induction s as [|c s IH]; simpl; [lia|]. destruct (is_ws c); simpl; lia.
Qed.

Lemma drop_length (n : nat) (s : string) :
  String.length (drop n s) = String.length s - n.
Proof. revert s; induction n; intros [|c s]; simpl; auto. Qed.

Lemma startswith_length (p s : string) :
  startswith p s = true -> String.length p <= String.length s.
Proof.
  revert s; induction p as [|a p IH]; intros [|b s]; simpl; try lia; try discriminate.
  intros H. apply andb_true_iff in H as [_ H]. apply IH in H. lia.
Qed.

Lemma span_digits_length (s : string) :
  String.length (snd (span_digits s)) <= String.length s.
Proof.
  induction s as [|c s IH]; simpl; [lia|].
  destruct (is_digit c); simpl; [|lia].
  destruct (span_digits s); simpl in *. lia.
Qed.

Lemma scan_int_shorter (s ds r : string) :
  scan_int s = Some (ds, r) -> String.length r < String.length s.
Proof.
  destruct s as [|c s]; [discriminate|]. unfold scan_int.
  destruct (Ascii.eqb c "0"%char); [intros [= _ <-]; simpl; lia|].
  destruct (is_digit c) eqn:E; [|discriminate].
  simpl. rewrite E. pose proof (span_digits_length s) as H.
  destruct (span_digits s). intros [= _ <-]. simpl in *. lia.
Qed.

Lemma scan_frac_length (r : string) :
  String.length (snd (scan_frac r)) <= String.length r.
Proof.
  unfold scan_frac. destruct (startswith "." r); [|simpl; lia].
  pose proof (span_digits_length (drop 1 r)) as H. rewrite drop_length in H.
  destruct (span_digits (drop 1 r)) as [fs rf]. cbn [snd] in H.
  destruct (String.eqb fs ""); cbn [snd]; lia.
Qed.

Lemma scan_exp_length (r : string) :
  String.length (snd (scan_exp r)) <= String.length r.
Proof.
  destruct r as [|e re]; [simpl; lia|]. unfold scan_exp.
  destruct (Ascii.eqb e "e"%char || Ascii.eqb e "E"%char); [|cbn [snd]; lia].
  assert (H : forall sg x, String.length x <= String.length re ->
            String.length (snd (let '(es, rd) := span_digits x in
                                if String.eqb es "" then ("", String e re)
                                else ((String e sg ++ es)%string, rd)))
            <= String.length (String e re)).
  { intros sg x Hx. pose proof (span_digits_length x) as Hs.
    destruct (span_digits x) as [es rd]. cbn [snd] in Hs.
    destruct (String.eqb es ""); cbn [snd String.length]; lia. }
  destruct (startswith "+" re); [apply H; rewrite drop_length; lia|].
  destruct (startswith "-" re); [apply H; rewrite drop_length; lia|].
  apply H. lia.
Qed.

Lemma match_number_shorter (s : string) (v : pyval) (r : string) :
  match_number s = Some (v, r) -> String.length r < String.length s.
Proof.
  unfold match_number.
  destruct (scan_int (drop (String.length (if startswith "-" s then "-" else "")) s))
    as [[ds r0]|] eqn:Eint; [|discriminate].
  apply scan_int_shorter in Eint. rewrite drop_length in Eint.
  pose proof (scan_frac_length r0) as Hf.
  destruct (scan_frac r0) as [frac r1]. cbn [snd] in Hf.
  pose proof (scan_exp_length r1) as He.
  destruct (scan_exp r1) as [exp r2]. cbn [snd] in He.
  destruct (String.eqb frac "" && String.eqb exp ""); intros [= _ <-]; lia.
Qed.

Lemma drop_shorter (n : nat) (s : string) :
  0 < n -> s <> "" -> String.length (drop n s) < String.length s.
Proof.
  intros Hn Hs. rewrite drop_length. destruct s; [congruence|].
  cbn [String.length]. lia.
Qed.

Lemma scans_value {A : Type} (n : nat) (b : bool) (a : A) (r : string) :
  String.length r < n -> scans n b (Returned (a, r)).
Proof. exact (fun H => H). Qed.

(** With fuel for twice the length of the text, no scanning step runs out
    of it. *)
Lemma scan_once_scans (fuel : nat) :
  (forall s, 2 * String.length s + 1 <= fuel ->
             scans (String.length s) true (scan_once fuel s))
  /\ (forall s, 2 * String.length s + 2 <= fuel ->
                scans (S (String.length s)) false (array_items fuel s))
  /\ (forall s, 2 * String.length s + 2 <= fuel ->
                scans (S (String.length s)) false (object_items fuel s)).
Proof.
  induction fuel as [|f (IHs & IHa & IHo)].
  - repeat split; intros s H; lia.
  - split; [|split]; intros s H.
    + destruct s as [|c rest]; [right; auto|].
      cbn [scan_once]. cbn [String.length] in *.
      destruct (Ascii.eqb c "034"%char).
      { pose proof (scanstring_scans (String.length rest) rest (le_n _)) as Hs.
        destruct (scanstring rest) as [[str r]|e]; cbn [scans] in *; [lia|].
        destruct Hs as [Hs|[Hs _]]; [now left | discriminate]. }
      destruct (Ascii.eqb c "{"%char).
      { pose proof (skip_ws_length rest) as Hw.
        destruct (skip_ws rest) as [|c' r]; [apply scans_error|].
        cbn [String.length] in Hw.
        destruct (Ascii.eqb c' "}"%char); [cbn [scans]; lia|].
        destruct (Ascii.eqb c' "034"%char); [|apply scans_error].
        specialize (IHo r ltac:(lia)).
        destruct (object_items f r) as [[pairs r']|e]; cbn [scans] in *; [lia|].
        destruct IHo as [Ho|[Ho _]]; [now left | discriminate]. }
      destruct (Ascii.eqb c "["%char).
      { pose proof (skip_ws_length rest) as Hw.
        destruct (startswith "]" (skip_ws rest)).
        - apply scans_value. rewrite drop_length. lia.
        - specialize (IHa (skip_ws rest) ltac:(lia)).
          destruct (array_items f (skip_ws rest)) as [[values r']|e];
            cbn [scans] in *; [lia|].
          destruct IHa as [Ha|[Ha _]]; [now left | discriminate]. }
      set (s := String c rest).
      assert (Hd : forall n, 0 < n -> String.length (drop n s) < S (String.length rest)).
      { intros n Hn. apply (drop_shorter n s Hn). discriminate. }
      destruct (startswith "null" s); [apply scans_value, Hd; lia|].
      destruct (startswith "true" s); [apply scans_value, Hd; lia|].
      destruct (startswith "false" s); [apply scans_value, Hd; lia|].
      destruct (match_number s) as [[v r]|] eqn:En.
      { apply match_number_shorter in En. exact En. }
      destruct (startswith "NaN" s); [apply scans_value, Hd; lia|].
      destruct (startswith "Infinity" s); [apply scans_value, Hd; lia|].
      destruct (startswith "-Infinity" s); [apply scans_value, Hd; lia|].
      right. auto.
    + cbn [array_items].
      specialize (IHs s ltac:(lia)).
      destruct (scan_once f s) as [[value r]|e].
      * cbn [scans] in IHs. pose proof (skip_ws_length r) as Hw.
        destruct (skip_ws r) as [|c r']; [apply scans_error|].
        cbn [String.length] in Hw.
        destruct (Ascii.eqb c "]"%char); [cbn [scans]; lia|].
        destruct (Ascii.eqb c ","%char); [|apply scans_error].
        pose proof (skip_ws_length r') as Hw'.
        specialize (IHa (skip_ws r') ltac:(lia)).
        destruct (array_items f (skip_ws r')) as [[values r'']|e];
          cbn [scans] in *; [lia | exact IHa].
      * destruct IHs as [(m & ->)|[_ ->]]; apply scans_error.
    + cbn [object_items].
      pose proof (scanstring_scans (String.length s) s (le_n _)) as Hs.
      destruct (scanstring s) as [[key r]|e]; [|exact Hs].
      cbn [scans] in Hs. pose proof (skip_ws_length r) as Hw.
      destruct (startswith ":" (skip_ws r)); [|apply scans_error].
      pose proof (skip_ws_length (drop 1 (skip_ws r))) as Hw1.
      rewrite drop_length in Hw1.
      specialize (IHs (skip_ws (drop 1 (skip_ws r))) ltac:(lia)).
      destruct (scan_once f (skip_ws (drop 1 (skip_ws r)))) as [[value r2]|e].
      * cbn [scans] in IHs. pose proof (skip_ws_length r2) as Hw2.
        destruct (skip_ws r2) as [|c r3]; [apply scans_error|].
        cbn [String.length] in Hw2.
        destruct (Ascii.eqb c "}"%char); [cbn [scans]; lia|].
        destruct (Ascii.eqb c ","%char); [|apply scans_error].
        pose proof (skip_ws_length r3) as Hw3.
        destruct (startswith dq (skip_ws r3)); [|apply scans_error].
        pose proof (drop_length 1 (skip_ws r3)) as Hd.
        specialize (IHo (drop 1 (skip_ws r3)) ltac:(lia)).
        destruct (object_items f (drop 1 (skip_ws r3))) as [[pairs r5]|e];
          cbn [scans] in *; [lia | exact IHo].
      * destruct IHs as [(m & ->)|[_ ->]]; apply scans_error.
Qed.

(** [json.loads] returns a value or raises [JSONDecodeError]. *)
Lemma loads_total (s : string) :
  (exists v, loads s = Returned v)
  \/ (exists m, loads s = Raised (JSONDecodeError m)).
Proof.
  unfold loads. destruct (startswith BOM s); [right; eexists; reflexivity|].
  pose proof (skip_ws_length s) as Hw.
  destruct (scan_once_scans (2 * String.length s + 1)) as (Hs & _ & _).
  specialize (Hs (skip_ws s) ltac:(lia)).
  destruct (scan_once (2 * String.length s + 1) (skip_ws s)) as [[obj r]|e].
  - destruct (String.eqb (skip_ws r) ""); [left | right]; eexists; reflexivity.
  - destruct Hs as [(m & ->)|[_ ->]]; right; eexists; reflexivity.
Qed.

End JsonFacts.

(* ================================================================== *)
(** * Properties: the keyword requester *)
(* ================================================================== *)

Section GeneratorFacts.

Lemma read_exists (fs : FS) (p : Path) (content : string) :
  os.read fs p = Returned content -> os.exists_ fs p = true.
Proof.
  unfold os.read, os.lookup, os.exists_.
  induction fs as [|e fs IH]; simpl; [discriminate|].
  destruct (pathlib.Path_eqb (fst e) p); [reflexivity|]. exact IH.
Qed.

(** The loop over the chunks builds the concatenation of their texts. *)
Lemma concat_chunks_from (chunks : list (option string)) (acc : string) :
  fold_left
    (fun response_text chunk =>
       match chunk with
       | Some text =>
           if String.eqb text "" then response_text
           else (response_text ++ text)%string
       | None => response_text
       end) chunks acc
  = (acc ++ fold_right append "" (map chunk_text chunks))%string.
Proof.
  revert acc. induction chunks as [|c chunks IH]; intros acc; simpl.
  - now rewrite append_nil_r.
  - rewrite IH. destruct c as [text|]; simpl; [|reflexivity].
    destruct (String.eqb_spec text "") as [->|_]; [reflexivity|].
    now rewrite append_assoc.
Qed.

Lemma concat_chunks_texts (chunks : list (option string)) :
  concat_chunks chunks = fold_right append "" (map chunk_text chunks).
Proof. unfold concat_chunks. now rewrite concat_chunks_from. Qed.

(** A call that is answered goes on to parse the concatenated text, having
    made one request. *)
Lemma generate_keywords_answered
      (X : Externals) (image_path taxonomy_path : Path)
      (api_key : option string) (model : string) (thinking_budget : Z)
      (w : World) (chunks : list (option string)) :
  answered X image_path taxonomy_path api_key model thinking_budget w chunks ->
  exists req,
    generate_keywords X image_path taxonomy_path api_key model thinking_budget w
    = (parse_response (concat_chunks chunks),
       mkWorld (fs w) (environ w) (trace w ++ [Streamed req])).
Proof.
  intros (image_data & taxonomy_content & key & Himg & Htax & Hkey & Hne & Hans).
  eexists. unfold generate_keywords, bind, with_fs.
  rewrite (read_exists _ _ _ Himg). cbn [negb].
  rewrite (read_exists _ _ _ Htax). cbn [negb].
  assert (Hget : (match api_key with
                  | Some _ => ret api_key
                  | None => getenv "GEMINI_API_KEY"
                  end) w = (Returned (Some key), w)).
  { destruct Hkey as [-> | [-> Henv]]; [reflexivity|].
    unfold getenv. now rewrite Henv. }
  rewrite Hget.
  destruct key as [|k key]; [congruence|].
  rewrite Himg, Htax. unfold generate_content_stream. cbn [trace fs environ].
  rewrite Hans. reflexivity.
Qed.

(** In the model a text for which [json.loads] returns no value makes it
    raise [JSONDecodeError]. *)
Lemma loads_invalid (text : string) :
  (forall v, json.loads text <> Returned v) ->
  exists m, json.loads text = Raised (JSONDecodeError m).
Proof.
  intros Hbad. destruct (loads_total text) as [(v & Hv) | Hm]; [|exact Hm].
  now apply Hbad in Hv.
Qed.

Lemma parse_response_malformed (text m : string) :
  json.loads text = Raised (JSONDecodeError m) ->
  parse_response text
  = Raised (ValueError ("Failed to parse Gemini response as JSON: " ++ text)).
Proof. intros Hm. unfold parse_response. now rewrite Hm. Qed.

End GeneratorFacts.

(** C1, as amended.  When the concatenated response text is not valid JSON
    ([json.loads] raises [JSONDecodeError] on it), [generate_keywords] fails
    with a [ValueError] whose message is
    [Failed to parse Gemini response as JSON: ] followed by the raw
    concatenated text, verbatim. *)
Theorem generate_keywords_malformed
        (X : Externals) (image_path taxonomy_path : Path)
        (api_key : option string) (model : string) (thinking_budget : Z)
        (w : World) (chunks : list (option string)) :
  answered X image_path taxonomy_path api_key model thinking_budget w chunks ->
  (exists m, json.loads (concat_chunks chunks) = Raised (JSONDecodeError m)) ->
  exists e,
    fst (generate_keywords X image_path taxonomy_path api_key model
           thinking_budget w) = Raised e
    /\ e = ValueError ("Failed to parse Gemini response as JSON: "
                       ++ concat_chunks chunks)
    /\ pystr.endswith (concat_chunks chunks) (message e).
Proof.
  intros Hans (m & Hbad).
  destruct (generate_keywords_answered _ _ _ _ _ _ _ _ Hans) as (req & ->).
  simpl fst. rewrite (parse_response_malformed _ m Hbad).
  eexists. split; [reflexivity|]. split; [reflexivity|].
  exists "Failed to parse Gemini response as JSON: ". reflexivity.
Qed.

Lemma generate_keywords_malformed_witness :
  fst (generate_keywords (Scenario.service [Some "invalid"; None; Some " json"])
         (Scenario.P "/exports/A.jpg") (Scenario.P "/taxonomy.txt") None
         "gemini-flash-lite-latest" 8132 Scenario.studio_world)
  = Raised (ValueError "Failed to parse Gemini response as JSON: invalid json").
Proof.
  destruct (generate_keywords_malformed
              (Scenario.service [Some "invalid"; None; Some " json"])
              (Scenario.P "/exports/A.jpg") (Scenario.P "/taxonomy.txt") None
              "gemini-flash-lite-latest" 8132 Scenario.studio_world
              [Some "invalid"; None; Some " json"])
    as (e & He & -> & _).
  - exists "first jpeg", "nature", "secret".
    repeat split; try reflexivity; [right; split; reflexivity | discriminate].
  - exists "Expecting value". reflexivity.
  - exact He.
Defined.

(** C1 as stated fails on text that is JSON but not an object with a
    [keywords] array: for the text of an empty array the call fails with an
    [AttributeError] whose message does not hold the text, and for an object
    whose [keywords] is a number it does not fail at all. *)
Lemma generate_keywords_not_expected_counterexample :
  let run text :=
    fst (generate_keywords (Scenario.service [Some text])
           (Scenario.P "/exports/A.jpg") (Scenario.P "/taxonomy.txt") None
           "gemini-flash-lite-latest" 8132 Scenario.studio_world) in
  let number := pystr.q "{'keywords': 5}" in
  (~ expected_structure "[]"
   /\ run "[]" = Raised (AttributeError "'list' object has no attribute 'get'")
   /\ pystr.has_substring "[]" "'list' object has no attribute 'get'" = false)
  /\ (~ expected_structure number
      /\ run number = Returned (PInt 5)).
Proof.
  cbv zeta. split; split.
  - intros (d & k & H & _). vm_compute in H. discriminate H.
  - split; reflexivity.
  - intros (d & k & H & Hk). vm_compute in H.
    injection H as <-. vm_compute in Hk. discriminate Hk.
  - reflexivity.
Qed.

(** C7.  When the concatenation of the streamed fragments parses as a JSON
    object, [generate_keywords] returns the value of that object's
    [keywords] field, or the empty list when the object has none.  The text
    parsed is the concatenation of the fragments' texts, so any other
    fragmentation of the same text gives the same result; and whenever the
    fragments make up [{"keywords": ["x","y"]}] the result is the list
    [x, y]. *)
Theorem generate_keywords_concatenation
        (X : Externals) (image_path taxonomy_path : Path)
        (api_key : option string) (model : string) (thinking_budget : Z)
        (w : World) (chunks : list (option string))
        (d : list (string * pyval)) :
  answered X image_path taxonomy_path api_key model thinking_budget w chunks ->
  json.loads (concat_chunks chunks) = Returned (PDict d) ->
  let result X := fst (generate_keywords X image_path taxonomy_path api_key
                         model thinking_budget w) in
  result X = Returned (match dict.get d "keywords" with
                       | Some keywords => keywords
                       | None => PList []
                       end)
  /\ concat_chunks chunks = fold_right append "" (map chunk_text chunks)
  /\ (forall X' chunks',
        answered X' image_path taxonomy_path api_key model thinking_budget w
                 chunks' ->
        fold_right append "" (map chunk_text chunks')
        = fold_right append "" (map chunk_text chunks) ->
        result X' = result X)
  /\ (concat_chunks chunks = pystr.q "{'keywords': ['x','y']}" ->
      result X = Returned (PList [PStr "x"; PStr "y"])).
Proof.
  intros Hans Hobj result. unfold result.
  destruct (generate_keywords_answered _ _ _ _ _ _ _ _ Hans) as (req & Hrun).
  rewrite Hrun. simpl fst.
  split; [unfold parse_response; now rewrite Hobj|].
  split; [apply concat_chunks_texts|].
  split.
  - intros X' chunks' Hans' Hsame.
    destruct (generate_keywords_answered _ _ _ _ _ _ _ _ Hans') as (req' & ->).
    simpl fst. now rewrite !concat_chunks_texts, Hsame.
  - intros ->. reflexivity.
Qed.

Lemma generate_keywords_concatenation_witness :
  fst (generate_keywords (Scenario.service Scenario.fragments)
         (Scenario.P "/exports/A.jpg") (Scenario.P "/taxonomy.txt") None
         "gemini-flash-lite-latest" 8132 Scenario.studio_world)
  = Returned (PList [PStr "x"; PStr "y"]).
Proof.
  refine (proj2 (proj2 (proj2
    (generate_keywords_concatenation
       (Scenario.service Scenario.fragments)
       (Scenario.P "/exports/A.jpg") (Scenario.P "/taxonomy.txt") None
       "gemini-flash-lite-latest" 8132 Scenario.studio_world
       Scenario.fragments [("keywords", PList [PStr "x"; PStr "y"])] _ _))) _).
  - exists "first jpeg", "nature", "secret".
    repeat split; try reflexivity; [right; split; reflexivity | discriminate].
  - reflexivity.
  - reflexivity.
Defined.

(* ================================================================== *)
(** * Properties: patterns with a literal tail *)
(* ================================================================== *)

Section FnmatchFacts.
Import pystr fnmatch.

Lemma endswith_refl (s : string) : endswith s s.
Proof. now exists "". Qed.

Lemma endswith_cons (p : string) (c : ascii) (s : string) :
  endswith p s -> endswith p (String c s).
Proof. intros (pre & ->). now exists (String c pre). Qed.

Lemma endswith_append (p a b : string) : endswith p b -> endswith p (a ++ b).
Proof. intros (pre & ->). exists (a ++ pre)%string. now rewrite append_assoc. Qed.

Lemma literal_parts (ext : string) :
  literal ext = true ->
  contains "*"%char ext = false /\ contains "?"%char ext = false
  /\ contains "["%char ext = false /\ contains "]"%char ext = false
  /\ contains "/"%char ext = false.
Proof.
  unfold literal. intros H. apply negb_true_iff in H.
  repeat (apply orb_false_iff in H as [H ?]). auto.
Qed.

(** Without a closing bracket in [ext], the scan for the end of a bracket
    expression sees the same in [r ++ ext] as in [r], and what it finds lies
    in [r]. *)
Lemma index_of_append (c : ascii) (r ext : string) :
  contains c ext = false ->
  index_of c (r ++ ext) = index_of c r
  /\ (forall k, index_of c r = Some k -> k < String.length r).
Proof.
  intros He. induction r as [|a r [IH1 IH2]]; simpl.
  - split; [|discriminate].
    induction ext as [|b ext IH]; simpl in *; [reflexivity|].
    apply orb_false_iff in He as [Hb He]. rewrite Hb, (IH He). reflexivity.
  - destruct (Ascii.eqb a c).
    + split; [reflexivity|]. intros k [= <-]. lia.
    + rewrite IH1. split; [reflexivity|].
      intros k. destruct (index_of c r) as [j|]; [|discriminate].
      intros [= <-]. specialize (IH2 j eq_refl). lia.
Qed.

Lemma startswith_char_append (c : ascii) (r ext : string) :
  contains c ext = false ->
  startswith (String c "") (r ++ ext) = startswith (String c "") r.
Proof.
  intros He. destruct r as [|a r]; [|reflexivity].
  destruct ext as [|b ext]; [reflexivity|]. simpl in *.
  apply orb_false_iff in He as [Hb _].
  rewrite Ascii.eqb_sym, Hb. reflexivity.
Qed.

Lemma drop_append (n : nat) (r ext : string) :
  n <= String.length r -> drop n (r ++ ext) = (drop n r ++ ext)%string.
Proof.
  revert r. induction n as [|n IH]; intros r Hn; [reflexivity|].
  destruct r as [|a r]; simpl in *; [lia|]. apply IH. lia.
Qed.

Lemma take_append (n : nat) (r ext : string) :
  n <= String.length r -> take n (r ++ ext) = take n r.
Proof.
  revert r. induction n as [|n IH]; intros r Hn; [reflexivity|].
  destruct r as [|a r]; simpl in *; [lia|]. f_equal. apply IH. lia.
Qed.

Lemma bracket_end_append (r ext : string) :
  contains "]"%char ext = false ->
  bracket_end (r ++ ext) = bracket_end r
  /\ (forall j, bracket_end r = Some j -> j < String.length r).
Proof.
  intros He.
  assert (Hidx : forall j1 x, j1 <= String.length r ->
             drop j1 r = x ->
             option_map (fun k => j1 + k) (index_of "]"%char (drop j1 (r ++ ext)))
             = option_map (fun k => j1 + k) (index_of "]"%char x)
             /\ (forall j, option_map (fun k => j1 + k) (index_of "]"%char x) = Some j ->
                           j < String.length r)).
  { intros j1 x Hj <-. rewrite (drop_append j1 r ext Hj).
    destruct (index_of_append "]"%char (drop j1 r) ext He) as [E1 E2].
    rewrite E1. split; [reflexivity|].
    intros j. destruct (index_of "]"%char (drop j1 r)) as [k|]; [|discriminate].
    intros [= <-]. specialize (E2 k eq_refl). rewrite drop_length in E2. lia. }
  unfold bracket_end.
  destruct r as [|a r].
  - (* nothing after the bracket but the literal tail *)
    simpl append. change (startswith "!" "") with false. cbn iota.
    change (drop 0 "") with "". change (startswith "]" "") with false. cbn iota.
    split; [|discriminate].
    assert (Hnone : forall x, contains "]"%char x = false -> index_of "]"%char x = None).
    { intros x Hx. destruct (index_of_append "]"%char "" x Hx) as [E _]. exact E. }
    assert (Hd : forall n, contains "]"%char (drop n ext) = false).
    { intros n. revert He. generalize ext. induction n as [|n IHn]; intros [|b x];
        simpl; auto. intros H. apply orb_false_iff in H as [_ H]. auto. }
    assert (Hs : forall n, startswith "]" (drop n ext) = false).
    { intros n. specialize (Hd n). destruct (drop n ext) as [|b x]; [reflexivity|].
      cbn [startswith contains] in Hd |- *. apply orb_false_iff in Hd as [Hb _].
      rewrite Ascii.eqb_sym, Hb. reflexivity. }
    destruct (startswith "!" ext); rewrite Hs, (Hnone _ (Hd _)); reflexivity.
  - assert (H0 : startswith "!" (String a r ++ ext) = startswith "!" (String a r))
      by reflexivity.
    rewrite H0.
    destruct (startswith "!" (String a r)).
    + change (drop 1 (String a r ++ ext)) with (r ++ ext)%string.
      change (drop 1 (String a r)) with r.
      rewrite (startswith_char_append "]"%char r ext He).
      destruct (startswith "]" r) eqn:Er.
      * apply Hidx; [|reflexivity]. apply startswith_length in Er. simpl in *. lia.
      * apply Hidx; [simpl; lia | reflexivity].
    + change (drop 0 (String a r ++ ext)) with (String a r ++ ext)%string.
      change (drop 0 (String a r)) with (String a r).
      rewrite (startswith_char_append "]"%char (String a r) ext He).
      destruct (startswith "]" (String a r)); apply Hidx; simpl; try lia; reflexivity.
Qed.

Lemma translate_literal (ext : string) (after_star : bool) :
  literal ext = true -> translate_from 0 after_star ext = literals ext.
Proof.
  intros H. apply literal_parts in H as (Hs & Hq & Hb & _ & _).
  revert after_star. induction ext as [|c ext IH]; intros b; [reflexivity|].
  simpl in Hs, Hq, Hb.
  apply orb_false_iff in Hs as [Hs1 Hs], Hq as [Hq1 Hq], Hb as [Hb1 Hb].
  cbn [translate_from]. rewrite Hs1, Hq1, Hb1.
  unfold literals. simpl. f_equal. now apply IH.
Qed.

(** The translation of [stem ++ ext] is that of [stem] followed by the
    characters of [ext]. *)
Lemma translate_append (ext : string) :
  literal ext = true ->
  forall (stem : string) (skip : nat) (after_star : bool),
    skip <= String.length stem ->
    translate_from skip after_star (stem ++ ext)
    = translate_from skip after_star stem ++ literals ext.
Proof.
  intros Hlit. pose proof (literal_parts _ Hlit) as (_ & _ & _ & Hclose & _).
  induction stem as [|c r IH]; intros skip b Hskip.
  - simpl in Hskip. replace skip with 0 by lia. simpl.
    now apply translate_literal.
  - simpl append. cbn [translate_from]. destruct skip as [|k].
    + destruct (Ascii.eqb c "*"%char).
      { destruct b; [|simpl; f_equal]; apply IH; lia. }
      destruct (Ascii.eqb c "?"%char); [simpl; f_equal; apply IH; lia|].
      destruct (Ascii.eqb c "["%char); [|simpl; f_equal; apply IH; lia].
      destruct (bracket_end_append r ext Hclose) as [E Hj]. rewrite E.
      destruct (bracket_end r) as [j|]; [|simpl; f_equal; apply IH; lia].
      specialize (Hj j eq_refl).
      rewrite (take_append j r ext) by lia. simpl. f_equal. apply IH. lia.
    + apply IH. simpl in Hskip. lia.
Qed.

Lemma matches_literals (ext name : string) :
  matches (literals ext) name = true -> name = ext.
Proof.
  revert name. induction ext as [|c ext IH]; intros name; simpl.
  - intros H. now apply String.eqb_eq in H.
  - destruct name as [|a name]; [discriminate|].
    intros H. apply andb_true_iff in H as [Ha H].
    apply Ascii.eqb_eq in Ha. subst. f_equal. now apply IH.
Qed.

(** A name matched by pieces that end with the characters of [ext] ends
    with [ext]. *)
Lemma matches_tail (ext : string) (ts : list item) :
  forall name, matches (ts ++ literals ext) name = true -> endswith ext name.
Proof.
  induction ts as [|t ts IH]; intros name.
  - simpl. intros H. apply matches_literals in H. subst. apply endswith_refl.
  - destruct t; simpl.
    + (* a star: some tail of the name is matched by the rest *)
      induction name as [|a name IHn].
      * intros H. apply orb_true_iff in H as [H | H]; [now apply IH | discriminate].
      * intros H. apply orb_true_iff in H as [H | H]; [now apply IH|].
        apply endswith_cons. now apply IHn.
    + destruct name as [|a name]; [discriminate|].
      intros H. apply endswith_cons. now apply IH.
    + destruct name as [|a name]; [discriminate|].
      intros H. apply andb_true_iff in H as [_ H]. apply endswith_cons. now apply IH.
    + destruct name as [|a name]; [discriminate|].
      intros H. apply andb_true_iff in H as [_ H]. apply endswith_cons. now apply IH.
Qed.

Lemma fnmatch_literal_tail (stem ext name : string) :
  literal ext = true ->
  fnmatch (stem ++ ext) name = true -> endswith ext name.
Proof.
  intros Hlit. unfold fnmatch, translate.
  rewrite (translate_append ext Hlit stem 0 false) by lia.
  apply matches_tail.
Qed.

End FnmatchFacts.

(* ================================================================== *)
(** * Properties: the recursive glob of [find_raw_file] *)
(* ================================================================== *)

Section GlobFacts.
Import pystr pathlib os glob.

Lemma glob_recursive (fs : FS) (base : Path) (s : string) :
  glob.glob fs base ("**/" ++ s)
  = if invalid_pattern (tail_parts s) then
      Raised (ValueError
                "Invalid pattern: '**' can only be an entire path component")
    else if is_dir fs base then
      Returned (select_from fs ("**" :: tail_parts s) base)
    else Returned [].
Proof. reflexivity. Qed.

Lemma last_char_append (a s : string) :
  s <> "" -> last_char (a ++ s) = last_char s.
Proof.
  intros Hs. induction a as [|c a IH]; [reflexivity|].
  simpl. rewrite IH. destruct (a ++ s)%string eqn:E; [|reflexivity].
  destruct a; simpl in E; [congruence | discriminate].
Qed.

Lemma last_char_contains (s : string) (c : ascii) :
  last_char s = Some c -> contains c s = true.
Proof.
  induction s as [|a s IH]; [discriminate|]. simpl.
  destruct s as [|b s].
  - intros [= ->]. now rewrite Ascii.eqb_refl.
  - intros H. rewrite (IH H). apply orb_true_r.
Qed.

(** For a single component [s] the pattern [**/s] has the parts [**] and
    [s]. *)
Lemma tail_parts_component (s : string) :
  wf_part s -> tail_parts s = [s].
Proof.
  intros (Hne & Hdot & Hsl). unfold tail_parts.
  rewrite (split_no_sep _ _ Hsl). simpl filter. unfold kept.
  destruct (String.eqb_spec s ""); [congruence|].
  destruct (String.eqb_spec s "."); [congruence|]. simpl negb. simpl andb.
  rewrite (last_char_append "**/" s Hne).
  destruct (last_char s) as [c|] eqn:E; [|reflexivity].
  apply last_char_contains in E.
  destruct (Ascii.eqb_spec c "/"%char); [congruence | reflexivity].
Qed.

Lemma dedup_In (yielded l : list Path) (p : Path) :
  In p (dedup yielded l) -> In p l.
Proof.
  revert yielded. induction l as [|x l IH]; intros yielded; simpl; [auto|].
  destruct (existsb (Path_eqb x) yielded).
  - intros H. right. eapply IH, H.
  - intros [-> | H]; [now left | right; eapply IH, H].
Qed.

(** A path selected by [**/s], for a component [s] other than [**], has a
    final component that is [s] itself or that matches [s]. *)
Lemma select_recursive_name (fs : FS) (base raw : Path) (s : string) :
  s <> "" -> s <> "**" ->
  In raw (select_from fs ["**"; s] base) ->
  name raw = s \/ fnmatch.fnmatch s (name raw) = true.
Proof.
  intros Hne Hstar Hin.
  cbn [select_from] in Hin.
  change (String.eqb "**" "") with false in Hin.
  change (String.eqb "**" "**") with true in Hin. cbv iota in Hin.
  apply dedup_In, in_flat_map in Hin. destruct Hin as (d & _ & Hin).
  destruct (String.eqb_spec s ""); [congruence|].
  destruct (String.eqb_spec s "**"); [congruence|].
  destruct (is_wildcard_pattern s).
  - apply in_flat_map in Hin. destruct Hin as (entry & _ & Hin).
    simpl in Hin.
    destruct (fnmatch.fnmatch s (fst entry)) eqn:E; [|destruct Hin].
    destruct Hin as [<- | []]. right.
    unfold name, make_child_relpath. simpl. now rewrite last_last.
  - destruct (exists_ fs (make_child_relpath d s)); [|destruct Hin].
    destruct Hin as [<- | []]. left.
    unfold name, make_child_relpath. simpl. now rewrite last_last.
Qed.

(** The loop over the extensions returns the first match of some
    extension of the list. *)
Lemma first_match_found (fs : FS) (base : Path) (jpeg_stem : string)
      (extensions : list string) (raw : Path) :
  first_match fs base jpeg_stem extensions = Returned (Some raw) ->
  exists ext l,
    In ext extensions
    /\ glob.glob fs base ("**/" ++ jpeg_stem ++ ext) = Returned (raw :: l).
Proof.
  induction extensions as [|ext rest IH]; [discriminate|].
  cbn [first_match].
  destruct (glob.glob fs base ("**/" ++ jpeg_stem ++ ext)) as [[|m l]|e] eqn:E.
  - intros H. destruct (IH H) as (ext' & l' & Hin & Hg).
    exists ext', l'. split; [now right | assumption].
  - intros [= ->]. exists ext, l. split; [now left | assumption].
  - discriminate.
Qed.

(** Pieces of a text without [**] have no [**]. *)
Lemma split_head_prefix (s w : string) (ws : list string) (a : ascii) :
  split "/"%char s = String a w :: ws -> exists s', s = String a s'.
Proof.
  destruct s as [|c s]; simpl; [discriminate|].
  destruct (Ascii.eqb c "/"%char); [discriminate|].
  destruct (split "/"%char s); intros [= <- _ _]; eauto.
Qed.

Lemma split_no_double_star (s : string) :
  has_substring "**" s = false ->
  Forall (fun x => has_substring "**" x = false) (split "/"%char s).
Proof.
  induction s as [|c s IH]; intros H.
  - repeat constructor.
  - cbn [has_substring] in H. apply orb_false_iff in H as [Hhead Hrest].
    specialize (IH Hrest). cbn [split].
    destruct (Ascii.eqb c "/"%char); [constructor; [reflexivity | exact IH]|].
    destruct (split "/"%char s) as [|w ws] eqn:E.
    + constructor; [|constructor]. unfold chr.
      cbn [has_substring startswith]. destruct (Ascii.eqb "*" c); reflexivity.
    + inversion IH as [|? ? Hw Hws]; subst. constructor; [|exact Hws].
      cbn [has_substring]. rewrite Hw. rewrite orb_false_r.
      cbn [startswith] in Hhead |- *.
      destruct (Ascii.eqb "*" c); [|reflexivity]. cbn [andb] in Hhead |- *.
      destruct w as [|a w]; [reflexivity|].
      destruct (split_head_prefix s w ws a E) as (s' & ->).
      exact Hhead.
Qed.

Lemma invalid_pattern_none (l t : list string) :
  Forall (fun x => has_substring "**" x = false) l ->
  invalid_pattern t = false -> invalid_pattern (l ++ t) = false.
Proof.
  intros Hl Ht. induction Hl as [|x l Hx _ IH]; [exact Ht|].
  cbn [app invalid_pattern].
  destruct (String.eqb x ""); [reflexivity|].
  destruct (String.eqb x "**"); [exact IH|]. now rewrite Hx.
Qed.

Lemma glob_recursive_returns (fs : FS) (base : Path) (s : string) :
  has_substring "**" s = false ->
  exists l, glob.glob fs base ("**/" ++ s) = Returned l.
Proof.
  intros H. rewrite glob_recursive.
  assert (Hvalid : invalid_pattern (tail_parts s) = false).
  { unfold tail_parts. apply invalid_pattern_none.
    - pose proof (split_no_double_star s H) as Hall.
      rewrite Forall_forall in *. intros x Hx. apply filter_In in Hx as [Hx _].
      now apply Hall.
    - destruct (last_char ("**/" ++ s)) as [c|]; [|reflexivity].
      destruct (Ascii.eqb c "/"%char); reflexivity. }
  rewrite Hvalid. destruct (is_dir fs base); eauto.
Qed.

Lemma first_match_returns (fs : FS) (base : Path) (jpeg_stem : string)
      (extensions : list string) :
  (forall ext, In ext extensions ->
               has_substring "**" (jpeg_stem ++ ext) = false) ->
  exists r, first_match fs base jpeg_stem extensions = Returned r.
Proof.
  induction extensions as [|ext rest IH]; intros Hall; [now eexists|].
  cbn [first_match].
  destruct (glob_recursive_returns fs base (jpeg_stem ++ ext)) as (l & ->).
  - apply Hall. now left.
  - destruct l; [|now eexists]. apply IH. intros e He. apply Hall. now right.
Qed.

End GlobFacts.

(* ================================================================== *)
(** * Properties: dictionaries *)
(* ================================================================== *)

Section DictFacts.
Context {K V : Type} `{Eqb K}.

Lemma keys_set (d : dict.t K V) (k : K) (v : V) :
  dict.keys (dict.set d k v)
  = if mem k (dict.keys d) then dict.keys d else dict.keys d ++ [k].
Proof.
  induction d as [|[k' v'] d IH]; [reflexivity|].
  cbn [dict.set dict.keys map fst mem existsb] in *.
  destruct (eqb_spec k' k) as [->|Hne].
  - now rewrite eqb_refl.
  - destruct (eqb_spec k k'); [congruence|]. cbn [orb map fst].
    unfold dict.keys, mem in IH. rewrite IH.
    now destruct (existsb (eqb k) (map fst d)).
Qed.

Lemma In_keys_set (d : dict.t K V) (k : K) (v : V) (p : K) :
  In p (dict.keys (dict.set d k v)) <-> In p (dict.keys d) \/ p = k.
Proof.
  rewrite keys_set. destruct (mem k (dict.keys d)) eqn:E.
  - apply mem_In in E. split; [auto|]. intros [? | ->]; assumption.
  - rewrite in_app_iff. simpl. intuition congruence.
Qed.

Lemma NoDup_keys_set (d : dict.t K V) (k : K) (v : V) :
  NoDup (dict.keys d) -> NoDup (dict.keys (dict.set d k v)).
Proof.
  intros Hd. rewrite keys_set. destruct (mem k (dict.keys d)) eqn:E; [assumption|].
  apply NoDup_app; [assumption | repeat constructor; intros [] |].
  intros x Hx [<- | []]. apply mem_In in Hx. congruence.
Qed.

Lemma get_set_same (d : dict.t K V) (k : K) (v : V) :
  dict.get (dict.set d k v) k = Some v.
Proof.
  induction d as [|[k' v'] d IH]; cbn [dict.set dict.get].
  - now rewrite eqb_refl.
  - destruct (eqb k' k) eqn:E; cbn [dict.get]; rewrite E; [reflexivity | exact IH].
Qed.

Lemma get_set_other (d : dict.t K V) (k k' : K) (v : V) :
  k' <> k -> dict.get (dict.set d k v) k' = dict.get d k'.
Proof.
  intros Hne. induction d as [|[k0 v0] d IH]; cbn [dict.set dict.get].
  - destruct (eqb_spec k k'); [congruence | reflexivity].
  - destruct (eqb_spec k0 k) as [->|Hk]; cbn [dict.get].
    + destruct (eqb_spec k k'); [congruence | reflexivity].
    + now rewrite IH.
Qed.

Lemma length_set (d : dict.t K V) (k : K) (v : V) :
  length (dict.set d k v)
  = if mem k (dict.keys d) then length d else S (length d).
Proof.
  pose proof (keys_set d k v) as E. apply (f_equal (@length K)) in E.
  unfold dict.keys in E at 1. rewrite length_map in E. rewrite E.
  destruct (mem k (dict.keys d)); unfold dict.keys; rewrite ?length_app, length_map;
    simpl; lia.
Qed.

End DictFacts.

(* ================================================================== *)
(** * Properties: the file matcher *)
(* ================================================================== *)

Section FinderFacts.
Import pystr pathlib.

(** The loop of [find_raw_files]: the keys of the result are those of the
    mapping so far and the inputs, each input is mapped to what
    [find_raw_file] returns for it, and the other entries are kept. *)
Lemma find_raw_files_from_spec (fs : FS) (base : Path)
      (extensions : option (list string)) (jpeg_paths : list Path) :
  forall acc results,
    find_raw_files_from fs jpeg_paths base extensions acc = Returned results ->
    NoDup (dict.keys acc) ->
    NoDup (dict.keys results)
    /\ (forall p, In p (dict.keys results) <-> In p (dict.keys acc) \/ In p jpeg_paths)
    /\ (forall p, In p jpeg_paths ->
          exists r, dict.get results p = Some r
                    /\ find_raw_file fs p base extensions = Returned r)
    /\ (forall p, ~ In p jpeg_paths -> dict.get results p = dict.get acc p).
Proof.
  induction jpeg_paths as [|j rest IH]; intros acc results Hrun Hnd.
  - injection Hrun as <-. split; [assumption|]. split; [|split].
    + intros p. split; [auto | intros [? | []]; assumption].
    + intros p [].
    + reflexivity.
  - cbn [find_raw_files_from] in Hrun.
    destruct (find_raw_file fs j base extensions) as [r|e] eqn:Ej; [|discriminate].
    destruct (IH _ _ Hrun (NoDup_keys_set acc j r Hnd)) as (Hnd' & Hkeys & Hget & Hother).
    split; [assumption|]. split; [|split].
    + intros p. rewrite Hkeys, In_keys_set. simpl. intuition congruence.
    + intros p Hp.
      destruct (in_dec Path_eq_dec p rest) as [Hin | Hout]; [now apply Hget|].
      destruct Hp as [<- | Hp]; [|contradiction].
      exists r. split; [|assumption].
      rewrite (Hother j Hout). apply get_set_same.
    + intros p Hp. simpl in Hp.
      rewrite (Hother p ltac:(tauto)). apply get_set_other. intros ->. tauto.
Qed.

Lemma find_raw_files_from_returns (fs : FS) (base : Path)
      (extensions : option (list string)) (jpeg_paths : list Path) :
  (forall p, In p jpeg_paths ->
             exists r, find_raw_file fs p base extensions = Returned r) ->
  forall acc,
    exists results,
      find_raw_files_from fs jpeg_paths base extensions acc = Returned results.
Proof.
  induction jpeg_paths as [|j rest IH]; intros Hall acc; [now eexists|].
  cbn [find_raw_files_from].
  destruct (Hall j (or_introl eq_refl)) as (r & ->).
  apply IH. intros p Hp. apply Hall. now right.
Qed.

Lemma find_raw_file_returns (fs : FS) (jpeg_path base : Path)
      (extensions : option (list string)) :
  os.exists_ fs base = true ->
  (forall ext, In ext (extensions_of extensions) ->
               has_substring "**" (stem jpeg_path ++ ext) = false) ->
  exists r, find_raw_file fs jpeg_path base extensions = Returned r.
Proof.
  intros Hbase Hvalid. unfold find_raw_file. rewrite Hbase. cbn [negb].
  now apply first_match_returns.
Qed.

(** The result of [find_raw_file] depends on the JPEG path through its stem
    only. *)
Lemma find_raw_file_stem (fs : FS) (jpeg_path jpeg_path' base : Path)
      (extensions : option (list string)) :
  stem jpeg_path = stem jpeg_path' ->
  find_raw_file fs jpeg_path base extensions
  = find_raw_file fs jpeg_path' base extensions.
Proof. intros E. unfold find_raw_file. now rewrite E. Qed.

Lemma append_inj_tail (a b pre pre' : string) :
  String.length a = String.length b ->
  (pre ++ a)%string = (pre' ++ b)%string -> a = b.
Proof.
  intros Hlen. revert pre'. induction pre as [|c pre IH]; intros pre' E.
  - destruct pre' as [|c' pre']; [exact E|].
    apply (f_equal String.length) in E. simpl in E.
    rewrite length_append in E. lia.
  - destruct pre' as [|c' pre'].
    + apply (f_equal String.length) in E. simpl in E.
      rewrite length_append in E. lia.
    + simpl in E. injection E as _ E. now apply IH in E.
Qed.

Lemma not_double_star (jpeg_stem ext : string) :
  ext <> "" -> contains "*"%char ext = false ->
  (jpeg_stem ++ ext)%string <> "**".
Proof.
  intros Hne Hstar E.
  destruct jpeg_stem as [|a [|b [|c s]]]; simpl in E.
  - subst. discriminate.
  - injection E as _ E. subst. discriminate.
  - injection E as _ _ E. congruence.
  - discriminate.
Qed.

End FinderFacts.

(** C6, as amended.  For a JPEG path that names a file, and an extension
    list whose entries hold no character special to glob patterns ([*],
    [?], the brackets) and no separator, [find_raw_file] only returns a path
    whose final component ends with one of the supplied extensions, the case
    of every character included; in particular a search with the single
    extension [.DNG] never returns a file ending in [.arw]. *)
Theorem find_raw_file_respects_extensions
        (fs : FS) (jpeg_path base_path : Path)
        (extensions : option (list string)) (raw : Path) :
  pathlib.wf jpeg_path -> pathlib.name jpeg_path <> "" ->
  Forall (fun ext => literal ext = true) (extensions_of extensions) ->
  find_raw_file fs jpeg_path base_path extensions = Returned (Some raw) ->
  (exists ext, In ext (extensions_of extensions)
               /\ pystr.endswith ext (pathlib.name raw))
  /\ (extensions = Some [".DNG"] -> ~ pystr.endswith ".arw" (pathlib.name raw)).
Proof.
  intros Hwf Hname Hlit Hfind.
  assert (Hext : exists ext, In ext (extensions_of extensions)
                             /\ pystr.endswith ext (pathlib.name raw)).
  { unfold find_raw_file in Hfind. fold (extensions_of extensions) in Hfind.
    destruct (os.exists_ fs base_path); [|discriminate]. cbn [negb] in Hfind.
    destruct (first_match_found _ _ _ _ _ Hfind) as (ext & l & Hin & Hglob).
    exists ext. split; [assumption|].
    destruct (String.eqb_spec ext "") as [->|Hne].
    { exists (pathlib.name raw). now rewrite append_nil_r. }
    rewrite Forall_forall in Hlit. specialize (Hlit ext Hin).
    pose proof (literal_parts _ Hlit) as (Hstar & _ & _ & _ & Hslash).
    pose proof (stem_not_empty _ Hname) as Hstem.
    set (s := (pathlib.stem jpeg_path ++ ext)%string) in *.
    assert (Hs : pathlib.wf_part s).
    { unfold s. repeat split.
      - destruct (pathlib.stem jpeg_path); [congruence | discriminate].
      - destruct (pathlib.stem jpeg_path) as [|a [|b t]]; [congruence| |discriminate].
        destruct ext; [congruence | discriminate].
      - rewrite contains_append, (stem_no_slash _ Hwf), Hslash. reflexivity. }
    rewrite glob_recursive, (tail_parts_component s Hs) in Hglob.
    destruct (glob.invalid_pattern [s]); [discriminate|].
    destruct (os.is_dir fs base_path); [|discriminate].
    assert (Hraw : In raw (glob.select_from fs ["**"; s] base_path)).
    { remember (glob.select_from fs ["**"; s] base_path) as sel.
      injection Hglob as ->. now left. }
    apply select_recursive_name in Hraw;
      [| now destruct Hs | now apply not_double_star].
    destruct Hraw as [-> | Hm].
    - apply endswith_append, endswith_refl.
    - now apply (fnmatch_literal_tail (pathlib.stem jpeg_path) ext). }
  split; [exact Hext|].
  intros ->. destruct Hext as (ext & [<- | []] & (pre & E)).
  intros (pre' & E'). rewrite E in E'.
  apply append_inj_tail in E'; [discriminate | reflexivity].
Qed.

Lemma find_raw_file_respects_extensions_witness :
  find_raw_file Scenario.raws (Scenario.P "/exports/A.jpg") (Scenario.P "/raw")
    (Some [".DNG"])
  = Returned (Some (Scenario.P "/raw/2024/A.DNG"))
  /\ (exists ext, In ext [".DNG"] /\ pystr.endswith ext "A.DNG")
  /\ ~ pystr.endswith ".arw" "A.DNG".
Proof.
  split; [reflexivity|].
  destruct (find_raw_file_respects_extensions Scenario.raws
              (Scenario.P "/exports/A.jpg") (Scenario.P "/raw") (Some [".DNG"])
              (Scenario.P "/raw/2024/A.DNG")) as [H1 H2].
  - split; [right; left; reflexivity|].
    repeat (constructor; [repeat split; try discriminate; reflexivity|]).
    constructor.
  - discriminate.
  - repeat constructor.
  - reflexivity.
  - split; [exact H1 | exact (H2 eq_refl)].
Defined.

(** C6 as stated fails for an extension that is a pattern: the search for
    [.*] returns the lower-case ARW file, whose name ends with no extension
    of the list. *)
Lemma find_raw_file_pattern_counterexample :
  find_raw_file Scenario.raws (Scenario.P "/exports/A.jpg") (Scenario.P "/raw")
    (Some [".*"])
  = Returned (Some (Scenario.P "/raw/A.arw"))
  /\ pathlib.name (Scenario.P "/raw/A.arw") = "A.arw"
  /\ ~ (exists ext, In ext [".*"] /\ pystr.endswith ext "A.arw").
Proof.
  split; [reflexivity|]. split; [reflexivity|].
  intros (ext & [<- | []] & (pre & E)).
  change "A.arw" with ("A.a" ++ "rw")%string in E.
  apply append_inj_tail in E; [discriminate | reflexivity].
Qed.

(** C5, as amended.  For the empty list, and for every list of JPEG paths
    when the base directory exists and no search pattern has [**] inside a
    component, [find_raw_files] returns a mapping with exactly one entry per
    input path (its keys are the inputs, none repeated, none dropped), each
    input mapped to what [find_raw_file] returns for it: the RAW path, or
    the absent marker [None].  For the empty list the mapping is empty. *)
Theorem find_raw_files_complete
        (fs : FS) (jpeg_paths : list Path) (base_path : Path)
        (extensions : option (list string)) :
  jpeg_paths = []
  \/ (os.exists_ fs base_path = true
      /\ forall p ext, In p jpeg_paths -> In ext (extensions_of extensions) ->
           pystr.has_substring "**" (pathlib.stem p ++ ext) = false) ->
  exists results,
    find_raw_files fs jpeg_paths base_path extensions = Returned results
    /\ NoDup (dict.keys results)
    /\ (forall p, In p (dict.keys results) <-> In p jpeg_paths)
    /\ (forall p, In p jpeg_paths ->
          exists raw_or_none,
            dict.get results p = Some raw_or_none
            /\ find_raw_file fs p base_path extensions = Returned raw_or_none)
    /\ (jpeg_paths = [] -> results = []).
Proof.
  intros Hcase.
  assert (Hret : forall p, In p jpeg_paths ->
            exists r, find_raw_file fs p base_path extensions = Returned r).
  { destruct Hcase as [-> | [Hbase Hvalid]]; [intros p []|].
    intros p Hp. apply find_raw_file_returns; [assumption|].
    intros ext He. now apply Hvalid. }
  destruct (find_raw_files_from_returns fs base_path extensions jpeg_paths Hret [])
    as (results & Hrun).
  exists results. split; [exact Hrun|].
  destruct (find_raw_files_from_spec fs base_path extensions jpeg_paths [] results
              Hrun (NoDup_nil _)) as (Hnd & Hkeys & Hget & _).
  split; [assumption|]. split; [|split; [assumption|]].
  - intros p. rewrite Hkeys. simpl. tauto.
  - intros ->. now injection Hrun as <-.
Qed.

Lemma find_raw_files_complete_witness :
  exists results,
    find_raw_files Scenario.raws
      [Scenario.P "/exports/A.jpg"; Scenario.P "/exports/B.jpg";
       Scenario.P "/exports/A.jpg"] (Scenario.P "/raw") None
    = Returned results
    /\ results = [ (Scenario.P "/exports/A.jpg", Some (Scenario.P "/raw/A.arw"));
                   (Scenario.P "/exports/B.jpg", None) ].
Proof.
  destruct (find_raw_files_complete Scenario.raws
              [Scenario.P "/exports/A.jpg"; Scenario.P "/exports/B.jpg";
               Scenario.P "/exports/A.jpg"] (Scenario.P "/raw") None)
    as (results & Hrun & _).
  - right. split; [reflexivity|].
    intros p ext Hp He. simpl in Hp, He.
    repeat (destruct Hp as [<- | Hp]; [repeat (destruct He as [<- | He];
                                                 [reflexivity|]); destruct He|]).
    destruct Hp.
  - exists results. split; [exact Hrun|].
    vm_compute in Hrun. now injection Hrun as <-.
Defined.

(** C5 as stated fails for a base directory that does not exist, and for a
    stem that makes an invalid pattern: the call raises instead of returning
    a mapping. *)
Lemma find_raw_files_missing_base_counterexample :
  (os.exists_ Scenario.raws (Scenario.P "/nowhere") = false
   /\ find_raw_files Scenario.raws [Scenario.P "/exports/A.jpg"]
        (Scenario.P "/nowhere") None
      = Raised (FileNotFoundError "Base path does not exist: /nowhere"))
  /\ (os.exists_ Scenario.raws (Scenario.P "/raw") = true
      /\ pathlib.stem (Scenario.P "/exports/A**B.jpg") = "A**B"
      /\ find_raw_files Scenario.raws [Scenario.P "/exports/A**B.jpg"]
           (Scenario.P "/raw") None
         = Raised (ValueError
             "Invalid pattern: '**' can only be an entire path component")).
Proof. repeat split. Qed.

(* ================================================================== *)
(** * Properties: what the calls do to the world *)
(* ================================================================== *)

Section WorldFacts.

Variable X : Externals.

Lemma only_spawns_ret {A : Type} (a : A) : only_spawns (ret a).
Proof.
  intros w r w' [= <- <-]. repeat split. exists []. simpl. now rewrite app_nil_r.
Qed.

Lemma only_spawns_raise {A : Type} (e : exn) : only_spawns (@raise A e).
Proof.
  intros w r w' [= <- <-]. repeat split. exists []. simpl. now rewrite app_nil_r.
Qed.

Lemma only_spawns_pure {A : Type} (f : World -> outcome A) :
  only_spawns (fun w => (f w, w)).
Proof.
  intros w r w' [= <- <-]. repeat split. exists []. simpl. now rewrite app_nil_r.
Qed.

Lemma only_spawns_bind {A B : Type} (c : M A) (k : A -> M B) :
  only_spawns c -> (forall a, only_spawns (k a)) -> only_spawns (bind c k).
Proof.
  intros Hc Hk w r w' Hrun. unfold bind in Hrun.
  destruct (c w) as [[a|e] w1] eqn:E.
  - destruct (Hc _ _ _ E) as (F1 & E1 & cmds1 & T1).
    destruct (Hk a _ _ _ Hrun) as (F2 & E2 & cmds2 & T2).
    split; [congruence|]. split; [congruence|].
    exists (cmds1 ++ cmds2). rewrite T2, T1, map_app. now rewrite app_assoc.
  - injection Hrun as <- <-. exact (Hc _ _ _ E).
Qed.

Lemma only_spawns_for_each {A : Type} (l : list A) (body : A -> M unit) :
  (forall x, only_spawns (body x)) -> only_spawns (for_each l body).
Proof.
  intros Hb. induction l as [|x l IH]; [apply only_spawns_ret|].
  simpl. apply only_spawns_bind; [apply Hb | intros _; exact IH].
Qed.

Lemma only_spawns_run (cmd : list string) : only_spawns (subprocess_run X cmd).
Proof.
  intros w r w' Hrun. unfold subprocess_run in Hrun.
  destruct (exit_status X (trace w) cmd) as [rc|e];
    [destruct (Z.eqb rc 0)|]; injection Hrun as <- <-;
    repeat split; now exists [cmd].
Qed.

Lemma only_spawns_add {K : Type} {KW : Keywords K}
      (xmp_file : Path) (keywords : K) (exiftool_path : string) :
  only_spawns (add_keywords_to_xmp X xmp_file keywords exiftool_path).
Proof.
  unfold add_keywords_to_xmp.
  apply only_spawns_bind; [apply only_spawns_pure|]. intros present.
  destruct (negb present); [apply only_spawns_raise|].
  destruct (negb (truth keywords)); [apply only_spawns_ret|].
  apply only_spawns_bind; [apply only_spawns_pure|]. intros items.
  apply only_spawns_bind; [apply only_spawns_run|]. intros rc.
  destruct (negb (Z.eqb rc 0)); [apply only_spawns_raise | apply only_spawns_ret].
Qed.

Lemma only_spawns_batch {K : Type} {KW : Keywords K}
      (raw_files_keywords : dict.t Path K) (exiftool_path : string) :
  only_spawns (batch_add_keywords X raw_files_keywords exiftool_path).
Proof.
  unfold batch_add_keywords.
  apply only_spawns_bind.
  - apply only_spawns_for_each. intros raw.
    apply only_spawns_bind; [apply only_spawns_pure|]. intros present.
    destruct (negb present); [apply only_spawns_raise | apply only_spawns_ret].
  - intros _. apply only_spawns_bind; [apply only_spawns_pure|]. intros parts.
    apply only_spawns_for_each. intros item.
    destruct (mem (fst item) (fst parts) && truth (snd item));
      [apply only_spawns_add | apply only_spawns_ret].
Qed.

(** A call of [generate_keywords] that returns has made exactly one
    request, and has left the file system and the environment alone. *)
Lemma generate_keywords_returned
      (image_path taxonomy_path : Path) (api_key : option string)
      (model : string) (thinking_budget : Z) (w w' : World) (v : pyval) :
  generate_keywords X image_path taxonomy_path api_key model thinking_budget w
  = (Returned v, w') ->
  fs w' = fs w /\ environ w' = environ w
  /\ exists req, trace w' = trace w ++ [Streamed req].
Proof.
  unfold generate_keywords, bind, with_fs, raise, ret, getenv,
    generate_content_stream.
  destruct (negb (os.exists_ (fs w) image_path)); [discriminate|].
  destruct (negb (os.exists_ (fs w) taxonomy_path)); [discriminate|].
  destruct api_key as [key|]; cbn [fst snd].
  - destruct key as [|c key]; [discriminate|].
    destruct (os.read (fs w) image_path); [|discriminate].
    destruct (os.read (fs w) taxonomy_path); [|discriminate].
    cbn [fs environ trace].
    match goal with |- context [stream X (trace w) ?r] =>
      destruct (stream X (trace w) r); [|discriminate] end.
    intros [= _ <-]. repeat split. eexists. reflexivity.
  - destruct (dict.get (environ w) "GEMINI_API_KEY") as [[|c key]|];
      [discriminate| |discriminate].
    destruct (os.read (fs w) image_path); [|discriminate].
    destruct (os.read (fs w) taxonomy_path); [|discriminate].
    cbn [fs environ trace].
    match goal with |- context [stream X (trace w) ?r] =>
      destruct (stream X (trace w) r); [|discriminate] end.
    intros [= _ <-]. repeat split. eexists. reflexivity.
Qed.

(** The loop of step 4: one call per item, in order; each value is stored
    under the item's RAW path. *)
Lemma generate_all_returned
      (taxonomy_path : Path) (api_key : option string) (model : string)
      (thinking_budget : Z) (items : list (Path * Path)) :
  forall (acc result : dict.t Path pyval) (w w' : World),
    generate_all X items taxonomy_path api_key model thinking_budget acc w
    = (Returned result, w') ->
    exists keywords reqs,
      generated X taxonomy_path api_key model thinking_budget w items keywords w'
      /\ result = fold_left (fun d kv => dict.set d (fst kv) (snd kv))
                            (combine (map snd items) keywords) acc
      /\ length keywords = length items
      /\ length reqs = length items
      /\ trace w' = trace w ++ map Streamed reqs
      /\ fs w' = fs w /\ environ w' = environ w.
Proof.
  induction items as [|[jpeg raw] items IH]; intros acc result w w' Hrun.
  - injection Hrun as <- <-. exists [], []. simpl. rewrite app_nil_r.
    repeat split. constructor.
  - cbn [generate_all] in Hrun. unfold bind in Hrun.
    destruct (generate_keywords X jpeg taxonomy_path api_key model thinking_budget w)
      as [[kw|e] w1] eqn:E; [|discriminate].
    destruct (generate_keywords_returned _ _ _ _ _ _ _ _ E) as (F1 & E1 & req & T1).
    destruct (IH _ _ _ _ Hrun) as (kws & reqs & Hgen & Hres & Lk & Lr & T & F & En).
    exists (kw :: kws), (req :: reqs). simpl.
    split; [econstructor; eassumption|].
    split; [exact Hres|].
    split; [congruence|]. split; [congruence|].
    split; [rewrite T, T1, <- app_assoc; reflexivity|].
    split; congruence.
Qed.

End WorldFacts.

(* ================================================================== *)
(** * Properties: building a dictionary entry by entry *)
(* ================================================================== *)

Section DictBuild.
Context {K V : Type} `{Eqb K}.

Lemma In_set (d : dict.t K V) (k0 : K) (v0 : V) (kv : K * V) :
  In kv (dict.set d k0 v0) -> In kv d \/ kv = (k0, v0).
Proof.
  induction d as [|[k' v'] d IH]; cbn [dict.set].
  - intros [<- | []]. now right.
  - destruct (eqb_spec k' k0) as [->|Hne].
    + intros [<- | Hin]; [now right | left; now right].
    + intros [<- | Hin]; [left; now left|].
      destruct (IH Hin); [left; now right | now right].
Qed.

Lemma In_build (l : list (K * V)) :
  forall (acc : dict.t K V) (kv : K * V),
    In kv (fold_left (fun d e => dict.set d (fst e) (snd e)) l acc) ->
    In kv acc \/ In kv l.
Proof.
  induction l as [|[k v] l IH]; intros acc kv; simpl; [auto|].
  intros Hin. destruct (IH _ _ Hin) as [Hacc | Hl]; [|auto].
  destruct (In_set _ _ _ _ Hacc); auto.
Qed.

Lemma keys_build (l : list (K * V)) :
  forall (acc : dict.t K V) (k : K),
    In k (dict.keys (fold_left (fun d e => dict.set d (fst e) (snd e)) l acc))
    <-> In k (dict.keys acc) \/ In k (map fst l).
Proof.
  induction l as [|[k0 v0] l IH]; intros acc k; simpl; [tauto|].
  rewrite IH, In_keys_set. intuition congruence.
Qed.

Lemma NoDup_build (l : list (K * V)) :
  forall acc : dict.t K V,
    NoDup (dict.keys acc) ->
    NoDup (dict.keys (fold_left (fun d e => dict.set d (fst e) (snd e)) l acc)).
Proof.
  induction l as [|[k0 v0] l IH]; intros acc Hacc; simpl; [assumption|].
  apply IH. now apply NoDup_keys_set.
Qed.

Lemma set_fresh (d : dict.t K V) (k : K) (v : V) :
  ~ In k (dict.keys d) -> dict.set d k v = d ++ [(k, v)].
Proof.
  induction d as [|[k' v'] d IH]; intros Hk; [reflexivity|].
  cbn [dict.set]. simpl in Hk.
  destruct (eqb_spec k' k); [tauto|]. simpl. f_equal. apply IH. tauto.
Qed.

(** A list of pairs with distinct keys is its own dictionary. *)
Lemma build_fresh (l : list (K * V)) :
  forall acc : dict.t K V,
    NoDup (dict.keys acc ++ map fst l) ->
    fold_left (fun d e => dict.set d (fst e) (snd e)) l acc = acc ++ l.
Proof.
  induction l as [|[k v] l IH]; intros acc Hnd; simpl; [now rewrite app_nil_r|].
  simpl in Hnd. pose proof (NoDup_remove_2 _ _ _ Hnd) as Hk.
  rewrite set_fresh by (intros Hin; apply Hk, in_or_app; now left).
  rewrite IH.
  - now rewrite <- app_assoc.
  - unfold dict.keys in *. rewrite map_app. simpl. rewrite <- app_assoc. exact Hnd.
Qed.

Lemma of_list_fresh (l : list (K * V)) :
  NoDup (map fst l) -> dict.of_list l = l.
Proof. intros Hnd. unfold dict.of_list. now rewrite build_fresh. Qed.

Lemma get_build_absent (l : list (K * V)) :
  forall (acc : dict.t K V) (k : K),
    ~ In k (map fst l) ->
    dict.get (fold_left (fun d e => dict.set d (fst e) (snd e)) l acc) k
    = dict.get acc k.
Proof.
  induction l as [|[k0 v0] l IH]; intros acc k Hk; simpl; [reflexivity|].
  simpl in Hk. rewrite IH by tauto. apply get_set_other. intros ->. tauto.
Qed.

(** The value stored last under a key is the one the dictionary holds. *)
Lemma get_build_last (pre post : list (K * V)) (k : K) (v : V) :
  ~ In k (map fst post) ->
  dict.get (dict.of_list (pre ++ (k, v) :: post)) k = Some v.
Proof.
  intros Hk. unfold dict.of_list. rewrite fold_left_app. simpl.
  rewrite get_build_absent by assumption. apply get_set_same.
Qed.

Lemma get_In (d : dict.t K V) (k : K) (v : V) :
  dict.get d k = Some v -> In (k, v) d.
Proof.
  induction d as [|[k' v'] d IH]; cbn [dict.get]; [discriminate|].
  destruct (eqb_spec k' k) as [->|_].
  - intros [= ->]. now left.
  - intros Hget. right. now apply IH.
Qed.

Lemma In_get (d : dict.t K V) (k : K) (v : V) :
  NoDup (dict.keys d) -> In (k, v) d -> dict.get d k = Some v.
Proof.
  induction d as [|[k' v'] d IH]; intros Hnd Hin; [destruct Hin|].
  simpl in Hnd. inversion Hnd as [|? ? Hk Hnd']; subst.
  cbn [dict.get]. destruct Hin as [[= -> ->] | Hin].
  - now rewrite eqb_refl.
  - destruct (eqb_spec k' k) as [->|_]; [|now apply IH].
    exfalso. apply Hk. change k with (fst (k, v)). now apply in_map.
Qed.

End DictBuild.

(* ================================================================== *)
(** * Properties: the directory pipeline *)
(* ================================================================== *)

Section PipelineFacts.

(** Step 2: the keys of [jpeg_to_raw] are distinct, and a discovered JPEG
    is mapped to exactly what [find_raw_file] returns for it. *)
Lemma locate_raw_files_spec (fs : FS) (raw_search_path : Path)
      (extensions : option (list string)) (jpeg_files : list Path) :
  forall acc missing jpeg_to_raw missing',
    locate_raw_files fs jpeg_files raw_search_path extensions acc missing
    = Returned (jpeg_to_raw, missing') ->
    NoDup (dict.keys acc) ->
    NoDup (dict.keys jpeg_to_raw)
    /\ (forall j, In j jpeg_files ->
          find_raw_file fs j raw_search_path extensions
          = Returned (dict.get jpeg_to_raw j)
          \/ (find_raw_file fs j raw_search_path extensions = Returned None
              /\ dict.get jpeg_to_raw j = dict.get acc j))
    /\ (forall j, ~ In j jpeg_files -> dict.get jpeg_to_raw j = dict.get acc j).
Proof.
  induction jpeg_files as [|j rest IH]; intros acc missing d m Hrun Hnd.
  - injection Hrun as <- <-. split; [assumption|]. split; [intros j []|reflexivity].
  - cbn [locate_raw_files] in Hrun.
    destruct (find_raw_file fs j raw_search_path extensions) as [[raw|]|e] eqn:Ej;
      [| |discriminate].
    + destruct (IH _ _ _ _ Hrun (NoDup_keys_set acc j raw Hnd)) as (Hnd' & Hin & Hout).
      split; [assumption|]. split.
      * intros p Hp.
        destruct (in_dec pathlib.Path_eq_dec p rest) as [Hrest | Hrest].
        { destruct (Hin p Hrest) as [Hf | [Hf Hg]]; [now left|].
          destruct (pathlib.Path_eq_dec p j) as [-> | Hne]; [congruence|].
          right. split; [assumption|]. rewrite Hg. now apply get_set_other. }
        destruct Hp as [<- | Hp]; [|contradiction].
        left. rewrite (Hout j Hrest), get_set_same. exact Ej.
      * intros p Hp. simpl in Hp. rewrite (Hout p ltac:(tauto)).
        apply get_set_other. intros ->. tauto.
    + destruct (IH _ _ _ _ Hrun Hnd) as (Hnd' & Hin & Hout).
      split; [assumption|]. split.
      * intros p Hp.
        destruct (in_dec pathlib.Path_eq_dec p rest) as [Hrest | Hrest];
          [now apply Hin|].
        destruct Hp as [<- | Hp]; [|contradiction].
        right. split; [exact Ej | now apply Hout].
      * intros p Hp. simpl in Hp. apply Hout. tauto.
Qed.

Lemma filter_values {A B : Type} (f : B -> bool) (l : list (A * B)) :
  filter f (map snd l) = map snd (filter (fun item => f (snd item)) l).
Proof.
  induction l as [|x l IH]; [reflexivity|]. simpl.
  destruct (f (snd x)); simpl; now rewrite IH.
Qed.

Lemma filter_ext_In {A : Type} (f g : A -> bool) (l : list A) :
  (forall x, In x l -> f x = g x) -> filter f l = filter g l.
Proof.
  induction l as [|x l IH]; intros Hfg; [reflexivity|]. simpl.
  rewrite (Hfg x (or_introl eq_refl)), IH; [reflexivity|].
  intros y Hy. apply Hfg. now right.
Qed.

Lemma NoDup_keys_filter {A B : Type} (f : A * B -> bool) (l : list (A * B)) :
  NoDup (map fst l) -> NoDup (map fst (filter f l)).
Proof.
  induction l as [|x l IH]; intros Hnd; [constructor|].
  simpl in *. inversion Hnd as [|? ? Hx Hl]; subst.
  destruct (f x); [|now apply IH].
  simpl. constructor; [|now apply IH].
  intros Hin. apply Hx. apply in_map_iff in Hin as (y & Ey & Hy).
  apply filter_In in Hy as [Hy _]. rewrite <- Ey. now apply in_map.
Qed.

(** The JPEG files whose RAW file has a sidecar, as step 4 computes them,
    are the entries of [jpeg_to_raw] left by the sidecar check. *)
Lemma with_xmp_only_filter (fs : FS) (jpeg_to_raw : dict.t Path Path) :
  NoDup (dict.keys jpeg_to_raw) ->
  with_xmp_only jpeg_to_raw
    (fst (ensure_xmp_sidecars fs (dict.values jpeg_to_raw)))
  = filter (fun item => check_xmp_exists fs (snd item)) jpeg_to_raw.
Proof.
  intros Hnd. unfold with_xmp_only, ensure_xmp_sidecars.
  rewrite partition_as_filter. cbn [fst].
  rewrite (filter_ext_In
             (fun item => mem (snd item)
                            (filter (check_xmp_exists fs) (dict.values jpeg_to_raw)))
             (fun item => check_xmp_exists fs (snd item))).
  - apply of_list_fresh. now apply NoDup_keys_filter.
  - intros item Hin. apply mem_filter. unfold dict.values. now apply in_map.
Qed.

Lemma duplicate_values {A B : Type} (l : list (A * B)) (a a' : A) (b : B) :
  a <> a' -> In (a, b) l -> In (a', b) l -> ~ NoDup (map snd l).
Proof.
  intros Hne. induction l as [|x l IH]; intros H1 H2 Hnd; [destruct H1|].
  simpl in Hnd. inversion Hnd as [|? ? Hx Hl]; subst.
  destruct H1 as [-> | H1], H2 as [E | H2].
  - congruence.
  - apply Hx. exact (in_map snd _ _ H2).
  - subst x. apply Hx. exact (in_map snd _ _ H1).
  - now apply IH.
Qed.

Lemma shorter_than_duplicated {A : Type} (l m : list A) :
  NoDup l -> incl l m -> ~ NoDup m -> length l < length m.
Proof.
  intros Hl Hincl Hm.
  destruct (Nat.lt_ge_cases (length l) (length m)) as [Hlt | Hge]; [assumption|].
  exfalso. apply Hm. now apply (NoDup_incl_NoDup Hl).
Qed.

Variable X : Externals.
Context {KW : Keywords pyval}.

(** What a successful run of the pipeline went through. *)
Lemma process_directory_returned
      (jpeg_dir raw_search_path taxonomy_path : Path) (api_key : option string)
      (model : string) (thinking_budget : Z) (exiftool_path : string)
      (extensions : option (list string)) (w w' : World)
      (result : dict.t Path pyval) :
  process_directory X jpeg_dir raw_search_path taxonomy_path api_key model
    thinking_budget exiftool_path extensions w = (Returned result, w') ->
  exists jpeg_files jpeg_to_raw missing w1,
    scan_jpeg_files (fs w) jpeg_dir = Returned jpeg_files
    /\ locate_raw_files (fs w) jpeg_files raw_search_path extensions [] []
       = Returned (jpeg_to_raw, missing)
    /\ generate_all X
         (with_xmp_only jpeg_to_raw
            (fst (ensure_xmp_sidecars (fs w) (dict.values jpeg_to_raw))))
         taxonomy_path api_key model thinking_budget [] w
       = (Returned result, w1)
    /\ batch_add_keywords X result exiftool_path w1 = (Returned tt, w').
Proof.
  unfold process_directory. unfold bind at 1. unfold with_fs at 1.
  match goal with |- context [if ?c then _ else _] => destruct c end;
    [discriminate|].
  repeat (match goal with |- context [if ?c then _ else _] => destruct c end;
          [discriminate|]).
  unfold bind at 1. unfold with_fs at 1.
  destruct (scan_jpeg_files (fs w) jpeg_dir) as [jpeg_files|e] eqn:Escan;
    [|discriminate].
  destruct (is_empty jpeg_files); [discriminate|].
  unfold bind at 1. unfold with_fs at 1.
  destruct (locate_raw_files (fs w) jpeg_files raw_search_path extensions [] [])
    as [[jpeg_to_raw missing]|e] eqn:Eloc; [|discriminate].
  cbn [fst]. destruct (is_empty jpeg_to_raw); [discriminate|].
  unfold bind at 1. unfold with_fs at 1.
  destruct (is_empty (fst (ensure_xmp_sidecars (fs w) (dict.values jpeg_to_raw))));
    [discriminate|].
  unfold bind at 1.
  destruct (generate_all X _ taxonomy_path api_key model thinking_budget [] w)
    as [[raw_to_keywords|e] w1] eqn:Egen; [|discriminate].
  unfold bind at 1.
  destruct (batch_add_keywords X raw_to_keywords exiftool_path w1)
    as [[[]|e] w2] eqn:Ebatch; [|discriminate].
  intros [= <- <-].
  exists jpeg_files, jpeg_to_raw, missing, w1. repeat split; try assumption;
    reflexivity.
Qed.

End PipelineFacts.


(** C10.  In a run of [process_directory] that returns: two discovered
    JPEG files with the same stem are matched to the same RAW path; the
    assets that survive the sidecar check are the entries of [jpeg_to_raw]
    whose RAW file has a sidecar, one per JPEG; the generator is called once
    for each of them, in order; the result is the dictionary built from the
    (RAW path, keywords) pairs, so that the keywords stored last under a RAW
    path are the ones it holds and each RAW path has a single entry; and
    when two different JPEG files survive with the same RAW path, the result
    has fewer entries than there are surviving assets. *)
Theorem same_stem_overwrites
        (X : Externals) (KW : Keywords pyval)
        (jpeg_dir raw_search_path taxonomy_path : Path)
        (api_key : option string) (model : string) (thinking_budget : Z)
        (exiftool_path : string) (extensions : option (list string))
        (w w' : World) (result : dict.t Path pyval) :
  process_directory X jpeg_dir raw_search_path taxonomy_path api_key model
    thinking_budget exiftool_path extensions w = (Returned result, w') ->
  exists jpeg_files jpeg_to_raw missing keywords w1,
    scan_jpeg_files (fs w) jpeg_dir = Returned jpeg_files
    /\ locate_raw_files (fs w) jpeg_files raw_search_path extensions [] []
       = Returned (jpeg_to_raw, missing)
    /\ let files_with_xmp :=
         fst (ensure_xmp_sidecars (fs w) (dict.values jpeg_to_raw)) in
       let survivors :=
         filter (fun item => check_xmp_exists (fs w) (snd item)) jpeg_to_raw in
       (forall j1 j2,
          In j1 jpeg_files -> In j2 jpeg_files ->
          pathlib.stem j1 = pathlib.stem j2 ->
          dict.get jpeg_to_raw j1 = dict.get jpeg_to_raw j2)
       /\ files_with_xmp = map snd survivors
       /\ generated X taxonomy_path api_key model thinking_budget
                    w survivors keywords w1
       /\ length keywords = length survivors
       /\ result = dict.of_list (combine files_with_xmp keywords)
       /\ NoDup (dict.keys result)
       /\ (forall pre raw kw post,
             combine files_with_xmp keywords = pre ++ (raw, kw) :: post ->
             ~ In raw (map fst post) ->
             dict.get result raw = Some kw)
       /\ (forall j1 j2 raw,
             j1 <> j2 -> In (j1, raw) survivors -> In (j2, raw) survivors ->
             length result < length files_with_xmp).
Proof.
  intros Hrun.
  destruct (process_directory_returned X _ _ _ _ _ _ _ _ _ _ _ Hrun)
    as (jpeg_files & jpeg_to_raw & missing & w1 & Hscan & Hloc & Hgen & Hbatch).
  destruct (locate_raw_files_spec _ _ _ _ _ _ _ _ Hloc (NoDup_nil _))
    as (Hnd & Hfound & _).
  rewrite (with_xmp_only_filter (fs w) jpeg_to_raw Hnd) in Hgen.
  destruct (generate_all_returned X _ _ _ _ _ _ _ _ _ Hgen)
    as (kws & reqs & Hgenerated & Hres & Hlen & _).
  exists jpeg_files, jpeg_to_raw, missing, kws, w1.
  split; [assumption|]. split; [assumption|]. cbv zeta.
  set (survivors := filter (fun item => check_xmp_exists (fs w) (snd item)) jpeg_to_raw)
    in *.
  assert (Hfiles : fst (ensure_xmp_sidecars (fs w) (dict.values jpeg_to_raw))
                   = map snd survivors).
  { unfold ensure_xmp_sidecars. rewrite partition_as_filter. cbn [fst].
    unfold dict.values. apply filter_values. }
  rewrite Hfiles.
  assert (Hkeys : NoDup (dict.keys result)).
  { rewrite Hres. apply NoDup_build. constructor. }
  split; [|split; [reflexivity|split; [assumption|split; [assumption|
           split; [exact Hres|split; [assumption|split]]]]]].
  - intros j1 j2 H1 H2 Hstem.
    pose proof (find_raw_file_stem (fs w) j1 j2 raw_search_path extensions Hstem) as E.
    destruct (Hfound j1 H1) as [F1 | [F1 G1]], (Hfound j2 H2) as [F2 | [F2 G2]];
      simpl in *; congruence.
  - intros pre raw kw post Hsplit Hlast. rewrite Hres.
    fold (dict.of_list (combine (map snd survivors) kws)).
    rewrite Hsplit. now apply get_build_last.
  - intros j1 j2 raw Hne H1 H2.
    rewrite <- (length_map fst result).
    apply shorter_than_duplicated; [exact Hkeys| |].
    + intros k Hk. change (map fst result) with (dict.keys result) in Hk.
      rewrite Hres in Hk. apply keys_build in Hk. destruct Hk as [[] | Hk].
      apply in_map_iff in Hk as ([k' kw] & <- & Hin).
      now apply in_combine_l in Hin.
    + exact (duplicate_values survivors j1 j2 raw Hne H1 H2).
Qed.

Lemma run_returned {A : Type} (run : outcome A * World) (a : A) :
  fst run = Returned a -> run = (Returned a, snd run).
Proof. destruct run as [r w]. simpl. now intros ->. Qed.

Lemma studio_run_result :
  fst Scenario.studio_run
  = Returned [(Scenario.P "/raw/A.ARW", PList [PStr "z"])].
Proof. vm_compute. reflexivity. Qed.


Lemma same_stem_overwrites_witness :
  let a_jpg := Scenario.P "/exports/A.jpg" in
  let a_JPG := Scenario.P "/exports/A.JPG" in
  let raw := Scenario.P "/raw/A.ARW" in
  let result := [(raw, PList [PStr "z"])] in
  scan_jpeg_files Scenario.studio (Scenario.P "/exports") = Returned [a_jpg; a_JPG]
  /\ pathlib.stem a_jpg = pathlib.stem a_JPG
  /\ locate_raw_files Scenario.studio [a_jpg; a_JPG] (Scenario.P "/raw") None [] []
     = Returned ([(a_jpg, raw); (a_JPG, raw)], [])
  /\ fst Scenario.studio_run = Returned result
  /\ map show_event (trace (snd Scenario.studio_run))
     = [ "stream first jpeg"; "stream second jpeg";
         "exiftool -overwrite_original -XMP-dc:Subject+=z /raw/A.xmp" ]
  /\ length result < length (fst (ensure_xmp_sidecars Scenario.studio [raw; raw])).
Proof.
  cbv zeta.
  split; [reflexivity|]. split; [reflexivity|]. split; [reflexivity|].
  split; [exact studio_run_result|]. split; [vm_compute; reflexivity|].
  destruct (same_stem_overwrites
              Scenario.two_answers Scenario.runtime
              (Scenario.P "/exports") (Scenario.P "/raw")
              (Scenario.P "/taxonomy.txt") None "gemini-flash-lite-latest" 8132
              "exiftool" None Scenario.studio_world (snd Scenario.studio_run)
              [(Scenario.P "/raw/A.ARW", PList [PStr "z"])]
              (run_returned Scenario.studio_run _ studio_run_result))
    as (jpeg_files & jpeg_to_raw & missing & keywords & w1 & Hscan & Hloc & H).
  assert (Ej : jpeg_files = [Scenario.P "/exports/A.jpg"; Scenario.P "/exports/A.JPG"]).
  { vm_compute in Hscan. now injection Hscan as <-. }
  subst jpeg_files.
  assert (Er : jpeg_to_raw
               = [(Scenario.P "/exports/A.jpg", Scenario.P "/raw/A.ARW");
                  (Scenario.P "/exports/A.JPG", Scenario.P "/raw/A.ARW")]).
  { vm_compute in Hloc. now injection Hloc as <- _. }
  subst jpeg_to_raw.
  cbv zeta in H. destruct H as (_ & _ & _ & _ & _ & _ & _ & Hfewer).
  apply (Hfewer (Scenario.P "/exports/A.jpg") (Scenario.P "/exports/A.JPG")
                (Scenario.P "/raw/A.ARW")).
  - discriminate.
  - vm_compute. left. reflexivity.
  - vm_compute. right. left. reflexivity.
Defined.

(* ================================================================== *)
(** * Further properties: the sidecar check and the writer *)
(* ================================================================== *)

Section WriterGuards.

Variable X : Externals.



End WriterGuards.

(** X1.  [ensure_xmp_sidecars] sorts every RAW file of its input into
    exactly one of its two lists, by the existence of the sidecar
    [parent/stem.xmp]: nothing is lost, nothing is added, the order of the
    input is kept in both lists, and the two lengths add up to the length of
    the input. *)
Theorem ensure_xmp_sidecars_partition (fs : FS) (raw_files : list Path) :
  let files_with_xmp := fst (ensure_xmp_sidecars fs raw_files) in
  let files_without_xmp := snd (ensure_xmp_sidecars fs raw_files) in
  (forall raw, In raw files_with_xmp <->
               In raw raw_files /\ os.exists_ fs (get_xmp_path raw) = true)
  /\ (forall raw, In raw files_without_xmp <->
                  In raw raw_files /\ os.exists_ fs (get_xmp_path raw) = false)
  /\ (forall raw, ~ (In raw files_with_xmp /\ In raw files_without_xmp))
  /\ length files_with_xmp + length files_without_xmp = length raw_files
  /\ files_with_xmp = filter (check_xmp_exists fs) raw_files
  /\ files_without_xmp
     = filter (fun raw => negb (check_xmp_exists fs raw)) raw_files.
Proof.
  cbv zeta. unfold ensure_xmp_sidecars. rewrite partition_as_filter. cbn [fst snd].
  assert (Hw : forall raw,
             In raw (filter (check_xmp_exists fs) raw_files) <->
             In raw raw_files /\ os.exists_ fs (get_xmp_path raw) = true).
  { intros raw. apply (filter_In (check_xmp_exists fs)). }
  assert (Hwo : forall raw,
             In raw (filter (fun r => negb (check_xmp_exists fs r)) raw_files) <->
             In raw raw_files /\ os.exists_ fs (get_xmp_path raw) = false).
  { intros raw. rewrite filter_In, negb_true_iff. reflexivity. }
  split; [exact Hw|]. split; [exact Hwo|]. split; [|split; [|split; reflexivity]].
  - intros raw [H1 H2]. apply Hw in H1. apply Hwo in H2.
    destruct H1 as [_ H1], H2 as [_ H2]. congruence.
  - symmetry. apply (partition_length (check_xmp_exists fs) raw_files).
    apply partition_as_filter.
Qed.

(** X2.  The two guards of [add_keywords_to_xmp], for keywords of any kind:
    a sidecar that does not exist makes it raise [FileNotFoundError] naming
    the sidecar, also when there are no keywords; on an existing sidecar,
    keywords that are empty make it return at once.  In both cases no
    process is run and the world is as before. *)
Theorem add_keywords_to_xmp_guards
        (K : Type) (KW : Keywords K) (X : Externals)
        (xmp_file : Path) (keywords : K) (exiftool_path : string) (w : World) :
  (os.exists_ (fs w) xmp_file = false ->
   add_keywords_to_xmp X xmp_file keywords exiftool_path w
   = (Raised (FileNotFoundError
                ("XMP file not found: " ++ pathlib.str xmp_file)), w))
  /\ (os.exists_ (fs w) xmp_file = true -> truth keywords = false ->
      add_keywords_to_xmp X xmp_file keywords exiftool_path w
      = (Returned tt, w)).
Proof.
  split.
  - intros Hx. unfold add_keywords_to_xmp, bind, with_fs. now rewrite Hx.
  - intros Hx Hk. unfold add_keywords_to_xmp, bind, with_fs.
    now rewrite Hx, Hk.
Qed.

Lemma add_keywords_to_xmp_guards_witness :
  add_keywords_to_xmp Scenario.tool_ok (Scenario.P "/photos/DSC00091.xmp")
    (@nil string) "exiftool" Scenario.photo_world
  = (Raised (FileNotFoundError "XMP file not found: /photos/DSC00091.xmp"),
     Scenario.photo_world)
  /\ add_keywords_to_xmp Scenario.tool_ok (Scenario.P "/photos/DSC00089.xmp")
       (@nil string) "exiftool" Scenario.photo_world
     = (Returned tt, Scenario.photo_world).
Proof.
  split.
  - apply (proj1 (add_keywords_to_xmp_guards (list string) _ Scenario.tool_ok
                    (Scenario.P "/photos/DSC00091.xmp") [] "exiftool"
                    Scenario.photo_world)).
    reflexivity.
  - apply (proj2 (add_keywords_to_xmp_guards (list string) _ Scenario.tool_ok
                    (Scenario.P "/photos/DSC00089.xmp") [] "exiftool"
                    Scenario.photo_world)); reflexivity.
Defined.

(** X3.  The two errors of [add_keywords_to_raw]: a RAW file that does not
    exist makes it raise [FileNotFoundError] naming the RAW file; a RAW file
    that exists without its sidecar makes it raise [XMPSidecarError], whose
    message names the RAW file and, on a second line, the sidecar that was
    expected (the missing sidecar is never reported as a
    [FileNotFoundError]).  In both cases no process is run. *)
Theorem add_keywords_to_raw_errors
        (K : Type) (KW : Keywords K) (X : Externals)
        (raw_file : Path) (keywords : K) (exiftool_path : string) (w : World) :
  (os.exists_ (fs w) raw_file = false ->
   add_keywords_to_raw X raw_file keywords exiftool_path w
   = (Raised (FileNotFoundError
                ("RAW file not found: " ++ pathlib.str raw_file)), w))
  /\ (os.exists_ (fs w) raw_file = true ->
      os.exists_ (fs w) (get_xmp_path raw_file) = false ->
      add_keywords_to_raw X raw_file keywords exiftool_path w
      = (Raised (XMPSidecarError
                   ("Missing XMP sidecar file for " ++ pathlib.str raw_file
                    ++ String "010"%char
                         ("Expected: " ++ pathlib.str (get_xmp_path raw_file)))),
         w)).
Proof.
  split.
  - intros Hr. unfold add_keywords_to_raw, bind, with_fs. now rewrite Hr.
  - intros Hr Hx. unfold add_keywords_to_raw, bind, with_fs. rewrite Hr.
    cbn [negb]. unfold ensure_xmp_sidecars, check_xmp_exists.
    cbn [partition]. now rewrite Hx.
Qed.

Lemma add_keywords_to_raw_errors_witness :
  add_keywords_to_raw Scenario.tool_ok (Scenario.P "/photos/DSC00404.ARW")
    ["night"] "exiftool" Scenario.photo_world
  = (Raised (FileNotFoundError "RAW file not found: /photos/DSC00404.ARW"),
     Scenario.photo_world)
  /\ add_keywords_to_raw Scenario.tool_ok (Scenario.P "/photos/DSC00091.ARW")
       ["night"] "exiftool" Scenario.photo_world
     = (Raised (XMPSidecarError
                  ("Missing XMP sidecar file for /photos/DSC00091.ARW"
                   ++ String "010"%char "Expected: /photos/DSC00091.xmp")),
        Scenario.photo_world).
Proof.
  split.
  - apply (proj1 (add_keywords_to_raw_errors (list string) _ Scenario.tool_ok
                    (Scenario.P "/photos/DSC00404.ARW") ["night"] "exiftool"
                    Scenario.photo_world)).
    reflexivity.
  - apply (proj2 (add_keywords_to_raw_errors (list string) _ Scenario.tool_ok
                    (Scenario.P "/photos/DSC00091.ARW") ["night"] "exiftool"
                    Scenario.photo_world)); reflexivity.
Defined.




(* ================================================================== *)
(** * Further properties: the keyword requester *)
(* ================================================================== *)

Section RequesterFacts.
Import pystr pathlib.

(** The suffix of a file name [base.ext] with a plain extension. *)
Lemma suffix_of_file (dir : Path) (base ext : string) :
  base <> "" -> contains "/"%char base = false -> plain_extension ext ->
  suffix (dir // (base ++ String "."%char ext)) = String "."%char ext.
Proof.
  intros Hb Hsl Hext. pose proof (dotted_name_wf _ _ Hb Hsl Hext) as Hwf.
  rewrite (joinpath_component dir _ Hwf). unfold suffix. rewrite name_child.
  destruct Hext as (He & Hdot & _).
  rewrite (suffix_index_dotted _ _ Hb He Hdot). apply drop_length_append.
Qed.

(** What [generate_keywords] does once both files are there and a
    credential is at hand. *)
Lemma generate_keywords_with_key
      (X : Externals) (image_path taxonomy_path : Path)
      (api_key : option string) (model : string) (thinking_budget : Z)
      (w : World) (key : string) :
  os.exists_ (fs w) image_path = true ->
  os.exists_ (fs w) taxonomy_path = true ->
  key <> "" ->
  (api_key = Some key
   \/ (api_key = None /\ dict.get (environ w) "GEMINI_API_KEY" = Some key)) ->
  generate_keywords X image_path taxonomy_path api_key model thinking_budget w
  = match os.read (fs w) image_path with
    | Raised e => (Raised e, w)
    | Returned image_data =>
        match os.read (fs w) taxonomy_path with
        | Raised e => (Raised e, w)
        | Returned taxonomy_content =>
            let req := mkRequest key model image_data (_get_mime_type image_path)
                         (make_prompt taxonomy_content) thinking_budget
                         "application/json" in
            (match stream X (trace w) req with
             | Returned chunks => parse_response (concat_chunks chunks)
             | Raised e => Raised e
             end,
             mkWorld (fs w) (environ w) (trace w ++ [Streamed req]))
        end
    end.
Proof.
  intros Himg Htax Hne Hkey.
  unfold generate_keywords, bind, with_fs. rewrite Himg. cbn [negb].
  rewrite Htax. cbn [negb].
  assert (Hget : (match api_key with
                  | Some _ => ret api_key
                  | None => getenv "GEMINI_API_KEY"
                  end) w = (Returned (Some key), w)).
  { destruct Hkey as [-> | [-> Henv]]; [reflexivity|].
    unfold getenv. now rewrite Henv. }
  rewrite Hget. destruct key as [|k key]; [congruence|].
  destruct (os.read (fs w) image_path) as [image_data|e]; [|reflexivity].
  destruct (os.read (fs w) taxonomy_path) as [taxonomy_content|e]; [|reflexivity].
  unfold generate_content_stream. cbn [fs environ trace]. cbv zeta.
  match goal with |- context [stream X (trace w) ?r] =>
    destruct (stream X (trace w) r) end; reflexivity.
Qed.

(** What [generate_keywords] does without a credential. *)
Lemma generate_keywords_without_key
      (X : Externals) (image_path taxonomy_path : Path)
      (api_key : option string) (model : string) (thinking_budget : Z)
      (w : World) :
  os.exists_ (fs w) image_path = true ->
  os.exists_ (fs w) taxonomy_path = true ->
  (api_key = Some ""
   \/ (api_key = None
       /\ (dict.get (environ w) "GEMINI_API_KEY" = None
           \/ dict.get (environ w) "GEMINI_API_KEY" = Some ""))) ->
  generate_keywords X image_path taxonomy_path api_key model thinking_budget w
  = (Raised (ValueError
       "API key must be provided or set in GEMINI_API_KEY environment variable"),
     w).
Proof.
  intros Himg Htax Hkey.
  unfold generate_keywords, bind, with_fs. rewrite Himg. cbn [negb].
  rewrite Htax. cbn [negb].
  destruct Hkey as [-> | [-> [Henv | Henv]]]; unfold getenv, ret;
    try rewrite Henv; reflexivity.
Qed.

(** The credential that a call has at hand, if any. *)
Lemma credential_cases (api_key : option string) (w : World) :
  (exists key, key <> ""
     /\ (api_key = Some key
         \/ (api_key = None
             /\ dict.get (environ w) "GEMINI_API_KEY" = Some key)))
  \/ (api_key = Some ""
      \/ (api_key = None
          /\ (dict.get (environ w) "GEMINI_API_KEY" = None
              \/ dict.get (environ w) "GEMINI_API_KEY" = Some ""))).
Proof.
  destruct api_key as [[|c key]|].
  - right. now left.
  - left. exists (String c key). split; [discriminate | now left].
  - destruct (dict.get (environ w) "GEMINI_API_KEY") as [[|c key]|] eqn:E.
    + right. right. auto.
    + left. exists (String c key). split; [discriminate | right; auto].
    + right. right. auto.
Qed.

(** Every call of [generate_keywords] leaves the file system and the
    environment alone and makes at most one request. *)
Lemma generate_keywords_world
      (X : Externals) (image_path taxonomy_path : Path)
      (api_key : option string) (model : string) (thinking_budget : Z)
      (w w' : World) (r : outcome pyval) :
  generate_keywords X image_path taxonomy_path api_key model thinking_budget w
  = (r, w') ->
  fs w' = fs w /\ environ w' = environ w
  /\ ((w' = w /\ exists e, r = Raised e)
      \/ exists req, trace w' = trace w ++ [Streamed req]).
Proof.
  intros Hrun.
  destruct (os.exists_ (fs w) image_path) eqn:Himg.
  2:{ unfold generate_keywords, bind, with_fs in Hrun. rewrite Himg in Hrun.
      injection Hrun as <- <-. repeat split. left. split; eauto. }
  destruct (os.exists_ (fs w) taxonomy_path) eqn:Htax.
  2:{ unfold generate_keywords, bind, with_fs in Hrun.
      rewrite Himg in Hrun. cbn [negb] in Hrun. rewrite Htax in Hrun.
      injection Hrun as <- <-. repeat split. left. split; eauto. }
  destruct (credential_cases api_key w) as [(key & Hne & Hkey) | Hno].
  - rewrite (generate_keywords_with_key X _ _ _ model thinking_budget w key
               Himg Htax Hne Hkey) in Hrun.
    destruct (os.read (fs w) image_path) as [image_data|e].
    2:{ injection Hrun as <- <-. repeat split. left. split; eauto. }
    destruct (os.read (fs w) taxonomy_path) as [taxonomy_content|e].
    2:{ injection Hrun as <- <-. repeat split. left. split; eauto. }
    cbv zeta in Hrun. injection Hrun as <- <-. repeat split.
    right. eexists. reflexivity.
  - rewrite (generate_keywords_without_key X _ _ _ model thinking_budget w
               Himg Htax Hno) in Hrun.
    injection Hrun as <- <-. repeat split. left. split; eauto.
Qed.

(** In the response format a keyword of plain text is read back as it is,
    up to its closing quote. *)
Lemma scanstring_plain (keyword rest : string) :
  plain_text keyword = true ->
  json.scanstring (keyword ++ dq ++ rest) = Returned (keyword, rest).
Proof.
  induction keyword as [|c keyword IH]; intros Hp.
  - reflexivity.
  - cbn [plain_text] in Hp. apply andb_true_iff in Hp as [Hc Hp].
    unfold plain_char in Hc.
    apply andb_true_iff in Hc as [Hc Hctl]. apply andb_true_iff in Hc as [Hq Hb].
    apply negb_true_iff in Hq, Hb. apply Nat.leb_le in Hctl.
    cbn [append json.scanstring]. rewrite Hq, Hb.
    assert (Hlt : (nat_of_ascii c <? 32)%nat = false) by (apply Nat.ltb_ge; lia).
    rewrite Hlt, (IH Hp). reflexivity.
Qed.

Lemma concat_cons (sep x y : string) (l : list string) :
  String.concat sep (x :: y :: l)
  = (x ++ sep ++ String.concat sep (y :: l))%string.
Proof. reflexivity. Qed.

(** The text of the quoted keywords begins with a double quote. *)
Lemma concat_quoted_head (k : string) (ks : list string) :
  exists tail,
    String.concat ", " (map quoted (k :: ks)) = String "034"%char tail.
Proof.
  cbn [map]. destruct ks as [|k' ks].
  - now exists (k ++ dq)%string.
  - cbn [map]. rewrite concat_cons. unfold quoted at 1, dq. cbn [append].
    now eexists.
Qed.

(** One step of the array reader: a value, then a comma or the closing
    bracket. *)
Lemma array_items_step (fuel : nat) (s : string) :
  json.array_items (S fuel) s
  = match json.scan_once fuel s with
    | Raised StopIteration => Raised json.expecting_value
    | Raised e => Raised e
    | Returned (value, r) =>
        match json.skip_ws r with
        | String c r' =>
            if Ascii.eqb c "]"%char then Returned ([value], r')
            else if Ascii.eqb c ","%char then
              match json.array_items fuel (json.skip_ws r') with
              | Returned (values, r'') => Returned (value :: values, r'')
              | Raised e => Raised e
              end
            else Raised json.expecting_comma
        | "" => Raised json.expecting_comma
        end
    end.
Proof. reflexivity. Qed.

Lemma scan_once_string (fuel : nat) (s : string) :
  json.scan_once (S fuel) (String "034"%char s)
  = match json.scanstring s with
    | Returned (str, r) => Returned (PStr str, r)
    | Raised e => Raised e
    end.
Proof. reflexivity. Qed.

(** The keywords of a response, from the first one on. *)
Lemma array_items_keywords (keywords : list string) (rest : string) :
  keywords <> [] ->
  Forall (fun keyword => plain_text keyword = true) keywords ->
  forall fuel, length keywords < fuel ->
    json.array_items fuel
      (String.concat ", " (map quoted keywords) ++ "]" ++ rest)%string
    = Returned (map PStr keywords, rest).
Proof.
  induction keywords as [|k ks IH]; intros Hne Hplain fuel Hfuel; [congruence|].
  inversion Hplain as [|? ? Hk Hks]; subst.
  destruct fuel as [|fuel]; [simpl in Hfuel; lia|].
  destruct fuel as [|fuel]; [simpl in Hfuel; lia|].
  destruct ks as [|k' ks].
  - (* the last keyword *)
    assert (Htext : (String.concat ", " (map quoted [k]) ++ "]" ++ rest)%string
                    = String "034"%char (k ++ dq ++ ("]" ++ rest))).
    { cbn [map String.concat]. unfold quoted, dq. cbn [append].
      now rewrite !append_assoc. }
    rewrite Htext, array_items_step, scan_once_string.
    rewrite (scanstring_plain k _ Hk). reflexivity.
  - set (others := String.concat ", " (map quoted (k' :: ks))) in *.
    assert (Htext : (String.concat ", " (map quoted (k :: k' :: ks))
                     ++ "]" ++ rest)%string
                    = String "034"%char
                        (k ++ dq ++ String ","%char
                                      (String " "%char (others ++ "]" ++ rest)))).
    { cbn [map]. rewrite concat_cons. fold others. unfold quoted, dq.
      cbn [append]. rewrite !append_assoc. cbn [append]. reflexivity. }
    rewrite Htext, array_items_step, scan_once_string.
    rewrite (scanstring_plain k _ Hk).
    change (json.skip_ws (String ","%char ?x)) with (String ","%char x).
    cbv iota. change (Ascii.eqb "," "]") with false.
    change (Ascii.eqb "," ",") with true. cbv iota.
    change (json.skip_ws (String " "%char ?x)) with (json.skip_ws x).
    assert (Hq : json.skip_ws (others ++ "]" ++ rest) = (others ++ "]" ++ rest)%string).
    { destruct (concat_quoted_head k' ks) as (tail & E). fold others in E.
      rewrite E. reflexivity. }
    rewrite Hq.
    rewrite (IH ltac:(discriminate) Hks (S fuel)); [reflexivity|].
    simpl in Hfuel |- *. lia.
Qed.

Lemma length_concat_quoted (keywords : list string) :
  length keywords <= String.length (String.concat ", " (map quoted keywords)).
Proof.
  induction keywords as [|k ks IH]; [simpl; lia|].
  cbn [map String.concat length]. destruct (map quoted ks) as [|q qs] eqn:E.
  - destruct ks; [|discriminate]. simpl. unfold quoted, dq. simpl. lia.
  - rewrite !length_append. unfold quoted at 1, dq. simpl.
    rewrite length_append. simpl. simpl in IH. lia.
Qed.

Lemma scan_once_object (fuel : nat) (s : string) :
  json.scan_once (S fuel) (String "{"%char s)
  = match json.skip_ws s with
    | String c' r =>
        if Ascii.eqb c' "}"%char then Returned (PDict [], r)
        else if Ascii.eqb c' "034"%char then
          match json.object_items fuel r with
          | Returned (pairs, r') => Returned (PDict (dict.of_list pairs), r')
          | Raised e => Raised e
          end
        else Raised json.expecting_name
    | "" => Raised json.expecting_name
    end.
Proof. reflexivity. Qed.

Lemma scan_once_array (fuel : nat) (s : string) :
  json.scan_once (S fuel) (String "["%char s)
  = if startswith "]" (json.skip_ws s) then
      Returned (PList [], drop 1 (json.skip_ws s))
    else
      match json.array_items fuel (json.skip_ws s) with
      | Returned (values, r') => Returned (PList values, r')
      | Raised e => Raised e
      end.
Proof. reflexivity. Qed.

Lemma object_items_step (fuel : nat) (s : string) :
  json.object_items (S fuel) s
  = match json.scanstring s with
    | Raised e => Raised e
    | Returned (key, r) =>
        if startswith ":" (json.skip_ws r) then
          match json.scan_once fuel (json.skip_ws (drop 1 (json.skip_ws r))) with
          | Raised StopIteration => Raised json.expecting_value
          | Raised e => Raised e
          | Returned (value, r2) =>
              match json.skip_ws r2 with
              | String c r3 =>
                  if Ascii.eqb c "}"%char then Returned ([(key, value)], r3)
                  else if Ascii.eqb c ","%char then
                    if startswith dq (json.skip_ws r3) then
                      match json.object_items fuel (drop 1 (json.skip_ws r3)) with
                      | Returned (pairs, r5) =>
                          Returned ((key, value) :: pairs, r5)
                      | Raised e => Raised e
                      end
                    else Raised json.expecting_name
                  else Raised json.expecting_comma
              | "" => Raised json.expecting_comma
              end
          end
        else Raised json.expecting_colon
    end.
Proof. reflexivity. Qed.

(** The response format decodes to the object that holds the keywords. *)
Lemma loads_response (keywords : list string) :
  Forall (fun keyword => plain_text keyword = true) keywords ->
  json.loads (response_of keywords)
  = Returned (PDict [("keywords", PList (map PStr keywords))]).
Proof.
  intros Hplain. unfold json.loads.
  assert (Hbom : startswith json.BOM (response_of keywords) = false) by reflexivity.
  rewrite Hbom.
  assert (Hfuel : exists fuel,
             2 * String.length (response_of keywords) + 1 = S (S (S (S fuel)))
             /\ length keywords < S fuel).
  { pose proof (length_concat_quoted keywords) as L.
    unfold response_of. rewrite !length_append.
    set (n := String.length (String.concat ", " (map quoted keywords))) in *.
    change (String.length "{") with 1.
    change (String.length (quoted "keywords")) with 10.
    change (String.length ": [") with 3. change (String.length "]}") with 2.
    exists (2 * n + 29). clearbody n. split; lia. }
  destruct Hfuel as (fuel & -> & Hlt).
  set (body := String.concat ", " (map quoted keywords)).
  assert (Htext : response_of keywords
                  = String "{"%char
                      (String "034"%char
                         ("keywords" ++ dq
                          ++ String ":"%char
                               (String " "%char
                                  (String "["%char (body ++ "]" ++ "}")))))).
  { reflexivity. }
  rewrite Htext.
  change (json.skip_ws (String "{"%char ?x)) with (String "{"%char x).
  rewrite scan_once_object.
  change (json.skip_ws (String "034"%char ?x)) with (String "034"%char x).
  cbv iota. change (Ascii.eqb "034" "}") with false.
  change (Ascii.eqb "034" "034") with true. cbv iota.
  rewrite object_items_step.
  rewrite (scanstring_plain "keywords" _ eq_refl).
  change (json.skip_ws (String ":"%char ?x)) with (String ":"%char x).
  change (startswith ":" (String ":"%char ?x)) with true. cbv iota.
  change (drop 1 (String ":"%char ?x)) with x.
  change (json.skip_ws (String " "%char ?x)) with (json.skip_ws x).
  change (json.skip_ws (String "["%char ?x)) with (String "["%char x).
  rewrite scan_once_array.
  assert (Hvalue :
            (if startswith "]" (json.skip_ws (body ++ "]" ++ "}"))
             then Returned (PList [], drop 1 (json.skip_ws (body ++ "]" ++ "}")))
             else match json.array_items (S fuel)
                          (json.skip_ws (body ++ "]" ++ "}")) with
                  | Returned (values, r') => Returned (PList values, r')
                  | Raised e => Raised e
                  end)
            = Returned (PList (map PStr keywords), "}")).
  { unfold body. destruct keywords as [|k ks]; [reflexivity|].
    destruct (concat_quoted_head k ks) as (tail & E).
    assert (Hq : json.skip_ws (String.concat ", " (map quoted (k :: ks))
                               ++ "]" ++ "}")
                 = (String.concat ", " (map quoted (k :: ks)) ++ "]" ++ "}")%string).
    { rewrite E. reflexivity. }
    rewrite Hq.
    assert (Hs : startswith "]"
                   (String.concat ", " (map quoted (k :: ks)) ++ "]" ++ "}")
                 = false).
    { rewrite E. reflexivity. }
    rewrite Hs.
    rewrite (array_items_keywords (k :: ks) "}" ltac:(discriminate) Hplain
               (S fuel) Hlt).
    reflexivity. }
  rewrite Hvalue. reflexivity.
Qed.

End RequesterFacts.

(** X6.  [_get_mime_type] answers one of six image types, chosen by the
    lower-cased suffix of the file name alone: [image/png], [image/gif],
    [image/webp] and [image/bmp] for their own suffix, [image/tiff] for
    [.tiff] and [.tif], and [image/jpeg] for everything else, be it a JPEG
    suffix, an unknown one or none. *)
Theorem get_mime_type_by_suffix (image_path : Path) :
  let extension := pystr.lower (pathlib.suffix image_path) in
  let mime := _get_mime_type image_path in
  In mime ["image/jpeg"; "image/png"; "image/gif"; "image/webp"; "image/bmp";
           "image/tiff"]
  /\ (mime = "image/png" <-> extension = ".png")
  /\ (mime = "image/gif" <-> extension = ".gif")
  /\ (mime = "image/webp" <-> extension = ".webp")
  /\ (mime = "image/bmp" <-> extension = ".bmp")
  /\ (mime = "image/tiff" <-> extension = ".tiff" \/ extension = ".tif")
  /\ (mime = "image/jpeg" <->
      ~ In extension [".png"; ".gif"; ".webp"; ".bmp"; ".tiff"; ".tif"]).
Proof.
  cbv zeta. unfold _get_mime_type.
  generalize (pystr.lower (pathlib.suffix image_path)) as e. intros e.
  unfold mime_types. cbn [dict.get eqb string_Eqb].
  repeat match goal with
         | |- context [String.eqb ?a e] =>
             destruct (String.eqb_spec a e) as [<- | ?]
         end;
    cbn [In]; repeat split; intros; try discriminate; try tauto;
    try (intros H'; intuition congruence); intuition congruence.
Qed.

(** X7.  The image type does not depend on the case of the extension, nor
    on the directory or the base name: two file names [base.ext] whose
    extensions are equal once lower-cased get the same type, and [.PNG]
    gets [image/png]. *)
Theorem get_mime_type_ignores_case
        (dir dir' : Path) (base base' ext ext' : string) :
  base <> "" -> pystr.contains "/"%char base = false -> plain_extension ext ->
  base' <> "" -> pystr.contains "/"%char base' = false -> plain_extension ext' ->
  pystr.lower ext = pystr.lower ext' ->
  _get_mime_type (dir // (base ++ String "."%char ext))
  = _get_mime_type (dir' // (base' ++ String "."%char ext'))
  /\ (pystr.lower ext = "png" ->
      _get_mime_type (dir // (base ++ String "."%char ext)) = "image/png").
Proof.
  intros Hb Hs He Hb' Hs' He' Hlow. unfold _get_mime_type.
  rewrite (suffix_of_file dir base ext Hb Hs He).
  rewrite (suffix_of_file dir' base' ext' Hb' Hs' He').
  cbn [pystr.lower]. rewrite Hlow. split; [reflexivity|].
  intros E. rewrite E. reflexivity.
Qed.

Lemma get_mime_type_ignores_case_witness :
  _get_mime_type (Scenario.P "/exports" // "IMG_1.PNG")
  = _get_mime_type (Scenario.P "/elsewhere" // "scan.png")
  /\ _get_mime_type (Scenario.P "/exports" // "IMG_1.PNG") = "image/png".
Proof.
  assert (upper : plain_extension "PNG")
    by (split; [discriminate | split; reflexivity]).
  assert (lower : plain_extension "png")
    by (split; [discriminate | split; reflexivity]).
  destruct (get_mime_type_ignores_case
              (Scenario.P "/exports") (Scenario.P "/elsewhere")
              "IMG_1" "scan" "PNG" "png"
              ltac:(discriminate) eq_refl upper
              ltac:(discriminate) eq_refl lower eq_refl) as [E1 E2].
  split; [exact E1 | apply E2; reflexivity].
Defined.

(** X8.  [generate_keywords] checks, in this order, that the image exists,
    that the taxonomy exists and that a credential is at hand; the first
    check that fails raises ([FileNotFoundError] for a file,
    [ValueError] for the credential) before anything is sent: no request
    is made and the world is unchanged.  A credential is missing when the
    argument is the empty string (the environment is not consulted then),
    or when there is no argument and [GEMINI_API_KEY] is unset or empty. *)
Theorem generate_keywords_preconditions
        (X : Externals) (image_path taxonomy_path : Path)
        (api_key : option string) (model : string) (thinking_budget : Z)
        (w : World) :
  let run := generate_keywords X image_path taxonomy_path api_key model
               thinking_budget w in
  (os.exists_ (fs w) image_path = false ->
   run = (Raised (FileNotFoundError
                    ("Image file not found: " ++ pathlib.str image_path)), w))
  /\ (os.exists_ (fs w) image_path = true ->
      os.exists_ (fs w) taxonomy_path = false ->
      run = (Raised (FileNotFoundError
                       ("Taxonomy file not found: "
                        ++ pathlib.str taxonomy_path)), w))
  /\ (os.exists_ (fs w) image_path = true ->
      os.exists_ (fs w) taxonomy_path = true ->
      (api_key = Some ""
       \/ (api_key = None
           /\ (dict.get (environ w) "GEMINI_API_KEY" = None
               \/ dict.get (environ w) "GEMINI_API_KEY" = Some ""))) ->
      run = (Raised (ValueError
               "API key must be provided or set in GEMINI_API_KEY environment variable"),
             w)).
Proof.
  cbv zeta. split; [|split].
  - intros Himg. unfold generate_keywords, bind, with_fs. now rewrite Himg.
  - intros Himg Htax. unfold generate_keywords, bind, with_fs.
    rewrite Himg. cbn [negb]. now rewrite Htax.
  - apply generate_keywords_without_key.
Qed.

Lemma generate_keywords_preconditions_witness :
  let run image taxonomy api_key :=
    generate_keywords (Scenario.service []) (Scenario.P image)
      (Scenario.P taxonomy) api_key "gemini-flash-lite-latest" 8132
      Scenario.studio_world in
  run "/exports/B.jpg" "/taxonomy.txt" None
  = (Raised (FileNotFoundError "Image file not found: /exports/B.jpg"),
     Scenario.studio_world)
  /\ run "/exports/A.jpg" "/missing.txt" None
     = (Raised (FileNotFoundError "Taxonomy file not found: /missing.txt"),
        Scenario.studio_world)
  /\ run "/exports/A.jpg" "/taxonomy.txt" (Some "")
     = (Raised (ValueError
          "API key must be provided or set in GEMINI_API_KEY environment variable"),
        Scenario.studio_world).
Proof.
  cbv zeta. split; [|split].
  - apply (proj1 (generate_keywords_preconditions (Scenario.service [])
                    (Scenario.P "/exports/B.jpg") (Scenario.P "/taxonomy.txt")
                    None "gemini-flash-lite-latest" 8132 Scenario.studio_world)).
    reflexivity.
  - apply (proj1 (proj2 (generate_keywords_preconditions (Scenario.service [])
                    (Scenario.P "/exports/A.jpg") (Scenario.P "/missing.txt")
                    None "gemini-flash-lite-latest" 8132 Scenario.studio_world)));
      reflexivity.
  - apply (proj2 (proj2 (generate_keywords_preconditions (Scenario.service [])
                    (Scenario.P "/exports/A.jpg") (Scenario.P "/taxonomy.txt")
                    (Some "") "gemini-flash-lite-latest" 8132
                    Scenario.studio_world)));
      try reflexivity. now left.
Defined.

(** X9.  Every call of [generate_keywords] leaves the file system and the
    environment alone, runs no process and makes at most one request.  When
    it makes one, the request carries the bytes of the image file, the image
    type of its suffix, the prompt built around the text of the taxonomy
    file, the model and the thinking budget it was given, the response type
    [application/json], and a non-empty credential: the argument when there
    is one (the environment is then not consulted), [GEMINI_API_KEY]
    otherwise.  The call then returns what parsing the streamed text gives,
    and an exception of the service is passed on as it is. *)
Theorem generate_keywords_single_request
        (X : Externals) (image_path taxonomy_path : Path)
        (api_key : option string) (model : string) (thinking_budget : Z)
        (w : World) :
  let run := generate_keywords X image_path taxonomy_path api_key model
               thinking_budget w in
  fs (snd run) = fs w
  /\ environ (snd run) = environ w
  /\ ((snd run = w /\ exists e, fst run = Raised e)
      \/ exists key image_data taxonomy_content,
           let req := mkRequest key model image_data
                        (_get_mime_type image_path)
                        (make_prompt taxonomy_content) thinking_budget
                        "application/json" in
           trace (snd run) = trace w ++ [Streamed req]
           /\ os.read (fs w) image_path = Returned image_data
           /\ os.read (fs w) taxonomy_path = Returned taxonomy_content
           /\ key <> ""
           /\ (api_key = Some key
               \/ (api_key = None
                   /\ dict.get (environ w) "GEMINI_API_KEY" = Some key))
           /\ fst run = match stream X (trace w) req with
                        | Returned chunks => parse_response (concat_chunks chunks)
                        | Raised e => Raised e
                        end).
Proof.
  cbv zeta.
  destruct (generate_keywords X image_path taxonomy_path api_key model
              thinking_budget w) as [r w'] eqn:Hrun.
  cbn [fst snd].
  destruct (generate_keywords_world X _ _ _ _ _ _ _ _ Hrun) as (F & En & _).
  split; [exact F|]. split; [exact En|].
  destruct (os.exists_ (fs w) image_path) eqn:Himg.
  2:{ unfold generate_keywords, bind, with_fs in Hrun. rewrite Himg in Hrun.
      injection Hrun as <- <-. left. split; eauto. }
  destruct (os.exists_ (fs w) taxonomy_path) eqn:Htax.
  2:{ unfold generate_keywords, bind, with_fs in Hrun.
      rewrite Himg in Hrun. cbn [negb] in Hrun. rewrite Htax in Hrun. injection Hrun as <- <-. left. split; eauto. }
  destruct (credential_cases api_key w) as [(key & Hne & Hkey) | Hno].
  - rewrite (generate_keywords_with_key X _ _ _ model thinking_budget w key
               Himg Htax Hne Hkey) in Hrun.
    destruct (os.read (fs w) image_path) as [image_data|e] eqn:Ri.
    2:{ injection Hrun as <- <-. left. split; eauto. }
    destruct (os.read (fs w) taxonomy_path) as [taxonomy_content|e] eqn:Rt.
    2:{ injection Hrun as <- <-. left. split; eauto. }
    cbv zeta in Hrun. injection Hrun as <- <-.
    right. exists key, image_data, taxonomy_content. cbn [trace].
    repeat split; try assumption; reflexivity.
  - rewrite (generate_keywords_without_key X _ _ _ model thinking_budget w
               Himg Htax Hno) in Hrun.
    injection Hrun as <- <-. left. split; eauto.
Qed.

(** X10.  A response that is valid JSON but not an object is not reported
    as a malformed response: [generate_keywords] raises the
    [AttributeError] of the failed [.get] on the decoded value, naming its
    type, and the response text is not part of the message. *)
Theorem generate_keywords_not_an_object
        (X : Externals) (image_path taxonomy_path : Path)
        (api_key : option string) (model : string) (thinking_budget : Z)
        (w : World) (chunks : list (option string)) (value : pyval) :
  answered X image_path taxonomy_path api_key model thinking_budget w chunks ->
  json.loads (concat_chunks chunks) = Returned value ->
  (forall d, value <> PDict d) ->
  fst (generate_keywords X image_path taxonomy_path api_key model
         thinking_budget w)
  = Raised (AttributeError
              ("'" ++ type_name value ++ "' object has no attribute 'get'")).
Proof.
  intros Hans Hval Hnot.
  destruct (generate_keywords_answered _ _ _ _ _ _ _ _ Hans) as (req & ->).
  cbn [fst]. unfold parse_response. rewrite Hval.
  destruct value; try reflexivity. now destruct (Hnot d).
Qed.

Lemma generate_keywords_not_an_object_witness :
  fst (generate_keywords (Scenario.service [Some "nu"; Some "ll"])
         (Scenario.P "/exports/A.jpg") (Scenario.P "/taxonomy.txt") None
         "gemini-flash-lite-latest" 8132 Scenario.studio_world)
  = Raised (AttributeError "'NoneType' object has no attribute 'get'").
Proof.
  apply (generate_keywords_not_an_object
           (Scenario.service [Some "nu"; Some "ll"])
           (Scenario.P "/exports/A.jpg") (Scenario.P "/taxonomy.txt") None
           "gemini-flash-lite-latest" 8132 Scenario.studio_world
           [Some "nu"; Some "ll"] PNone).
  - exists "first jpeg", "nature", "secret".
    repeat split; try reflexivity; [right; split; reflexivity | discriminate].
  - reflexivity.
  - discriminate.
Defined.

(** X11.  A response in the format that the prompt asks for is read back
    exactly: when the streamed fragments make up the object whose
    [keywords] member is the array of the quoted keywords, each of plain
    text (no double quote, no backslash, no control character),
    [generate_keywords] returns these keywords as strings, in the same
    order and number, however the text was cut into fragments. *)
Theorem generate_keywords_reads_response
        (X : Externals) (image_path taxonomy_path : Path)
        (api_key : option string) (model : string) (thinking_budget : Z)
        (w : World) (chunks : list (option string)) (keywords : list string) :
  answered X image_path taxonomy_path api_key model thinking_budget w chunks ->
  concat_chunks chunks = response_of keywords ->
  Forall (fun keyword => plain_text keyword = true) keywords ->
  fst (generate_keywords X image_path taxonomy_path api_key model
         thinking_budget w)
  = Returned (PList (map PStr keywords)).
Proof.
  intros Hans Htext Hplain.
  destruct (generate_keywords_answered _ _ _ _ _ _ _ _ Hans) as (req & ->).
  cbn [fst]. unfold parse_response.
  rewrite Htext, (loads_response keywords Hplain). reflexivity.
Qed.

Lemma generate_keywords_reads_response_witness :
  let chunks := [Some (pystr.q "{'keywords': ['street photo"); None;
                 Some (pystr.q "graphy', 'dreamy']}")] in
  fst (generate_keywords (Scenario.service chunks)
         (Scenario.P "/exports/A.jpg") (Scenario.P "/taxonomy.txt") None
         "gemini-flash-lite-latest" 8132 Scenario.studio_world)
  = Returned (PList [PStr "street photography"; PStr "dreamy"]).
Proof.
  cbv zeta.
  apply (generate_keywords_reads_response
           (Scenario.service
              [Some (pystr.q "{'keywords': ['street photo"); None;
               Some (pystr.q "graphy', 'dreamy']}")])
           (Scenario.P "/exports/A.jpg") (Scenario.P "/taxonomy.txt") None
           "gemini-flash-lite-latest" 8132 Scenario.studio_world
           [Some (pystr.q "{'keywords': ['street photo"); None;
            Some (pystr.q "graphy', 'dreamy']}")]
           ["street photography"; "dreamy"]).
  - exists "first jpeg", "nature", "secret".
    repeat split; try reflexivity; [right; split; reflexivity | discriminate].
  - reflexivity.
  - repeat constructor.
Defined.

(* ================================================================== *)
(** * Further properties: where the recursive search looks *)
(* ================================================================== *)

Section SearchFacts.
Import pystr pathlib os glob.

Lemma Path_eqb_eq (p q : Path) : Path_eqb p q = true <-> p = q.
Proof. unfold Path_eqb. destruct (Path_eq_dec p q); split; congruence. Qed.

Lemma Path_eqb_refl (p : Path) : Path_eqb p p = true.
Proof. now apply Path_eqb_eq. Qed.

Lemma exists_In (fs : FS) (p : Path) :
  exists_ fs p = true <-> In p (map fst fs).
Proof.
  unfold exists_. rewrite existsb_exists, in_map_iff. split.
  - intros (e & He & E). apply Path_eqb_eq in E. eauto.
  - intros (e & E & He). exists e. split; [assumption|]. now apply Path_eqb_eq.
Qed.

Lemma is_dir_exists (fs : FS) (p : Path) :
  is_dir fs p = true -> exists_ fs p = true.
Proof.
  unfold is_dir, exists_. rewrite !existsb_exists.
  intros (e & He & E). apply andb_true_iff in E as [E _]. eauto.
Qed.

Lemma is_dir_In (fs : FS) (p : Path) :
  is_dir fs p = true <-> In (p, Directory) fs.
Proof.
  unfold is_dir. rewrite existsb_exists. split.
  - intros ([q k] & He & E). apply andb_true_iff in E as [E K].
    apply Path_eqb_eq in E. cbn [fst snd] in *. subst.
    destruct k; [assumption | discriminate].
  - intros H. exists (p, Directory). split; [assumption|].
    cbn [fst snd]. now rewrite Path_eqb_refl.
Qed.

(** An entry of a directory is the directory's path with the entry's name
    added. *)
Lemma child_path (d e : Path) :
  child_of d e = true -> make_child_relpath d (name e) = e.
Proof.
  unfold child_of. intros H. apply andb_true_iff in H as [Hne Hp].
  apply Path_eqb_eq in Hp. subst d. unfold make_child_relpath, parent, name.
  cbn [root parts]. destruct e as [r ps]. cbn [root parts] in *.
  destruct ps as [|x ps]; [discriminate|].
  now rewrite <- app_removelast_last by discriminate.
Qed.

Lemma strict_prefix_app (l : list string) (x : string) (m : list string) :
  strict_prefix l (l ++ x :: m) = true.
Proof.
  induction l as [|a l IH]; [reflexivity|].
  simpl. now rewrite String.eqb_refl, IH.
Qed.

Lemma strict_prefix_trans (a b c : list string) :
  strict_prefix a b = true -> strict_prefix b c = true ->
  strict_prefix a c = true.
Proof.
  revert b c. induction a as [|x a IH]; intros [|y b] [|z c]; simpl;
    try discriminate; try reflexivity.
  intros H1 H2. apply andb_true_iff in H1 as [E1 H1].
  apply andb_true_iff in H2 as [E2 H2].
  apply String.eqb_eq in E1, E2. subst.
  now rewrite String.eqb_refl, (IH _ _ H1 H2).
Qed.

Lemma below_child (d : Path) (x : string) :
  below d (make_child_relpath d x) = true.
Proof.
  unfold below, make_child_relpath. cbn [root parts].
  now rewrite String.eqb_refl, strict_prefix_app.
Qed.

Lemma below_trans (a b c : Path) :
  below a b = true -> below b c = true -> below a c = true.
Proof.
  unfold below. intros H1 H2.
  apply andb_true_iff in H1 as [R1 P1]. apply andb_true_iff in H2 as [R2 P2].
  apply String.eqb_eq in R1, R2.
  rewrite R2, R1, String.eqb_refl. exact (strict_prefix_trans _ _ _ P1 P2).
Qed.

(** The directories in which [**] looks. *)
Lemma iterate_directories_searched (fs : FS) (base d : Path) :
  In d (iterate_directories fs base) <-> searched fs base d.
Proof.
  unfold iterate_directories, searched. cbn [In]. rewrite in_map_iff. split.
  - intros [<- | ([q k] & <- & H)]; [now left|]. right.
    apply filter_In in H as [Hin H]. apply andb_true_iff in H as [K B].
    cbn [fst snd] in *. destruct k; [auto | discriminate].
  - intros [-> | [Hin B]]; [now left|]. right.
    exists (d, Directory). split; [reflexivity|].
    apply filter_In. split; [assumption|]. cbn [fst snd]. now rewrite B.
Qed.

(** Everything a selector yields from a directory is that directory itself
    or an existing entry below it. *)
Lemma select_from_sound (fs : FS) (pattern_parts : list string) :
  forall d p : Path,
    In p (select_from fs pattern_parts d) ->
    p = d \/ (exists_ fs p = true /\ below d p = true).
Proof.
  induction pattern_parts as [|pat child_parts IH]; intros d p Hin.
  - destruct Hin as [<- | []]. now left.
  - cbn [select_from] in Hin.
    destruct (String.eqb pat ""); [destruct Hin as [<- | []]; now left|].
    destruct (String.eqb pat "**").
    + apply dedup_In, in_flat_map in Hin. destruct Hin as (d' & Hd' & Hin).
      apply iterate_directories_searched in Hd'.
      destruct (IH _ _ Hin) as [-> | [Hex Hb]].
      * destruct Hd' as [-> | [Hdir Hb]]; [now left|]. right.
        split; [|assumption]. apply exists_In.
        exact (in_map fst _ _ Hdir).
      * right. split; [assumption|].
        destruct Hd' as [-> | [_ Hb']]; [assumption|].
        exact (below_trans _ _ _ Hb' Hb).
    + destruct (is_wildcard_pattern pat).
      * apply in_flat_map in Hin. destruct Hin as ([nm isd] & Hentry & Hin).
        cbn [fst snd] in Hin.
        unfold scandir in Hentry. apply in_map_iff in Hentry.
        destruct Hentry as ([q k] & [= <- <-] & Hq).
        apply filter_In in Hq as [Hq Hchild]. cbn [fst snd] in *.
        rewrite (child_path _ _ Hchild) in Hin.
        assert (Hqex : exists_ fs q = true)
          by (apply exists_In; exact (in_map fst _ _ Hq)).
        assert (Hqb : below d q = true).
        { rewrite <- (child_path _ _ Hchild). apply below_child. }
        destruct ((match child_parts with [] => false | _ => true end)
                  && negb (is_directory k)); [destruct Hin|].
        destruct (fnmatch.fnmatch pat (name q)); [|destruct Hin].
        destruct (IH _ _ Hin) as [-> | [Hex Hb]]; right.
        { split; assumption. }
        { split; [assumption|]. exact (below_trans _ _ _ Hqb Hb). }
      * set (path := make_child_relpath d pat) in *.
        destruct (if match child_parts with [] => false | _ => true end
                  then is_dir fs path else exists_ fs path) eqn:Hthere;
          [|destruct Hin].
        assert (Hpex : exists_ fs path = true).
        { destruct child_parts; [assumption | now apply is_dir_exists]. }
        destruct (IH _ _ Hin) as [-> | [Hex Hb]]; right.
        { split; [assumption | apply below_child]. }
        { split; [assumption|].
          exact (below_trans _ _ _ (below_child d pat) Hb). }
Qed.

(** What [**/s] yields for a component [s] that is matched by name. *)
Lemma select_recursive_precise (fs : FS) (base raw : Path) (s : string) :
  s <> "" -> s <> "**" -> is_wildcard_pattern s = false ->
  In raw (select_from fs ["**"; s] base) ->
  exists d, searched fs base d
            /\ raw = make_child_relpath d s
            /\ exists_ fs raw = true.
Proof.
  intros Hne Hstar Hwild Hin.
  cbn [select_from] in Hin.
  change (String.eqb "**" "") with false in Hin.
  change (String.eqb "**" "**") with true in Hin. cbv iota in Hin.
  apply dedup_In, in_flat_map in Hin. destruct Hin as (d & Hd & Hin).
  destruct (String.eqb_spec s ""); [congruence|].
  destruct (String.eqb_spec s "**"); [congruence|].
  rewrite Hwild in Hin.
  destruct (exists_ fs (make_child_relpath d s)) eqn:Hex; [|destruct Hin].
  destruct Hin as [<- | []].
  exists d. split; [now apply iterate_directories_searched|]. auto.
Qed.

Lemma dedup_head (l : list Path) : l <> [] -> dedup [] l <> [].
Proof. destruct l as [|p l]; [congruence|]. discriminate. Qed.

(** Conversely [**/s] yields something as soon as a searched directory has
    an entry named [s]. *)
Lemma select_recursive_complete (fs : FS) (base d : Path) (s : string) :
  s <> "" -> s <> "**" -> is_wildcard_pattern s = false ->
  searched fs base d ->
  exists_ fs (make_child_relpath d s) = true ->
  select_from fs ["**"; s] base <> [].
Proof.
  intros Hne Hstar Hwild Hd Hex.
  cbn [select_from].
  change (String.eqb "**" "") with false.
  change (String.eqb "**" "**") with true. cbv iota.
  destruct (String.eqb_spec s ""); [congruence|].
  destruct (String.eqb_spec s "**"); [congruence|].
  rewrite Hwild. apply dedup_head.
  intros Hnil.
  assert (Hin : In (make_child_relpath d s)
                   (flat_map
                      (fun parent_path =>
                         if exists_ fs (make_child_relpath parent_path s)
                         then [make_child_relpath parent_path s] else [])
                      (iterate_directories fs base))).
  { apply in_flat_map. exists d.
    split; [now apply iterate_directories_searched|].
    rewrite Hex. now left. }
  rewrite Hnil in Hin. destruct Hin.
Qed.

Lemma is_wildcard_append (a b : string) :
  is_wildcard_pattern (a ++ b) = is_wildcard_pattern a || is_wildcard_pattern b.
Proof.
  unfold is_wildcard_pattern. rewrite !contains_append.
  destruct (contains "*"%char a), (contains "?"%char a), (contains "["%char a),
    (contains "*"%char b), (contains "?"%char b), (contains "["%char b);
    reflexivity.
Qed.

(** A text without a star has no double star. *)
Lemma no_star_no_double_star (s : string) :
  contains "*"%char s = false -> has_substring "**" s = false.
Proof.
  induction s as [|c s IH]; [reflexivity|].
  cbn [contains has_substring startswith]. intros H.
  apply orb_false_iff in H as [Hc Hs].
  rewrite Ascii.eqb_sym, Hc, (IH Hs). reflexivity.
Qed.

Lemma not_wildcard_no_star (s : string) :
  is_wildcard_pattern s = false -> contains "*"%char s = false.
Proof.
  unfold is_wildcard_pattern. intros H.
  apply orb_false_iff in H as [H _]. now apply orb_false_iff in H as [H _].
Qed.

(** The loop over the extensions: what was passed over, what was found. *)
Lemma first_match_split (fs : FS) (base : Path) (jpeg_stem : string)
      (extensions : list string) (raw : Path) :
  first_match fs base jpeg_stem extensions = Returned (Some raw) ->
  exists pre ext post l,
    extensions = pre ++ ext :: post
    /\ matches_of fs base jpeg_stem ext = Returned (raw :: l)
    /\ Forall (fun e => matches_of fs base jpeg_stem e = Returned []) pre.
Proof.
  unfold matches_of.
  induction extensions as [|ext rest IH]; [discriminate|].
  cbn [first_match].
  destruct (glob.glob fs base ("**/" ++ jpeg_stem ++ ext)) as [[|m l]|e] eqn:E.
  - intros H. destruct (IH H) as (pre & ext' & post & l' & -> & Hg & Hpre).
    exists (ext :: pre), ext', post, l'. split; [reflexivity|].
    split; [assumption|]. now constructor.
  - intros [= ->]. exists [], ext, rest, l. split; [reflexivity|].
    split; [assumption | constructor].
  - discriminate.
Qed.

Lemma first_match_none (fs : FS) (base : Path) (jpeg_stem : string)
      (extensions : list string) :
  first_match fs base jpeg_stem extensions = Returned None <->
  Forall (fun e => matches_of fs base jpeg_stem e = Returned []) extensions.
Proof.
  unfold matches_of. induction extensions as [|ext rest IH].
  - split; [constructor | reflexivity].
  - cbn [first_match].
    destruct (glob.glob fs base ("**/" ++ jpeg_stem ++ ext)) as [[|m l]|e] eqn:E.
    + rewrite IH. split; [now constructor | now inversion 1].
    + split; [discriminate | inversion 1; congruence].
    + split; [discriminate | inversion 1; congruence].
Qed.

(** A RAW file that [find_raw_file] returns exists; it is the search
    directory itself or lies below it. *)
Lemma find_raw_file_exists (fs : FS) (jpeg_path base : Path)
      (extensions : option (list string)) (raw : Path) :
  find_raw_file fs jpeg_path base extensions = Returned (Some raw) ->
  exists_ fs raw = true
  /\ is_dir fs base = true
  /\ (raw = base \/ below base raw = true).
Proof.
  unfold find_raw_file. destruct (exists_ fs base) eqn:Hbase; [|discriminate].
  cbn [negb]. intros Hfind.
  destruct (first_match_found _ _ _ _ _ Hfind) as (ext & l & _ & Hglob).
  rewrite glob_recursive in Hglob.
  destruct (invalid_pattern _); [discriminate|].
  destruct (is_dir fs base) eqn:Hdir; [|discriminate].
  assert (Hin : In raw (select_from fs
                          ("**" :: tail_parts (stem jpeg_path ++ ext)) base)).
  { remember (select_from fs ("**" :: tail_parts (stem jpeg_path ++ ext)) base)
      as sel. injection Hglob as ->. now left. }
  destruct (select_from_sound _ _ _ _ Hin) as [-> | [Hex Hb]]; auto.
Qed.

End SearchFacts.



(** X13.  Matching is by the whole stem and the whole extension.  For a
    JPEG file whose stem holds no character special to glob patterns, and
    extensions made of a dot and plain text (as the default ones are), the
    file that [find_raw_file] returns is named exactly stem plus extension:
    its stem is the stem of the JPEG file, its suffix is one of the
    extensions, and it lies below the search directory.  A file whose name
    merely contains or ends with the stem is never returned. *)
Theorem find_raw_file_same_stem
        (fs : FS) (jpeg_path base_path : Path)
        (extensions : option (list string)) (raw : Path) :
  pathlib.wf jpeg_path -> pathlib.name jpeg_path <> "" ->
  glob.is_wildcard_pattern (pathlib.stem jpeg_path) = false ->
  Forall simple_extension (extensions_of extensions) ->
  find_raw_file fs jpeg_path base_path extensions = Returned (Some raw) ->
  pathlib.stem raw = pathlib.stem jpeg_path
  /\ In (pathlib.suffix raw) (extensions_of extensions)
  /\ pathlib.name raw = (pathlib.stem jpeg_path ++ pathlib.suffix raw)%string
  /\ os.below base_path raw = true.
Proof.
  intros Hwf Hname Hwild Hexts Hfind.
  unfold find_raw_file in Hfind. fold (extensions_of extensions) in Hfind.
  destruct (os.exists_ fs base_path); [|discriminate]. cbn [negb] in Hfind.
  destruct (first_match_found _ _ _ _ _ Hfind) as (ext & l & Hin & Hglob).
  rewrite Forall_forall in Hexts.
  destruct (Hexts ext Hin) as (e & -> & Hplain & Hlit).
  pose proof (stem_not_empty _ Hname) as Hstem.
  pose proof (stem_no_slash _ Hwf) as Hslash.
  set (jpeg_stem := pathlib.stem jpeg_path) in *.
  set (s := (jpeg_stem ++ String "."%char e)%string) in *.
  assert (Hs : pathlib.wf_part s) by now apply dotted_name_wf.
  assert (Hsw : glob.is_wildcard_pattern s = false).
  { unfold s. rewrite is_wildcard_append, Hwild.
    apply literal_parts in Hlit as (Hs1 & Hs2 & Hs3 & _).
    unfold glob.is_wildcard_pattern. cbn [pystr.contains].
    rewrite Hs1, Hs2, Hs3. reflexivity. }
  assert (Hss : s <> "**").
  { intros E. rewrite E in Hsw. discriminate Hsw. }
  rewrite glob_recursive, (tail_parts_component s Hs) in Hglob.
  destruct (glob.invalid_pattern [s]); [discriminate|].
  destruct (os.is_dir fs base_path); [|discriminate].
  assert (Hraw : In raw (glob.select_from fs ["**"; s] base_path)).
  { remember (glob.select_from fs ["**"; s] base_path) as sel.
    injection Hglob as ->. now left. }
  destruct (select_recursive_precise fs base_path raw s
              ltac:(now destruct Hs) Hss Hsw Hraw) as (d & Hd & -> & Hex).
  destruct Hplain as (He & Hdot & Hesl).
  assert (Hidx : pathlib.suffix_index s = Some (String.length jpeg_stem))
    by now apply suffix_index_dotted.
  assert (Hsuffix : pathlib.suffix (pathlib.make_child_relpath d s)
                    = String "."%char e).
  { unfold pathlib.suffix, pathlib.make_child_relpath. rewrite name_child, Hidx.
    apply drop_length_append. }
  split; [|split; [|split]].
  - unfold pathlib.stem at 1, pathlib.make_child_relpath.
    rewrite name_child, Hidx. apply take_length_append.
  - now rewrite Hsuffix.
  - rewrite Hsuffix. unfold pathlib.make_child_relpath. apply name_child.
  - destruct Hd as [-> | [_ Hb]]; [apply below_child|].
    exact (below_trans _ _ _ Hb (below_child d s)).
Qed.

Lemma find_raw_file_same_stem_witness :
  find_raw_file Scenario.raws (Scenario.P "/exports/A.jpg") (Scenario.P "/raw")
    None
  = Returned (Some (Scenario.P "/raw/A.arw"))
  /\ pathlib.stem (Scenario.P "/raw/A.arw") = "A"
  /\ In (pathlib.suffix (Scenario.P "/raw/A.arw")) default_extensions.
Proof.
  split; [reflexivity|].
  assert (simple : forall e, pystr.contains "."%char e = false ->
                             pystr.contains "/"%char e = false ->
                             literal e = true -> e <> "" ->
                             simple_extension (String "."%char e)).
  { intros e H1 H2 H3 H4. exists e. repeat split; assumption. }
  destruct (find_raw_file_same_stem Scenario.raws
              (Scenario.P "/exports/A.jpg") (Scenario.P "/raw") None
              (Scenario.P "/raw/A.arw")) as (Hstem & Hsuffix & _).
  - split; [right; left; reflexivity|].
    repeat (constructor; [repeat split; try discriminate; reflexivity|]).
    constructor.
  - discriminate.
  - reflexivity.
  - repeat (constructor;
            [apply simple; try reflexivity; discriminate|]).
    constructor.
  - reflexivity.
  - split; [exact Hstem | exact Hsuffix].
Defined.

(** X14.  The order of the extensions is an order of preference.  When
    [find_raw_file] returns a file, it is the first match of the first
    extension in the list that has any match, every extension before it
    having none, wherever in the tree the files lie; and it returns [None]
    exactly when the search directory exists and no extension has a match. *)
Theorem find_raw_file_first_extension
        (fs : FS) (jpeg_path base_path : Path)
        (extensions : option (list string)) :
  (forall raw,
     find_raw_file fs jpeg_path base_path extensions = Returned (Some raw) ->
     exists pre ext post others,
       extensions_of extensions = pre ++ ext :: post
       /\ matches_of fs base_path (pathlib.stem jpeg_path) ext
          = Returned (raw :: others)
       /\ Forall (fun e => matches_of fs base_path (pathlib.stem jpeg_path) e
                           = Returned []) pre)
  /\ (find_raw_file fs jpeg_path base_path extensions = Returned None <->
      os.exists_ fs base_path = true
      /\ Forall (fun e => matches_of fs base_path (pathlib.stem jpeg_path) e
                          = Returned []) (extensions_of extensions)).
Proof.
  unfold find_raw_file. fold (extensions_of extensions).
  destruct (os.exists_ fs base_path); cbn [negb].
  - split.
    + intros raw H. now apply first_match_split.
    + rewrite first_match_none. tauto.
  - split; [discriminate|]. split; [discriminate | intros [? _]; discriminate].
Qed.

Lemma find_raw_file_first_extension_witness :
  find_raw_file Scenario.raws (Scenario.P "/exports/A.jpg") (Scenario.P "/raw")
    (Some [".dng"; ".DNG"; ".arw"])
  = Returned (Some (Scenario.P "/raw/2024/A.DNG"))
  /\ exists pre ext post others,
       [".dng"; ".DNG"; ".arw"] = pre ++ ext :: post
       /\ matches_of Scenario.raws (Scenario.P "/raw") "A" ext
          = Returned (Scenario.P "/raw/2024/A.DNG" :: others)
       /\ Forall (fun e => matches_of Scenario.raws (Scenario.P "/raw") "A" e
                           = Returned []) pre.
Proof.
  split; [reflexivity|].
  exact (proj1 (find_raw_file_first_extension Scenario.raws
                  (Scenario.P "/exports/A.jpg") (Scenario.P "/raw")
                  (Some [".dng"; ".DNG"; ".arw"]))
               (Scenario.P "/raw/2024/A.DNG") eq_refl).
Defined.

(** X15.  [find_raw_file] does not miss a file.  When the search directory
    is a directory and some directory at or below it has an entry named
    stem plus one of the extensions (the name being a plain one, without
    characters special to glob patterns), the search returns a file and not
    [None], provided no pattern of the search is rejected for holding [**]
    inside a component. *)
Theorem find_raw_file_finds
        (fs : FS) (jpeg_path base_path d : Path)
        (extensions : option (list string)) (ext : string) :
  os.is_dir fs base_path = true ->
  searched fs base_path d ->
  In ext (extensions_of extensions) ->
  pathlib.wf_part (pathlib.stem jpeg_path ++ ext) ->
  glob.is_wildcard_pattern (pathlib.stem jpeg_path ++ ext) = false ->
  os.exists_ fs (pathlib.make_child_relpath d (pathlib.stem jpeg_path ++ ext))
  = true ->
  (forall e, In e (extensions_of extensions) ->
             pystr.has_substring "**" (pathlib.stem jpeg_path ++ e) = false) ->
  exists raw,
    find_raw_file fs jpeg_path base_path extensions = Returned (Some raw).
Proof.
  intros Hdir Hd Hin Hwf Hwild Hex Hvalid.
  unfold find_raw_file. fold (extensions_of extensions).
  rewrite (is_dir_exists _ _ Hdir). cbn [negb].
  set (jpeg_stem := pathlib.stem jpeg_path) in *.
  induction (extensions_of extensions) as [|e rest IH]; [destruct Hin|].
  cbn [first_match].
  destruct (glob_recursive_returns fs base_path (jpeg_stem ++ e))
    as (l & Hglob); [apply Hvalid; now left|].
  rewrite Hglob. destruct l as [|m l]; [|now eexists].
  destruct Hin as [-> | Hin].
  - exfalso.
    rewrite glob_recursive, (tail_parts_component _ Hwf) in Hglob.
    destruct (glob.invalid_pattern [(jpeg_stem ++ ext)%string]); [discriminate|].
    rewrite Hdir in Hglob.
    assert (Hne : glob.select_from fs ["**"; (jpeg_stem ++ ext)%string] base_path
                  <> []).
    { apply (select_recursive_complete fs base_path d); try assumption.
      - now destruct Hwf.
      - intros E. rewrite E in Hwild. discriminate Hwild. }
    apply Hne. remember (glob.select_from fs _ base_path) as sel.
    now injection Hglob.
  - apply IH; [assumption|]. intros e' He'. apply Hvalid. now right.
Qed.

Lemma find_raw_file_finds_witness :
  exists raw,
    find_raw_file Scenario.raws (Scenario.P "/exports/A.jpg")
      (Scenario.P "/raw") None = Returned (Some raw).
Proof.
  apply (find_raw_file_finds Scenario.raws (Scenario.P "/exports/A.jpg")
           (Scenario.P "/raw") (Scenario.P "/raw/2024") None ".DNG").
  - reflexivity.
  - right. split; [right; right; left; reflexivity | reflexivity].
  - right; right; right; left; reflexivity.
  - split; [discriminate | split; [discriminate | reflexivity]].
  - reflexivity.
  - reflexivity.
  - intros e [<- | [<- | [<- | [<- | []]]]]; reflexivity.
Defined.

(** X16.  A search directory that does not exist is an error for the
    single search and for the batch alike: [find_raw_file] raises
    [FileNotFoundError] naming the directory whatever the extensions (even
    an empty list), and [find_raw_files] raises it for the first JPEG path,
    so that no partial mapping is returned. *)
Theorem find_raw_files_no_base
        (fs : FS) (jpeg_path : Path) (jpeg_paths : list Path) (base_path : Path)
        (extensions : option (list string)) :
  os.exists_ fs base_path = false ->
  find_raw_file fs jpeg_path base_path extensions
  = Raised (FileNotFoundError
              ("Base path does not exist: " ++ pathlib.str base_path))
  /\ find_raw_files fs (jpeg_path :: jpeg_paths) base_path extensions
     = Raised (FileNotFoundError
                 ("Base path does not exist: " ++ pathlib.str base_path)).
Proof.
  intros Hbase.
  assert (H : find_raw_file fs jpeg_path base_path extensions
              = Raised (FileNotFoundError
                          ("Base path does not exist: "
                           ++ pathlib.str base_path))).
  { unfold find_raw_file. now rewrite Hbase. }
  split; [exact H|].
  unfold find_raw_files. cbn [find_raw_files_from]. now rewrite H.
Qed.

Lemma find_raw_files_no_base_witness :
  find_raw_files Scenario.raws
    [Scenario.P "/exports/A.jpg"; Scenario.P "/exports/B.jpg"]
    (Scenario.P "/nowhere") (Some [])
  = Raised (FileNotFoundError "Base path does not exist: /nowhere").
Proof.
  exact (proj2 (find_raw_files_no_base Scenario.raws
                  (Scenario.P "/exports/A.jpg") [Scenario.P "/exports/B.jpg"]
                  (Scenario.P "/nowhere") (Some []) eq_refl)).
Defined.

(* ================================================================== *)
(** * Further properties: the scan for JPEG files *)
(* ================================================================== *)

Section ScanFacts.
Import pystr pathlib os glob fnmatch.

Lemma matches_literals_refl (s : string) : matches (literals s) s = true.
Proof.
  induction s as [|c s IH]; [reflexivity|].
  unfold literals. cbn [list_ascii_of_string map matches].
  now rewrite Ascii.eqb_refl.
Qed.

Lemma matches_star_here (ts : list item) (s : string) :
  matches ts s = true -> matches (Star :: ts) s = true.
Proof. intros H. destruct s; cbn [matches]; now rewrite H. Qed.

Lemma matches_star_skip (ts : list item) (c : ascii) (s : string) :
  matches (Star :: ts) s = true -> matches (Star :: ts) (String c s) = true.
Proof.
  intros H. cbn [matches] in H |- *. rewrite H. apply orb_true_r.
Qed.

(** A star followed by a literal text matches the names that end with the
    text. *)
Lemma matches_star_suffix (sfx nm : string) :
  matches (Star :: literals sfx) nm = true <-> endswith sfx nm.
Proof.
  split.
  - apply (matches_tail sfx [Star]).
  - intros (pre & ->). induction pre as [|c pre IH].
    + apply matches_star_here, matches_literals_refl.
    + apply matches_star_skip, IH.
Qed.

Lemma fnmatch_star_suffix (sfx nm : string) :
  literal sfx = true ->
  fnmatch.fnmatch ("*" ++ sfx) nm = true <-> endswith sfx nm.
Proof.
  intros Hlit. unfold fnmatch.fnmatch, translate.
  change (translate_from 0 false ("*" ++ sfx))
    with (Star :: translate_from 0 true sfx).
  rewrite (translate_literal sfx true Hlit). apply matches_star_suffix.
Qed.

(** What a single wildcard component selects: the entries of the directory
    whose names match. *)
Lemma select_wildcard (fs : FS) (d : Path) (pat : string) :
  String.eqb pat "" = false -> String.eqb pat "**" = false ->
  is_wildcard_pattern pat = true ->
  select_from fs [pat] d
  = map fst (filter (fun e => child_of d (fst e)
                              && fnmatch.fnmatch pat (name (fst e))) fs).
Proof.
  intros H1 H2 H3. cbn [select_from]. rewrite H1, H2, H3.
  unfold scandir. cbn [andb].
  induction fs as [|e fs IH]; [reflexivity|].
  cbn [filter]. destruct (child_of d (fst e)) eqn:Hc; cbn [andb map flat_map].
  - cbn [fst snd]. destruct (fnmatch.fnmatch pat (name (fst e))).
    + cbn [map app]. rewrite (child_path _ _ Hc). f_equal. exact IH.
    + exact IH.
  - exact IH.
Qed.

Lemma NoDup_filter_fst {A B : Type} (f : A * B -> bool) (l : list (A * B)) :
  NoDup (map fst l) -> NoDup (map fst (filter f l)).
Proof.
  induction l as [|x l IH]; intros Hnd; [constructor|].
  cbn [map] in Hnd. inversion Hnd as [|? ? Hx Hl]; subst.
  cbn [filter]. destruct (f x); [|now apply IH].
  cbn [map]. constructor; [|now apply IH].
  intros Hin. apply Hx. apply in_map_iff in Hin as (y & E & Hy).
  apply filter_In in Hy as [Hy _]. rewrite <- E. now apply in_map.
Qed.

(** Two texts that both end a name: one ends the other. *)
Lemma endswith_total (s s' nm : string) :
  endswith s nm -> endswith s' nm -> endswith s s' \/ endswith s' s.
Proof.
  intros (pre & E) (pre' & E'). subst nm. revert pre' E'.
  induction pre as [|c pre IH]; intros pre' E.
  - right. exists pre'. exact E.
  - destruct pre' as [|c' pre'].
    + left. exists (String c pre). now rewrite E.
    + cbn [append] in E. injection E as _ E. exact (IH _ E).
Qed.

Lemma endswith_length (s nm : string) :
  endswith s nm -> String.length s <= String.length nm.
Proof. intros (pre & ->). rewrite length_append. lia. Qed.

Lemma endswith_same_length (s s' : string) :
  endswith s s' -> String.length s = String.length s' -> s = s'.
Proof.
  intros (pre & ->) L. rewrite length_append in L.
  destruct pre; [reflexivity | simpl in L; lia].
Qed.

Lemma endswith_one_longer (s : string) (c : ascii) (s' : string) :
  endswith s (String c s') -> String.length s = String.length s' -> s = s'.
Proof.
  intros (pre & E) L.
  destruct pre as [|a pre].
  - cbn [append] in E. subst s. simpl in L. lia.
  - cbn [append] in E. injection E as _ E.
    apply endswith_same_length; [now exists pre | exact L].
Qed.

(** A name has at most one of the four JPEG suffixes. *)
Lemma jpeg_suffix_unique (s s' nm : string) :
  In s jpeg_suffixes -> In s' jpeg_suffixes ->
  endswith s nm -> endswith s' nm -> s = s'.
Proof.
  intros Hs Hs' E E'.
  assert (Hcases : endswith s s' \/ endswith s' s) by exact (endswith_total _ _ _ E E').
  unfold jpeg_suffixes in Hs, Hs'. cbn [In] in Hs, Hs'.
  destruct Hs as [<- | [<- | [<- | [<- | []]]]];
    destruct Hs' as [<- | [<- | [<- | [<- | []]]]];
    try reflexivity; exfalso;
    destruct Hcases as [H | H];
    first [ apply endswith_length in H; simpl in H; lia
          | apply endswith_same_length in H; [discriminate H | reflexivity]
          | apply endswith_one_longer in H; [discriminate H | reflexivity] ].
Qed.

Lemma glob_jpeg_pattern (fs : FS) (d : Path) (sfx : string) :
  In sfx jpeg_suffixes ->
  glob.glob fs d ("*" ++ sfx)
  = if is_dir fs d then Returned (select_from fs [("*" ++ sfx)%string] d)
    else Returned [].
Proof.
  unfold jpeg_suffixes. cbn [In].
  intros [<- | [<- | [<- | [<- | []]]]]; reflexivity.
Qed.

Lemma scanned_spec (fs : FS) (d : Path) (sfx : string) (p : Path) :
  literal sfx = true ->
  In p (scanned fs d sfx) <->
  In p (map fst fs) /\ child_of d p = true /\ endswith sfx (name p).
Proof.
  intros Hlit. unfold scanned. rewrite !in_map_iff. split.
  - intros (e & <- & He). apply filter_In in He as [He Hf].
    apply andb_true_iff in Hf as [Hc Hm].
    apply (fnmatch_star_suffix sfx _ Hlit) in Hm. eauto.
  - intros ((e & <- & He) & Hc & Hm). exists e. split; [reflexivity|].
    apply filter_In. split; [assumption|]. rewrite Hc.
    now apply (fnmatch_star_suffix sfx _ Hlit).
Qed.

Lemma scan_jpeg_files_scanned (fs : FS) (d : Path) :
  is_dir fs d = true ->
  scan_jpeg_files fs d
  = Returned (scanned fs d ".jpg" ++ scanned fs d ".JPG"
              ++ scanned fs d ".jpeg" ++ scanned fs d ".JPEG").
Proof.
  intros Hdir. unfold scan_jpeg_files.
  change (glob.glob fs d "*.jpg") with (glob.glob fs d ("*" ++ ".jpg")).
  change (glob.glob fs d "*.JPG") with (glob.glob fs d ("*" ++ ".JPG")).
  change (glob.glob fs d "*.jpeg") with (glob.glob fs d ("*" ++ ".jpeg")).
  change (glob.glob fs d "*.JPEG") with (glob.glob fs d ("*" ++ ".JPEG")).
  rewrite (glob_jpeg_pattern fs d ".jpg"), (glob_jpeg_pattern fs d ".JPG"),
    (glob_jpeg_pattern fs d ".jpeg"), (glob_jpeg_pattern fs d ".JPEG");
    try (unfold jpeg_suffixes; cbn [In]; tauto).
  rewrite Hdir. unfold scanned.
  rewrite !select_wildcard by reflexivity. reflexivity.
Qed.

Lemma scan_jpeg_files_spec (fs : FS) (d : Path) (jpeg_files : list Path) :
  is_dir fs d = true ->
  scan_jpeg_files fs d = Returned jpeg_files ->
  forall p, In p jpeg_files <->
            In p (map fst fs) /\ child_of d p = true /\ jpeg_name (name p).
Proof.
  intros Hdir Hscan p. rewrite (scan_jpeg_files_scanned fs d Hdir) in Hscan.
  injection Hscan as <-.
  rewrite !in_app_iff, !scanned_spec by reflexivity.
  unfold jpeg_name, jpeg_suffixes. cbn [In]. split.
  - intros [H | [H | [H | H]]]; destruct H as (H1 & H2 & H3);
      (split; [assumption|]); (split; [assumption|]); eexists;
      (split; [|exact H3]); tauto.
  - intros (H1 & H2 & sfx & Hs & H3).
    destruct Hs as [<- | [<- | [<- | [<- | []]]]]; tauto.
Qed.

End ScanFacts.

(** X17.  Step 1 of the pipeline finds exactly the entries of the JPEG
    directory itself whose names end in [.jpg], [.JPG], [.jpeg] or
    [.JPEG]: entries of subdirectories are not found, nor are names with
    another spelling of the suffix (such as [.Jpg]).  Every entry is listed
    once (when the file system lists it once), and every path listed
    exists. *)
Theorem scan_jpeg_files_finds (fs : FS) (jpeg_dir : Path) :
  os.is_dir fs jpeg_dir = true ->
  exists jpeg_files,
    scan_jpeg_files fs jpeg_dir = Returned jpeg_files
    /\ (forall p, In p jpeg_files <->
                  In p (map fst fs)
                  /\ os.child_of jpeg_dir p = true
                  /\ jpeg_name (pathlib.name p))
    /\ (forall p, In p jpeg_files -> os.exists_ fs p = true)
    /\ (NoDup (map fst fs) -> NoDup jpeg_files).
Proof.
  intros Hdir. eexists. split; [exact (scan_jpeg_files_scanned fs jpeg_dir Hdir)|].
  pose proof (scan_jpeg_files_spec fs jpeg_dir _ Hdir
                (scan_jpeg_files_scanned fs jpeg_dir Hdir)) as Hspec.
  split; [exact Hspec|]. split.
  - intros p Hp. apply exists_In. now apply Hspec.
  - intros Hnd.
    assert (Hdisj : forall s s' p,
               In s jpeg_suffixes -> In s' jpeg_suffixes -> s <> s' ->
               In p (scanned fs jpeg_dir s) -> ~ In p (scanned fs jpeg_dir s')).
    { intros s s' p Hs Hs' Hne H H'.
      assert (Hlit : forall x, In x jpeg_suffixes -> literal x = true).
      { intros x [<- | [<- | [<- | [<- | []]]]]; reflexivity. }
      apply (scanned_spec fs jpeg_dir s p (Hlit s Hs)) in H as (_ & _ & E).
      apply (scanned_spec fs jpeg_dir s' p (Hlit s' Hs')) in H' as (_ & _ & E').
      exact (Hne (jpeg_suffix_unique _ _ _ Hs Hs' E E')). }
    assert (Hin : forall s, In s [".jpg"; ".JPG"; ".jpeg"; ".JPEG"] ->
                            In s jpeg_suffixes) by (intros s H; exact H).
    repeat (apply NoDup_app;
            [now apply NoDup_filter_fst | |
             intros p Hp Hq; rewrite ?in_app_iff in Hq;
             repeat (destruct Hq as [Hq | Hq];
                     [revert Hq; apply (Hdisj _ _ p) with (4 := Hp);
                      [apply Hin; cbn [In]; tauto
                      |apply Hin; cbn [In]; tauto | discriminate]|]);
             revert Hq; apply (Hdisj _ _ p) with (4 := Hp);
             [apply Hin; cbn [In]; tauto
             |apply Hin; cbn [In]; tauto | discriminate]]).
    now apply NoDup_filter_fst.
Qed.

Lemma scan_jpeg_files_finds_witness :
  let fs := Scenario.studio
            ++ [ (Scenario.P "/exports/B.Jpg", RegularFile "mixed case");
                 (Scenario.P "/exports/2024", Directory);
                 (Scenario.P "/exports/2024/C.jpg", RegularFile "deeper") ] in
  scan_jpeg_files fs (Scenario.P "/exports")
  = Returned [Scenario.P "/exports/A.jpg"; Scenario.P "/exports/A.JPG"]
  /\ exists jpeg_files,
       scan_jpeg_files fs (Scenario.P "/exports") = Returned jpeg_files
       /\ forall p, In p jpeg_files -> os.exists_ fs p = true.
Proof.
  cbv zeta. split; [reflexivity|].
  destruct (scan_jpeg_files_finds
              (Scenario.studio
               ++ [ (Scenario.P "/exports/B.Jpg", RegularFile "mixed case");
                    (Scenario.P "/exports/2024", Directory);
                    (Scenario.P "/exports/2024/C.jpg", RegularFile "deeper") ])
              (Scenario.P "/exports") eq_refl)
    as (jpeg_files & Hscan & _ & Hex & _).
  exists jpeg_files. split; [exact Hscan | exact Hex].
Defined.

(* ================================================================== *)
(** * Further properties: the stages of the pipeline *)
(* ================================================================== *)

Section WriterRuns.

Variable X : Externals.
Context {K : Type} {KW : Keywords K}.

(** One call of the writer for keywords of any kind that are true and can
    be iterated, on an existing sidecar. *)
Lemma add_keywords_to_xmp_items (xmp_file : Path) (keywords : K)
      (exiftool_path : string) (w : World) (items : list string) :
  os.exists_ (fs w) xmp_file = true -> truth keywords = true ->
  subjects keywords = Returned items ->
  add_keywords_to_xmp X xmp_file keywords exiftool_path w
  = (match exit_status X (trace w) (exiftool_cmd exiftool_path items xmp_file) with
     | Returned returncode =>
         if Z.eqb returncode 0 then Returned tt
         else Raised (CalledProcessError returncode
                        (exiftool_cmd exiftool_path items xmp_file))
     | Raised e => Raised e
     end,
     mkWorld (fs w) (environ w)
       (trace w ++ [Spawned (exiftool_cmd exiftool_path items xmp_file)])).
Proof.
  intros Hx Ht Hs. unfold add_keywords_to_xmp, bind, with_fs.
  rewrite Hx. cbn [negb]. rewrite Ht. cbn [negb]. rewrite Hs.
  unfold subprocess_run.
  destruct (exit_status X (trace w) (exiftool_cmd exiftool_path items xmp_file))
    as [rc|e]; [|reflexivity].
  destruct (Z.eqb rc 0) eqn:E; [|reflexivity].
  cbn [negb]. rewrite E. reflexivity.
Qed.

(** The writing loop when every entry has its sidecar, keywords that are
    true can be iterated and exiftool succeeds: one run for every entry
    with true keywords. *)
Lemma write_loop_written (files_with_xmp : list Path) (exiftool_path : string)
      (d : dict.t Path K) :
  (forall tr cmd, exit_status X tr cmd = Returned 0%Z) ->
  (forall item, In item d ->
     truth (snd item) = true -> exists items, subjects (snd item) = Returned items) ->
  forall w : World,
    (forall item, In item d ->
       mem (fst item) files_with_xmp = true
       /\ os.exists_ (fs w) (get_xmp_path (fst item)) = true) ->
    for_each d
      (fun item =>
         if mem (fst item) files_with_xmp && truth (snd item) then
           add_keywords_to_xmp X (get_xmp_path (fst item)) (snd item)
             exiftool_path
         else ret tt) w
    = (Returned tt,
       mkWorld (fs w) (environ w) (trace w ++ runs (written exiftool_path d))).
Proof.
  intros Hok. induction d as [|item d IH]; intros Hiter w Hside.
  - cbn [for_each]. unfold ret, written, runs. cbn [filter map].
    rewrite app_nil_r. now destruct w.
  - cbn [for_each]. unfold bind at 1.
    destruct (Hside item (or_introl eq_refl)) as [Hm Hx]. rewrite Hm. cbn [andb].
    unfold written. cbn [filter].
    destruct (truth (snd item)) eqn:Ht.
    + destruct (Hiter item (or_introl eq_refl) Ht) as (items & Hs).
      rewrite (add_keywords_to_xmp_items _ _ exiftool_path w items Hx Ht Hs).
      rewrite Hok. cbn [Z.eqb].
      rewrite IH.
      * cbn [fs environ trace map]. unfold runs. cbn [map].
        unfold texts. rewrite Hs. unfold written.
        now rewrite <- app_assoc.
      * intros it Hin. apply Hiter. now right.
      * intros it Hin. cbn [fs]. apply Hside. now right.
    + unfold ret at 1. rewrite IH.
      * reflexivity.
      * intros it Hin. apply Hiter. now right.
      * intros it Hin. apply Hside. now right.
Qed.

Lemma batch_add_keywords_written (raw_files_keywords : dict.t Path K)
      (exiftool_path : string) (w : World) :
  (forall tr cmd, exit_status X tr cmd = Returned 0%Z) ->
  (forall item, In item raw_files_keywords ->
     truth (snd item) = true -> exists items, subjects (snd item) = Returned items) ->
  (forall raw, In raw (dict.keys raw_files_keywords) ->
     os.exists_ (fs w) raw = true /\ check_xmp_exists (fs w) raw = true) ->
  batch_add_keywords X raw_files_keywords exiftool_path w
  = (Returned tt,
     mkWorld (fs w) (environ w)
       (trace w ++ runs (written exiftool_path raw_files_keywords))).
Proof.
  intros Hok Hiter Hall. unfold batch_add_keywords. unfold bind at 1.
  rewrite (check_all_exist_ok _ w) by (intros raw Hraw; now apply Hall).
  unfold bind at 1. unfold with_fs at 1.
  unfold ensure_xmp_sidecars. rewrite partition_as_filter. cbn [fst].
  apply (write_loop_written _ exiftool_path raw_files_keywords Hok Hiter w).
  intros item Hin.
  assert (Hkey : In (fst item) (dict.keys raw_files_keywords))
    by (unfold dict.keys; now apply in_map).
  destruct (Hall _ Hkey) as [_ Hx].
  split; [|exact Hx]. now rewrite mem_filter.
Qed.

End WriterRuns.

Section PipelineStages.

Variable X : Externals.
Context {KW : Keywords pyval}.

(** The pipeline once its four checks have passed. *)
Lemma process_directory_stages
      (jpeg_dir raw_search_path taxonomy_path : Path) (api_key : option string)
      (model : string) (thinking_budget : Z) (exiftool_path : string)
      (extensions : option (list string)) (w : World) :
  os.is_dir (fs w) jpeg_dir = true ->
  os.exists_ (fs w) raw_search_path = true ->
  os.exists_ (fs w) taxonomy_path = true ->
  process_directory X jpeg_dir raw_search_path taxonomy_path api_key model
    thinking_budget exiftool_path extensions w
  = match scan_jpeg_files (fs w) jpeg_dir with
    | Raised e => (Raised e, w)
    | Returned jpeg_files =>
        if is_empty jpeg_files then
          (Raised (PipelineError
                     ("No JPEG files found in " ++ pathlib.str jpeg_dir)), w)
        else
          match locate_raw_files (fs w) jpeg_files raw_search_path extensions
                  [] [] with
          | Raised e => (Raised e, w)
          | Returned located =>
              if is_empty (fst located) then
                (Raised (PipelineError
                   "No RAW files found for any JPEG files. Cannot proceed."), w)
              else
                let files_with_xmp :=
                  fst (ensure_xmp_sidecars (fs w) (dict.values (fst located))) in
                if is_empty files_with_xmp then
                  (Raised (PipelineError
                     "No files with XMP sidecars found. Cannot proceed."), w)
                else
                  match generate_all X (with_xmp_only (fst located) files_with_xmp)
                          taxonomy_path api_key model thinking_budget [] w with
                  | (Raised e, w1) => (Raised e, w1)
                  | (Returned raw_to_keywords, w1) =>
                      match batch_add_keywords X raw_to_keywords exiftool_path w1
                      with
                      | (Raised e, w2) => (Raised e, w2)
                      | (Returned _, w2) => (Returned raw_to_keywords, w2)
                      end
                  end
          end
    end.
Proof.
  intros Hdir Hraw Htax.
  unfold process_directory. unfold bind at 1. unfold with_fs at 1.
  rewrite (is_dir_exists _ _ Hdir), Hdir, Hraw, Htax. cbn [negb].
  unfold bind at 1. unfold with_fs at 1.
  destruct (scan_jpeg_files (fs w) jpeg_dir) as [jpeg_files|e]; [|reflexivity].
  destruct (is_empty jpeg_files); [reflexivity|].
  unfold bind at 1. unfold with_fs at 1.
  destruct (locate_raw_files (fs w) jpeg_files raw_search_path extensions [] [])
    as [located|e]; [|reflexivity].
  destruct (is_empty (fst located)); [reflexivity|].
  unfold bind at 1. unfold with_fs at 1. cbv zeta.
  destruct (is_empty (fst (ensure_xmp_sidecars (fs w) (dict.values (fst located)))));
    [reflexivity|].
  unfold bind at 1.
  destruct (generate_all X _ taxonomy_path api_key model thinking_budget [] w)
    as [[raw_to_keywords|e] w1]; [|reflexivity].
  unfold bind at 1.
  destruct (batch_add_keywords X raw_to_keywords exiftool_path w1)
    as [[[]|e] w2]; reflexivity.
Qed.

(** The pipeline when one of its four checks fails. *)
Lemma process_directory_invalid
      (jpeg_dir raw_search_path taxonomy_path : Path) (api_key : option string)
      (model : string) (thinking_budget : Z) (exiftool_path : string)
      (extensions : option (list string)) (w : World) :
  os.is_dir (fs w) jpeg_dir = false
  \/ os.exists_ (fs w) raw_search_path = false
  \/ os.exists_ (fs w) taxonomy_path = false ->
  exists e,
    process_directory X jpeg_dir raw_search_path taxonomy_path api_key model
      thinking_budget exiftool_path extensions w = (Raised e, w).
Proof.
  intros H. unfold process_directory. unfold bind at 1. unfold with_fs at 1.
  destruct (os.exists_ (fs w) jpeg_dir); cbn [negb]; [|now eexists].
  destruct (os.is_dir (fs w) jpeg_dir); cbn [negb]; [|now eexists].
  destruct (os.exists_ (fs w) raw_search_path); cbn [negb]; [|now eexists].
  destruct (os.exists_ (fs w) taxonomy_path); cbn [negb]; [|now eexists].
  destruct H as [H | [H | H]]; discriminate H.
Qed.

Lemma filter_none {A : Type} (f : A -> bool) (l : list A) :
  (forall x, In x l -> f x = false) -> filter f l = [].
Proof.
  induction l as [|x l IH]; intros H; [reflexivity|].
  cbn [filter]. rewrite (H x (or_introl eq_refl)). apply IH.
  intros y Hy. apply H. now right.
Qed.

(** Step 2 when no JPEG file has a RAW file. *)
Lemma locate_raw_files_none (fs : FS) (raw_search_path : Path)
      (extensions : option (list string)) (jpeg_files : list Path) :
  Forall (fun j => find_raw_file fs j raw_search_path extensions = Returned None)
         jpeg_files ->
  forall acc missing,
    locate_raw_files fs jpeg_files raw_search_path extensions acc missing
    = Returned (acc, missing ++ jpeg_files).
Proof.
  induction 1 as [|j rest Hj _ IH]; intros acc missing.
  - cbn [locate_raw_files]. now rewrite app_nil_r.
  - cbn [locate_raw_files]. rewrite Hj, IH. now rewrite <- app_assoc.
Qed.

(** Every entry of [jpeg_to_raw] was found by [find_raw_file]. *)
Lemma locate_raw_files_found (fs : FS) (raw_search_path : Path)
      (extensions : option (list string)) (jpeg_files : list Path) :
  forall acc missing jpeg_to_raw missing',
    locate_raw_files fs jpeg_files raw_search_path extensions acc missing
    = Returned (jpeg_to_raw, missing') ->
    forall j r, In (j, r) jpeg_to_raw ->
      In (j, r) acc
      \/ (In j jpeg_files
          /\ find_raw_file fs j raw_search_path extensions = Returned (Some r)).
Proof.
  induction jpeg_files as [|j0 rest IH]; intros acc missing d m Hrun j r Hin.
  - injection Hrun as <- <-. now left.
  - cbn [locate_raw_files] in Hrun.
    destruct (find_raw_file fs j0 raw_search_path extensions) as [[raw|]|e] eqn:E;
      [| |discriminate].
    + destruct (IH _ _ _ _ Hrun j r Hin) as [Hacc | [Hj Hf]].
      * destruct (In_set _ _ _ _ Hacc) as [H | [= -> ->]]; [now left|].
        right. split; [now left | exact E].
      * right. split; [now right | exact Hf].
    + destruct (IH _ _ _ _ Hrun j r Hin) as [Hacc | [Hj Hf]]; [now left|].
      right. split; [now right | exact Hf].
Qed.

(** The loop of step 4, whatever its outcome: only requests are added to
    the trace, at most one for each item, and one for each item when the
    loop returns. *)
Lemma generate_all_world
      (taxonomy_path : Path) (api_key : option string) (model : string)
      (thinking_budget : Z) (items : list (Path * Path)) :
  forall (acc : dict.t Path pyval) (w w' : World)
         (r : outcome (dict.t Path pyval)),
    generate_all X items taxonomy_path api_key model thinking_budget acc w
    = (r, w') ->
    fs w' = fs w /\ environ w' = environ w
    /\ exists reqs,
         trace w' = trace w ++ requests reqs
         /\ length reqs <= length items
         /\ (forall result, r = Returned result -> length reqs = length items).
Proof.
  induction items as [|[jpeg raw] items IH]; intros acc w w' r Hrun.
  - injection Hrun as <- <-. repeat split. exists []. cbn [requests map].
    rewrite app_nil_r. auto.
  - cbn [generate_all] in Hrun. unfold bind in Hrun.
    destruct (generate_keywords X jpeg taxonomy_path api_key model
                thinking_budget w) as [[kw|e] w1] eqn:E.
    + destruct (generate_keywords_world X _ _ _ _ _ _ _ _ E)
        as (F1 & E1 & [[_ (e & He)] | (req & T1)]); [discriminate He|].
      destruct (IH _ _ _ _ Hrun) as (F & En & reqs & T & L & R).
      split; [congruence|]. split; [congruence|].
      exists (req :: reqs). cbn [requests map length].
      split; [rewrite T, T1, <- app_assoc; reflexivity|].
      split; [lia|]. intros result Hr. f_equal. now apply (R result).
    + injection Hrun as <- <-.
      destruct (generate_keywords_world X _ _ _ _ _ _ _ _ E)
        as (F1 & E1 & [[-> _] | (req & T1)]).
      * repeat split. exists []. cbn [requests map length].
        rewrite app_nil_r. split; [reflexivity|]. split; [lia | discriminate].
      * split; [assumption|]. split; [assumption|].
        exists [req]. cbn [requests map length].
        split; [assumption|]. split; [lia | discriminate].
Qed.

(** The loop of step 4 when every image and the taxonomy can be read, a
    credential is at hand and the service answers every request with an
    object whose keywords are a list: it returns, with one request for
    every item. *)
Lemma generate_all_succeeds
      (taxonomy_path : Path) (api_key : option string) (model : string)
      (thinking_budget : Z) (key taxonomy : string)
      (items : list (Path * Path)) :
  key <> "" ->
  (forall tr req, exists chunks keywords,
      stream X tr req = Returned chunks
      /\ parse_response (concat_chunks chunks) = Returned (PList keywords)) ->
  forall (acc : dict.t Path pyval) (w : World),
    (api_key = Some key
     \/ (api_key = None /\ dict.get (environ w) "GEMINI_API_KEY" = Some key)) ->
    os.read (fs w) taxonomy_path = Returned taxonomy ->
    (forall item, In item items ->
       exists content, os.read (fs w) (fst item) = Returned content) ->
    exists (lists : list (list pyval)) (reqs : list Request) (w' : World),
      generate_all X items taxonomy_path api_key model thinking_budget acc w
      = (Returned (fold_left (fun d kv => dict.set d (fst kv) (snd kv))
                     (combine (map snd items) (map PList lists)) acc), w')
      /\ length lists = length items
      /\ length reqs = length items
      /\ fs w' = fs w /\ environ w' = environ w
      /\ trace w' = trace w ++ requests reqs.
Proof.
  intros Hne Hservice.
  induction items as [|[jpeg raw] items IH]; intros acc w Hkey Htax Hread.
  - exists [], [], w. cbn [generate_all map combine fold_left requests length].
    rewrite app_nil_r. repeat split.
  - destruct (Hread (jpeg, raw) (or_introl eq_refl)) as (content & Himg).
    cbn [fst] in Himg.
    cbn [generate_all]. unfold bind at 1.
    rewrite (generate_keywords_with_key X jpeg taxonomy_path api_key model
               thinking_budget w key
               (read_exists _ _ _ Himg) (read_exists _ _ _ Htax) Hne Hkey).
    rewrite Himg, Htax. cbv zeta.
    set (req := mkRequest key model content (_get_mime_type jpeg)
                  (make_prompt taxonomy) thinking_budget "application/json").
    destruct (Hservice (trace w) req) as (chunks & keywords & -> & ->).
    set (w1 := mkWorld (fs w) (environ w) (trace w ++ [Streamed req])).
    destruct (IH (dict.set acc raw (PList keywords)) w1)
      as (lists & reqs & w' & Hrun & Ll & Lr & F & En & T).
    + exact Hkey.
    + exact Htax.
    + intros item Hin. apply Hread. now right.
    + exists (keywords :: lists), (req :: reqs), w'.
      split; [exact Hrun|]. cbn [length].
      split; [congruence|]. split; [congruence|].
      split; [exact F|]. split; [exact En|].
      rewrite T. unfold w1. cbn [trace requests map].
      now rewrite <- app_assoc.
Qed.

End PipelineStages.

(** X18.  [process_directory] checks its three paths before anything else,
    in this order: the JPEG directory must exist ([FileNotFoundError]) and
    be a directory ([NotADirectoryError]), then the RAW search path must
    exist, then the taxonomy file (both [FileNotFoundError]).  The first
    check that fails decides the exception, whose message names the path;
    nothing has been scanned, requested or written, and the world is
    unchanged. *)
Theorem process_directory_validates
        (X : Externals) (KW : Keywords pyval)
        (jpeg_dir raw_search_path taxonomy_path : Path)
        (api_key : option string) (model : string) (thinking_budget : Z)
        (exiftool_path : string) (extensions : option (list string))
        (w : World) :
  let run := process_directory X jpeg_dir raw_search_path taxonomy_path
               api_key model thinking_budget exiftool_path extensions w in
  (os.exists_ (fs w) jpeg_dir = false ->
   run = (Raised (FileNotFoundError
                    ("JPEG directory not found: " ++ pathlib.str jpeg_dir)), w))
  /\ (os.exists_ (fs w) jpeg_dir = true -> os.is_dir (fs w) jpeg_dir = false ->
      run = (Raised (NotADirectoryError
                       ("JPEG path is not a directory: "
                        ++ pathlib.str jpeg_dir)), w))
  /\ (os.is_dir (fs w) jpeg_dir = true ->
      os.exists_ (fs w) raw_search_path = false ->
      run = (Raised (FileNotFoundError
                       ("RAW search path not found: "
                        ++ pathlib.str raw_search_path)), w))
  /\ (os.is_dir (fs w) jpeg_dir = true ->
      os.exists_ (fs w) raw_search_path = true ->
      os.exists_ (fs w) taxonomy_path = false ->
      run = (Raised (FileNotFoundError
                       ("Taxonomy file not found: "
                        ++ pathlib.str taxonomy_path)), w)).
Proof.
  cbv zeta. split; [|split; [|split]].
  - intros H1.
    unfold process_directory. unfold bind at 1. unfold with_fs at 1. cbv beta.
    now rewrite H1.
  - intros H1 H2.
    unfold process_directory. unfold bind at 1. unfold with_fs at 1. cbv beta.
    now rewrite H1, H2.
  - intros H1 H2.
    unfold process_directory. unfold bind at 1. unfold with_fs at 1. cbv beta.
    now rewrite (is_dir_exists _ _ H1), H1, H2.
  - intros H1 H2 H3.
    unfold process_directory. unfold bind at 1. unfold with_fs at 1. cbv beta.
    now rewrite (is_dir_exists _ _ H1), H1, H2, H3.
Qed.

Lemma process_directory_validates_witness :
  let run jpeg_dir raw_search_path taxonomy_path :=
    process_directory (KW := Scenario.runtime) Scenario.two_answers
      (Scenario.P jpeg_dir) (Scenario.P raw_search_path)
      (Scenario.P taxonomy_path) None "gemini-flash-lite-latest" 8132
      "exiftool" None Scenario.studio_world in
  run "/nowhere" "/raw" "/taxonomy.txt"
  = (Raised (FileNotFoundError "JPEG directory not found: /nowhere"),
     Scenario.studio_world)
  /\ run "/exports/A.jpg" "/raw" "/taxonomy.txt"
     = (Raised (NotADirectoryError
                  "JPEG path is not a directory: /exports/A.jpg"),
        Scenario.studio_world)
  /\ run "/exports" "/nowhere" "/taxonomy.txt"
     = (Raised (FileNotFoundError "RAW search path not found: /nowhere"),
        Scenario.studio_world)
  /\ run "/exports" "/raw" "/nowhere.txt"
     = (Raised (FileNotFoundError "Taxonomy file not found: /nowhere.txt"),
        Scenario.studio_world).
Proof.
  cbv zeta. split; [|split; [|split]].
  - apply (proj1 (process_directory_validates Scenario.two_answers
                    Scenario.runtime (Scenario.P "/nowhere") (Scenario.P "/raw")
                    (Scenario.P "/taxonomy.txt") None "gemini-flash-lite-latest"
                    8132 "exiftool" None Scenario.studio_world)).
    reflexivity.
  - apply (proj1 (proj2 (process_directory_validates Scenario.two_answers
                    Scenario.runtime (Scenario.P "/exports/A.jpg")
                    (Scenario.P "/raw") (Scenario.P "/taxonomy.txt") None
                    "gemini-flash-lite-latest" 8132 "exiftool" None
                    Scenario.studio_world))); reflexivity.
  - apply (proj1 (proj2 (proj2 (process_directory_validates Scenario.two_answers
                    Scenario.runtime (Scenario.P "/exports")
                    (Scenario.P "/nowhere") (Scenario.P "/taxonomy.txt") None
                    "gemini-flash-lite-latest" 8132 "exiftool" None
                    Scenario.studio_world)))); reflexivity.
  - apply (proj2 (proj2 (proj2 (process_directory_validates Scenario.two_answers
                    Scenario.runtime (Scenario.P "/exports")
                    (Scenario.P "/raw") (Scenario.P "/nowhere.txt") None
                    "gemini-flash-lite-latest" 8132 "exiftool" None
                    Scenario.studio_world)))); reflexivity.
Defined.

(** X19.  The three ways in which [process_directory] finds nothing to do,
    once its paths are checked: no JPEG file in the directory; JPEG files,
    but no RAW file for any of them; RAW files, but none with a sidecar.
    Each raises [PipelineError] with its own message, before any request is
    sent and any process run: the world is unchanged, and no credential is
    needed to get this far. *)
Theorem process_directory_nothing_to_do
        (X : Externals) (KW : Keywords pyval)
        (jpeg_dir raw_search_path taxonomy_path : Path)
        (api_key : option string) (model : string) (thinking_budget : Z)
        (exiftool_path : string) (extensions : option (list string))
        (w : World) (jpeg_files : list Path) :
  os.is_dir (fs w) jpeg_dir = true ->
  os.exists_ (fs w) raw_search_path = true ->
  os.exists_ (fs w) taxonomy_path = true ->
  scan_jpeg_files (fs w) jpeg_dir = Returned jpeg_files ->
  let run := process_directory X jpeg_dir raw_search_path taxonomy_path
               api_key model thinking_budget exiftool_path extensions w in
  (jpeg_files = [] ->
   run = (Raised (PipelineError
                    ("No JPEG files found in " ++ pathlib.str jpeg_dir)), w))
  /\ (jpeg_files <> [] ->
      Forall (fun j => find_raw_file (fs w) j raw_search_path extensions
                       = Returned None) jpeg_files ->
      run = (Raised (PipelineError
               "No RAW files found for any JPEG files. Cannot proceed."), w))
  /\ (forall jpeg_to_raw missing,
        locate_raw_files (fs w) jpeg_files raw_search_path extensions [] []
        = Returned (jpeg_to_raw, missing) ->
        jpeg_to_raw <> [] ->
        (forall raw, In raw (dict.values jpeg_to_raw) ->
                     check_xmp_exists (fs w) raw = false) ->
        run = (Raised (PipelineError
                 "No files with XMP sidecars found. Cannot proceed."), w)).
Proof.
  intros Hdir Hraw Htax Hscan. cbv zeta.
  rewrite (process_directory_stages X _ _ _ _ _ _ _ _ w Hdir Hraw Htax), Hscan.
  split; [|split].
  - intros ->. reflexivity.
  - intros Hne Hnone. destruct jpeg_files as [|j rest]; [congruence|].
    cbn [is_empty]. now rewrite (locate_raw_files_none _ _ _ _ Hnone).
  - intros jpeg_to_raw missing Hloc Hne Hnox.
    destruct jpeg_files as [|j rest].
    { cbn [locate_raw_files] in Hloc. injection Hloc as <- _. congruence. }
    cbn [is_empty]. rewrite Hloc. cbn [fst].
    destruct jpeg_to_raw as [|item d]; [congruence|]. cbn [is_empty]. cbv zeta.
    assert (Hempty : fst (ensure_xmp_sidecars (fs w) (dict.values (item :: d)))
                     = []).
    { unfold ensure_xmp_sidecars. rewrite partition_as_filter. cbn [fst].
      now apply filter_none. }
    now rewrite Hempty.
Qed.

Lemma process_directory_nothing_to_do_witness :
  let run fs :=
    process_directory (KW := Scenario.runtime) Scenario.two_answers
      (Scenario.P "/exports") (Scenario.P "/raw") (Scenario.P "/taxonomy.txt")
      None "gemini-flash-lite-latest" 8132 "exiftool" None (mkWorld fs [] []) in
  let base := [ (Scenario.P "/exports", Directory);
                (Scenario.P "/raw", Directory);
                (Scenario.P "/taxonomy.txt", RegularFile "nature") ] in
  let jpeg := (Scenario.P "/exports/A.jpg", RegularFile "jpeg") in
  let raw := (Scenario.P "/raw/A.ARW", RegularFile "raw") in
  run base
  = (Raised (PipelineError "No JPEG files found in /exports"), mkWorld base [] [])
  /\ run (base ++ [jpeg])
     = (Raised (PipelineError
          "No RAW files found for any JPEG files. Cannot proceed."),
        mkWorld (base ++ [jpeg]) [] [])
  /\ run (base ++ [jpeg; raw])
     = (Raised (PipelineError
          "No files with XMP sidecars found. Cannot proceed."),
        mkWorld (base ++ [jpeg; raw]) [] []).
Proof.
  cbv zeta.
  set (base := [ (Scenario.P "/exports", Directory);
                 (Scenario.P "/raw", Directory);
                 (Scenario.P "/taxonomy.txt", RegularFile "nature") ]).
  set (jpeg := (Scenario.P "/exports/A.jpg", RegularFile "jpeg")).
  set (raw := (Scenario.P "/raw/A.ARW", RegularFile "raw")).
  split; [|split].
  - apply (proj1 (process_directory_nothing_to_do Scenario.two_answers
                    Scenario.runtime (Scenario.P "/exports") (Scenario.P "/raw")
                    (Scenario.P "/taxonomy.txt") None "gemini-flash-lite-latest"
                    8132 "exiftool" None (mkWorld base [] []) []
                    eq_refl eq_refl eq_refl eq_refl)).
    reflexivity.
  - apply (proj1 (proj2 (process_directory_nothing_to_do Scenario.two_answers
                    Scenario.runtime (Scenario.P "/exports") (Scenario.P "/raw")
                    (Scenario.P "/taxonomy.txt") None "gemini-flash-lite-latest"
                    8132 "exiftool" None (mkWorld (base ++ [jpeg]) [] [])
                    [Scenario.P "/exports/A.jpg"]
                    eq_refl eq_refl eq_refl eq_refl))).
    + discriminate.
    + repeat constructor.
  - apply (proj2 (proj2 (process_directory_nothing_to_do Scenario.two_answers
                    Scenario.runtime (Scenario.P "/exports") (Scenario.P "/raw")
                    (Scenario.P "/taxonomy.txt") None "gemini-flash-lite-latest"
                    8132 "exiftool" None (mkWorld (base ++ [jpeg; raw]) [] [])
                    [Scenario.P "/exports/A.jpg"]
                    eq_refl eq_refl eq_refl eq_refl))
             [(Scenario.P "/exports/A.jpg", Scenario.P "/raw/A.ARW")] []).
    + reflexivity.
    + discriminate.
    + intros r [<- | []]. reflexivity.
Defined.

(** X20.  The external calls of [process_directory] come in two phases,
    whatever its outcome: first the requests to the service, then the runs
    of exiftool, never the other way round.  The file system and the
    environment of the model are left alone.  A process is run only after
    the keywords of every surviving JPEG file have been requested and the
    loop of these requests has returned: if any request fails, nothing is
    written at all. *)
Theorem process_directory_requests_then_runs
        (X : Externals) (KW : Keywords pyval)
        (jpeg_dir raw_search_path taxonomy_path : Path)
        (api_key : option string) (model : string) (thinking_budget : Z)
        (exiftool_path : string) (extensions : option (list string))
        (w : World) :
  let run := process_directory X jpeg_dir raw_search_path taxonomy_path
               api_key model thinking_budget exiftool_path extensions w in
  fs (snd run) = fs w
  /\ environ (snd run) = environ w
  /\ exists reqs cmds,
       trace (snd run) = trace w ++ requests reqs ++ runs cmds
       /\ (cmds <> [] ->
           exists jpeg_files jpeg_to_raw missing,
             scan_jpeg_files (fs w) jpeg_dir = Returned jpeg_files
             /\ locate_raw_files (fs w) jpeg_files raw_search_path extensions
                  [] [] = Returned (jpeg_to_raw, missing)
             /\ length reqs = length (survivors (fs w) jpeg_to_raw)
             /\ exists raw_to_keywords w1,
                  generate_all X (survivors (fs w) jpeg_to_raw) taxonomy_path
                    api_key model thinking_budget [] w
                  = (Returned raw_to_keywords, w1)).
Proof.
  cbv zeta.
  assert (Hnothing : forall e,
             process_directory X jpeg_dir raw_search_path taxonomy_path
               api_key model thinking_budget exiftool_path extensions w
             = (Raised e, w) ->
             fs w = fs w /\ environ w = environ w
             /\ exists reqs cmds,
                  trace w = trace w ++ requests reqs ++ runs cmds
                  /\ (cmds <> [] ->
                      exists jpeg_files jpeg_to_raw missing,
                        scan_jpeg_files (fs w) jpeg_dir = Returned jpeg_files
                        /\ locate_raw_files (fs w) jpeg_files raw_search_path
                             extensions [] [] = Returned (jpeg_to_raw, missing)
                        /\ length reqs = length (survivors (fs w) jpeg_to_raw)
                        /\ exists raw_to_keywords w1,
                             generate_all X (survivors (fs w) jpeg_to_raw)
                               taxonomy_path api_key model thinking_budget [] w
                             = (Returned raw_to_keywords, w1))).
  { intros e _. repeat split. exists [], []. cbn [requests runs map app].
    rewrite app_nil_r. split; [reflexivity | congruence]. }
  destruct (os.is_dir (fs w) jpeg_dir) eqn:Hdir.
  2:{ destruct (process_directory_invalid X jpeg_dir raw_search_path
                  taxonomy_path api_key model thinking_budget exiftool_path
                  extensions w (or_introl Hdir)) as (e & E).
      rewrite E. exact (Hnothing e E). }
  destruct (os.exists_ (fs w) raw_search_path) eqn:Hraw.
  2:{ destruct (process_directory_invalid X jpeg_dir raw_search_path
                  taxonomy_path api_key model thinking_budget exiftool_path
                  extensions w (or_intror (or_introl Hraw))) as (e & E).
      rewrite E. exact (Hnothing e E). }
  destruct (os.exists_ (fs w) taxonomy_path) eqn:Htax.
  2:{ destruct (process_directory_invalid X jpeg_dir raw_search_path
                  taxonomy_path api_key model thinking_budget exiftool_path
                  extensions w (or_intror (or_intror Htax))) as (e & E).
      rewrite E. exact (Hnothing e E). }
  pose proof (process_directory_stages X jpeg_dir raw_search_path taxonomy_path
                api_key model thinking_budget exiftool_path extensions w
                Hdir Hraw Htax) as Hstages.
  destruct (scan_jpeg_files (fs w) jpeg_dir) as [jpeg_files|e] eqn:Hscan.
  2:{ rewrite Hstages. exact (Hnothing e Hstages). }
  destruct (is_empty jpeg_files).
  { rewrite Hstages. exact (Hnothing _ Hstages). }
  destruct (locate_raw_files (fs w) jpeg_files raw_search_path extensions [] [])
    as [[jpeg_to_raw missing]|e] eqn:Hloc.
  2:{ rewrite Hstages. exact (Hnothing e Hstages). }
  cbn [fst] in Hstages.
  destruct (is_empty jpeg_to_raw).
  { rewrite Hstages. exact (Hnothing _ Hstages). }
  cbv zeta in Hstages.
  destruct (is_empty (fst (ensure_xmp_sidecars (fs w) (dict.values jpeg_to_raw)))).
  { rewrite Hstages. exact (Hnothing _ Hstages). }
  destruct (locate_raw_files_spec _ _ _ _ _ _ _ _ Hloc (NoDup_nil _)) as (Hnd & _).
  rewrite (with_xmp_only_filter (fs w) jpeg_to_raw Hnd) in Hstages.
  fold (survivors (fs w) jpeg_to_raw) in Hstages.
  destruct (generate_all X (survivors (fs w) jpeg_to_raw) taxonomy_path api_key
              model thinking_budget [] w) as [r w1] eqn:Hgen.
  destruct (generate_all_world X _ _ _ _ _ _ _ _ _ Hgen)
    as (F1 & E1 & reqs & T1 & L1 & R1).
  destruct r as [raw_to_keywords|e].
  - destruct (batch_add_keywords X raw_to_keywords exiftool_path w1)
      as [r2 w2] eqn:Hbatch.
    destruct (only_spawns_batch X raw_to_keywords exiftool_path _ _ _ Hbatch)
      as (F2 & E2 & cmds & T2).
    assert (Hw2 : snd (process_directory X jpeg_dir raw_search_path
                         taxonomy_path api_key model thinking_budget
                         exiftool_path extensions w) = w2).
    { rewrite Hstages. now destruct r2. }
    rewrite Hw2. split; [congruence|]. split; [congruence|].
    exists reqs, cmds. split.
    + rewrite T2, T1. unfold runs. now rewrite <- app_assoc.
    + intros _. exists jpeg_files, jpeg_to_raw, missing.
      split; [reflexivity|]. split; [exact Hloc|].
      split; [now apply (R1 raw_to_keywords)|].
      now exists raw_to_keywords, w1.
  - rewrite Hstages. cbn [snd]. split; [assumption|]. split; [assumption|].
    exists reqs, []. cbn [runs map]. rewrite app_nil_r.
    split; [assumption | congruence].
Qed.

Lemma map_fst_combine {A B : Type} (a : list A) (b : list B) :
  length a = length b -> map fst (combine a b) = a.
Proof.
  revert b. induction a as [|x a IH]; intros [|y b] L; simpl in *;
    try discriminate; [reflexivity|].
  f_equal. apply IH. lia.
Qed.

(** X21.  [process_directory] succeeds when there is something to do and
    nothing outside fails: the JPEG directory is a directory and the RAW
    search path exists, at least one JPEG file has a RAW file with a
    sidecar, the JPEG files and the taxonomy can be read, a credential is at
    hand, the service answers every request with an object whose keywords
    are a list, and exiftool exits with 0.  It then returns a mapping whose
    keys are exactly the RAW files with a sidecar, after one request for
    every surviving JPEG file followed by one exiftool run for every RAW
    file of the mapping whose keyword list is not empty, in the order of
    the mapping. *)
Theorem process_directory_succeeds
        (X : Externals) (float_is_zero : string -> bool)
        (repr : pyval -> string)
        (jpeg_dir raw_search_path taxonomy_path : Path)
        (api_key : option string) (model : string) (thinking_budget : Z)
        (exiftool_path : string) (extensions : option (list string))
        (w : World) (jpeg_files : list Path) (jpeg_to_raw : dict.t Path Path)
        (missing : list Path) (key taxonomy : string) :
  os.is_dir (fs w) jpeg_dir = true ->
  os.exists_ (fs w) raw_search_path = true ->
  scan_jpeg_files (fs w) jpeg_dir = Returned jpeg_files ->
  locate_raw_files (fs w) jpeg_files raw_search_path extensions [] []
  = Returned (jpeg_to_raw, missing) ->
  survivors (fs w) jpeg_to_raw <> [] ->
  (forall jpeg, In jpeg jpeg_files ->
     exists content, os.read (fs w) jpeg = Returned content) ->
  os.read (fs w) taxonomy_path = Returned taxonomy ->
  key <> "" ->
  (api_key = Some key
   \/ (api_key = None /\ dict.get (environ w) "GEMINI_API_KEY" = Some key)) ->
  (forall tr req, exists chunks keywords,
      stream X tr req = Returned chunks
      /\ parse_response (concat_chunks chunks) = Returned (PList keywords)) ->
  (forall tr cmd, exit_status X tr cmd = Returned 0%Z) ->
  exists result w' reqs,
    process_directory (KW := pyval_Keywords float_is_zero repr) X
      jpeg_dir raw_search_path taxonomy_path api_key model thinking_budget
      exiftool_path extensions w
    = (Returned result, w')
    /\ (forall raw, In raw (dict.keys result) <->
                    In raw (map snd (survivors (fs w) jpeg_to_raw)))
    /\ length reqs = length (survivors (fs w) jpeg_to_raw)
    /\ trace w'
       = trace w ++ requests reqs
         ++ runs (@written pyval (pyval_Keywords float_is_zero repr)
                    exiftool_path result)
    /\ fs w' = fs w.
Proof.
  intros Hdir Hraw Hscan Hloc Hsome Hread Htax Hne Hkey Hservice Hok.
  set (KW := pyval_Keywords float_is_zero repr).
  rewrite (process_directory_stages X jpeg_dir raw_search_path taxonomy_path
             api_key model thinking_budget exiftool_path extensions w
             Hdir Hraw (read_exists _ _ _ Htax)).
  rewrite Hscan.
  assert (Hj : jpeg_to_raw <> []).
  { intros ->. now apply Hsome. }
  destruct jpeg_files as [|j0 rest] eqn:Ejpeg.
  { cbn [locate_raw_files] in Hloc. injection Hloc as <- _. congruence. }
  rewrite <- Ejpeg in *. clear Ejpeg.
  assert (Hne_files : is_empty jpeg_files = false).
  { destruct jpeg_files; [|reflexivity].
    cbn [locate_raw_files] in Hloc. injection Hloc as <- _. congruence. }
  rewrite Hne_files, Hloc. cbn [fst].
  destruct jpeg_to_raw as [|item0 d0] eqn:Eraw; [congruence|].
  cbn [is_empty]. rewrite <- Eraw in *. clear Eraw. cbv zeta.
  destruct (locate_raw_files_spec _ _ _ _ _ _ _ _ Hloc (NoDup_nil _)) as (Hnd & _).
  assert (Hfiles : fst (ensure_xmp_sidecars (fs w) (dict.values jpeg_to_raw))
                   = map snd (survivors (fs w) jpeg_to_raw)).
  { unfold ensure_xmp_sidecars, survivors. rewrite partition_as_filter. cbn [fst].
    unfold dict.values. apply filter_values. }
  rewrite (with_xmp_only_filter (fs w) jpeg_to_raw Hnd).
  fold (survivors (fs w) jpeg_to_raw). rewrite Hfiles.
  set (items := survivors (fs w) jpeg_to_raw) in *.
  assert (Hitems : is_empty (map snd items) = false).
  { destruct items; [congruence | reflexivity]. }
  rewrite Hitems.
  assert (Hentry : forall item, In item items ->
             In (fst item) jpeg_files
             /\ find_raw_file (fs w) (fst item) raw_search_path extensions
                = Returned (Some (snd item))
             /\ check_xmp_exists (fs w) (snd item) = true).
  { intros [j r] Hin. unfold items, survivors in Hin.
    apply filter_In in Hin as [Hin Hx]. cbn [fst snd] in *.
    destruct (locate_raw_files_found _ _ _ _ _ _ _ _ Hloc j r Hin)
      as [[] | [Hjin Hfound]].
    auto. }
  destruct (generate_all_succeeds X taxonomy_path api_key model thinking_budget
              key taxonomy items Hne Hservice [] w Hkey Htax)
    as (lists & reqs & w1 & Hgen & Ll & Lr & F1 & E1 & T1).
  { intros item Hin. apply Hread. now apply Hentry. }
  rewrite Hgen.
  set (result := fold_left (fun d kv => dict.set d (fst kv) (snd kv))
                   (combine (map snd items) (map PList lists)) []) in *.
  assert (Hkeys : forall raw, In raw (dict.keys result) <-> In raw (map snd items)).
  { intros raw. unfold result. rewrite keys_build. cbn [dict.keys map In].
    rewrite map_fst_combine by (rewrite !length_map; congruence). tauto. }
  rewrite (batch_add_keywords_written X result exiftool_path w1 Hok).
  - exists result, (mkWorld (fs w1) (environ w1)
                      (trace w1 ++ runs (written exiftool_path result))), reqs.
    split; [reflexivity|]. split; [exact Hkeys|]. split; [exact Lr|].
    cbn [trace fs]. split; [|exact F1].
    rewrite T1. now rewrite <- app_assoc.
  - intros item Hin _. unfold result in Hin.
    apply In_build in Hin as [[] | Hin].
    destruct item as [raw value]. apply in_combine_r in Hin.
    apply in_map_iff in Hin as (l & <- & _). cbn [snd].
    exists (map (py_str repr) l). reflexivity.
  - intros raw Hin. apply Hkeys in Hin.
    apply in_map_iff in Hin as (item & <- & Hin).
    destruct (Hentry item Hin) as (_ & Hfound & Hx).
    rewrite F1. split; [|exact Hx].
    now destruct (find_raw_file_exists _ _ _ _ _ Hfound).
Qed.

Lemma process_directory_succeeds_witness :
  exists result w' reqs,
    process_directory (KW := Scenario.runtime) Scenario.two_answers
      (Scenario.P "/exports") (Scenario.P "/raw") (Scenario.P "/taxonomy.txt")
      None "gemini-flash-lite-latest" 8132 "exiftool" None Scenario.studio_world
    = (Returned result, w')
    /\ (forall raw, In raw (dict.keys result) <->
                    In raw [Scenario.P "/raw/A.ARW"; Scenario.P "/raw/A.ARW"])
    /\ length reqs = 2
    /\ trace w'
       = requests reqs
         ++ runs (@written pyval Scenario.runtime "exiftool" result).
Proof.
  destruct (process_directory_succeeds Scenario.two_answers
              (fun _ => false) (fun _ => "")
              (Scenario.P "/exports") (Scenario.P "/raw")
              (Scenario.P "/taxonomy.txt") None "gemini-flash-lite-latest" 8132
              "exiftool" None Scenario.studio_world
              [Scenario.P "/exports/A.jpg"; Scenario.P "/exports/A.JPG"]
              [(Scenario.P "/exports/A.jpg", Scenario.P "/raw/A.ARW");
               (Scenario.P "/exports/A.JPG", Scenario.P "/raw/A.ARW")]
              [] "secret" "nature")
    as (result & w' & reqs & Hrun & Hkeys & Hlen & Htrace & _).
  - reflexivity.
  - reflexivity.
  - reflexivity.
  - reflexivity.
  - discriminate.
  - intros jpeg [<- | [<- | []]]; eexists; reflexivity.
  - reflexivity.
  - discriminate.
  - right. split; reflexivity.
  - intros tr req. unfold Scenario.two_answers. cbn [stream].
    destruct (String.eqb (req_image req) "first jpeg");
      eexists; eexists; (split; [reflexivity|]); vm_compute; reflexivity.
  - reflexivity.
  - exists result, w', reqs. split; [exact Hrun|]. split; [exact Hkeys|].
    split; [exact Hlen | exact Htrace].
Defined.

(* ================================================================== *)
(** * Further properties: the command line and the greeting *)
(* ================================================================== *)

Section CliFacts.

Variable X : Externals.
Context {KW : Keywords pyval}.
Variable str_of_process_error : exn -> string.
Variable style_green_bold : string -> string.

(** The lines announced with [--verbose] all go to the standard output. *)
Lemma announcement_stdout (jpeg_dir raw_search_path taxonomy_path : Path)
      (model : string) (extensions_list : option (list string)) :
  Forall (fun line => cli.err line = false)
         (cli.announcement jpeg_dir raw_search_path taxonomy_path model
            extensions_list).
Proof.
  unfold cli.announcement. apply Forall_app. split.
  - repeat constructor.
  - destruct extensions_list; repeat constructor.
Qed.

(** The listing of the processed files: one line for every entry up to the
    first whose keywords have no length. *)
Lemma processed_files_spec (items : list (Path * pyval)) :
  Forall (fun line => cli.err line = false) (fst (cli.processed_files items))
  /\ ((forall item, In item items -> exists n, cli.py_len (snd item) = Returned n) ->
      snd (cli.processed_files items) = None
      /\ length (fst (cli.processed_files items)) = length items)
  /\ ((exists item e, In item items /\ cli.py_len (snd item) = Raised e) ->
      exists e, snd (cli.processed_files items) = Some e).
Proof.
  induction items as [|[raw keywords] items (IH1 & IH2 & IH3)].
  - cbn [cli.processed_files fst snd]. split; [constructor|]. split; [auto|].
    intros (item & e & [] & _).
  - cbn [cli.processed_files].
    destruct (cli.py_len keywords) as [n|e] eqn:E.
    + destruct (cli.processed_files items) as [lines stopped]. cbn [fst snd] in *.
      split; [now constructor|]. split.
      * intros Hall. destruct IH2 as [-> L].
        { intros item Hin. apply Hall. now right. }
        cbn [length]. auto.
      * intros (item & e & [<- | Hin] & He).
        { cbn [snd] in He. congruence. }
        apply IH3. eauto.
    + cbn [fst snd]. split; [constructor|]. split.
      * intros Hall. destruct (Hall _ (or_introl eq_refl)) as (n & Hn).
        cbn [snd] in Hn. congruence.
      * intros _. eauto.
Qed.

End CliFacts.

(** X22.  The command refuses to start without a credential.  When the
    API key is absent or empty it echoes one line to the standard error
    stream and exits with status 1; the pipeline is not called, nothing is
    read, requested or written, and [--verbose] adds no line. *)
Theorem cli_main_requires_api_key
        (X : Externals) (KW : Keywords pyval)
        (str_of_process_error : exn -> string)
        (style_green_bold : string -> string)
        (jpeg_dir raw_search_path taxonomy_path : Path)
        (api_key : option string) (model : string) (thinking_budget : Z)
        (exiftool_path : string) (extensions : list string) (verbose : bool)
        (w : World) :
  api_key = None \/ api_key = Some "" ->
  cli.main X str_of_process_error style_green_bold jpeg_dir raw_search_path
    taxonomy_path api_key model thinking_budget exiftool_path extensions
    verbose w
  = (([cli.mkEcho
         "Error: API key not provided. Set GEMINI_API_KEY environment variable or use --api-key option."
         true],
      cli.SystemExit 1), w).
Proof. intros [-> | ->]; reflexivity. Qed.

Lemma cli_main_requires_api_key_witness :
  exit_code
    (snd (fst (cli.main (KW := Scenario.runtime) Scenario.two_answers
                 (fun _ => "") (fun s => s)
                 (Scenario.P "/exports") (Scenario.P "/raw")
                 (Scenario.P "/taxonomy.txt") (Some "")
                 "gemini-flash-lite-latest" 2000 "exiftool" [] true
                 Scenario.studio_world)))
  = 1%Z.
Proof.
  rewrite (cli_main_requires_api_key Scenario.two_answers Scenario.runtime
             (fun _ => "") (fun s => s)
             (Scenario.P "/exports") (Scenario.P "/raw")
             (Scenario.P "/taxonomy.txt") (Some "")
             "gemini-flash-lite-latest" 2000 "exiftool" [] true
             Scenario.studio_world (or_intror eq_refl)).
  reflexivity.
Defined.

(** X23.  Every failure of the pipeline ends the command with exit status
    1 and one line on the standard error stream, the last line echoed.  The
    line is [Pipeline error: ] and the message for a [PipelineError],
    [File not found: ] and the message for a [FileNotFoundError], and
    begins with [Unexpected error: ] for any other exception; no exception
    leaves the command.  The pipeline is called with the key, and with no
    extension list when no [--extensions] option was given; the lines
    before the error line are the announcement of [--verbose], on the
    standard output. *)
Theorem cli_main_reports_errors
        (X : Externals) (KW : Keywords pyval)
        (str_of_process_error : exn -> string)
        (style_green_bold : string -> string)
        (jpeg_dir raw_search_path taxonomy_path : Path)
        (key : string) (model : string) (thinking_budget : Z)
        (exiftool_path : string) (extensions : list string) (verbose : bool)
        (w w' : World) (e : exn) :
  key <> "" ->
  process_directory X jpeg_dir raw_search_path taxonomy_path (Some key) model
    thinking_budget exiftool_path
    (if is_empty extensions then None else Some extensions) w
  = (Raised e, w') ->
  exists announced line,
    cli.main X str_of_process_error style_green_bold jpeg_dir raw_search_path
      taxonomy_path (Some key) model thinking_budget exiftool_path extensions
      verbose w
    = ((announced ++ [line], cli.SystemExit 1), w')
    /\ Forall (fun l => cli.err l = false) announced
    /\ (verbose = false -> announced = [])
    /\ cli.err line = true
    /\ (forall m, e = PipelineError m ->
                  cli.text line = ("Pipeline error: " ++ m)%string)
    /\ (forall m, e = FileNotFoundError m ->
                  cli.text line = ("File not found: " ++ m)%string)
    /\ ((forall m, e <> PipelineError m) ->
        (forall m, e <> FileNotFoundError m) ->
        exists m, cli.text line = ("Unexpected error: " ++ m)%string).
Proof.
  intros Hne Hrun. destruct key as [|c key]; [congruence|].
  unfold cli.main. rewrite Hrun.
  eexists. exists (cli.handler str_of_process_error e).
  split; [reflexivity|]. split.
  { destruct verbose; [apply announcement_stdout | constructor]. }
  split; [now intros ->|].
  split; [now destruct e|].
  split; [now intros m ->|]. split; [now intros m ->|].
  intros H1 H2. destruct e; try (eexists; reflexivity).
  - now destruct (H2 msg).
  - now destruct (H1 msg).
Qed.

Lemma cli_main_reports_errors_witness :
  fst (cli.main (KW := Scenario.runtime) Scenario.two_answers
         (fun _ => "") (fun s => s)
         (Scenario.P "/exports") (Scenario.P "/nowhere")
         (Scenario.P "/taxonomy.txt") (Some "secret")
         "gemini-flash-lite-latest" 2000 "exiftool" [] false
         Scenario.studio_world)
  = ([cli.mkEcho "File not found: RAW search path not found: /nowhere" true],
     cli.SystemExit 1).
Proof.
  destruct (cli_main_reports_errors Scenario.two_answers Scenario.runtime
              (fun _ => "") (fun s => s)
              (Scenario.P "/exports") (Scenario.P "/nowhere")
              (Scenario.P "/taxonomy.txt") "secret"
              "gemini-flash-lite-latest" 2000 "exiftool" [] false
              Scenario.studio_world Scenario.studio_world
              (FileNotFoundError "RAW search path not found: /nowhere")
              ltac:(discriminate) eq_refl)
    as (announced & line & Hmain & _ & Hquiet & Herr & _ & Hfile & _).
  rewrite Hmain, (Hquiet eq_refl). cbn [fst app].
  destruct line as [text err]. cbn [cli.err cli.text] in *.
  now rewrite Herr, (Hfile _ eq_refl).
Defined.

(** X24.  When the pipeline returns, the command reports success with the
    number of entries of the returned mapping.  Without [--verbose] it
    echoes this one line and ends with exit status 0.  With [--verbose] it
    goes on to list the entries, one line each, and ends with exit status 0
    when every keyword value has a length; a value without one (a number,
    for instance) stops the listing with an unexpected error and exit
    status 1, although the pipeline itself had succeeded.  Whenever the
    status is 0 nothing was written to the standard error stream. *)
Theorem cli_main_success
        (X : Externals) (KW : Keywords pyval)
        (str_of_process_error : exn -> string)
        (style_green_bold : string -> string)
        (jpeg_dir raw_search_path taxonomy_path : Path)
        (key : string) (model : string) (thinking_budget : Z)
        (exiftool_path : string) (extensions : list string)
        (w w' : World) (results : dict.t Path pyval) :
  key <> "" ->
  process_directory X jpeg_dir raw_search_path taxonomy_path (Some key) model
    thinking_budget exiftool_path
    (if is_empty extensions then None else Some extensions) w
  = (Returned results, w') ->
  let main := cli.main X str_of_process_error style_green_bold jpeg_dir
                raw_search_path taxonomy_path (Some key) model thinking_budget
                exiftool_path extensions in
  let success :=
    cli.mkEcho (style_green_bold
                  (cli.newline ++ cli.check_mark ++ " Successfully processed "
                   ++ pystr.of_Z (Z.of_nat (length results)) ++ " files!")%string)
               false in
  main false w = (([success], cli.Completed), w')
  /\ ((forall item, In item results ->
         exists n, cli.py_len (snd item) = Returned n) ->
      exists announced lines,
        main true w
        = ((announced
            ++ success
               :: cli.mkEcho (cli.newline ++ "Processed files:")%string false
               :: lines, cli.Completed), w')
        /\ length lines = length results
        /\ Forall (fun l => cli.err l = false) (announced ++ lines))
  /\ ((exists item e, In item results /\ cli.py_len (snd item) = Raised e) ->
      exit_code (snd (fst (main true w))) = 1%Z
      /\ snd (main true w) = w').
Proof.
  intros Hne Hrun. destruct key as [|c key]; [congruence|]. cbv zeta.
  unfold cli.main. rewrite Hrun.
  destruct (processed_files_spec results) as (Hout & Hall & Hsome).
  split; [reflexivity|]. split.
  - intros Hsized. destruct (Hall Hsized) as [Hstop Hlen].
    destruct (cli.processed_files results) as [lines stopped].
    cbn [fst snd] in *. subst stopped.
    eexists. exists lines. split; [reflexivity|]. split; [exact Hlen|].
    apply Forall_app. split; [apply announcement_stdout | exact Hout].
  - intros Hbad. destruct (Hsome Hbad) as (e & Hstop).
    destruct (cli.processed_files results) as [lines stopped].
    cbn [fst snd] in *. subst stopped. split; reflexivity.
Qed.

Lemma cli_main_success_witness :
  cli.main (KW := Scenario.runtime) Scenario.two_answers
    (fun _ => "") (fun s => s)
    (Scenario.P "/exports") (Scenario.P "/raw") (Scenario.P "/taxonomy.txt")
    (Some "secret") "gemini-flash-lite-latest" 2000 "exiftool" [] false
    (mkWorld Scenario.studio [] [])
  = (([cli.mkEcho (cli.newline ++ cli.check_mark
                   ++ " Successfully processed 1 files!")%string false],
      cli.Completed),
     snd (process_directory (KW := Scenario.runtime) Scenario.two_answers
            (Scenario.P "/exports") (Scenario.P "/raw")
            (Scenario.P "/taxonomy.txt") (Some "secret")
            "gemini-flash-lite-latest" 2000 "exiftool" None
            (mkWorld Scenario.studio [] []))).
Proof.
  assert (Hrun : process_directory (KW := Scenario.runtime)
                   Scenario.two_answers
                   (Scenario.P "/exports") (Scenario.P "/raw")
                   (Scenario.P "/taxonomy.txt") (Some "secret")
                   "gemini-flash-lite-latest" 2000 "exiftool" None
                   (mkWorld Scenario.studio [] [])
                 = (Returned [(Scenario.P "/raw/A.ARW", PList [PStr "z"])],
                    snd (process_directory (KW := Scenario.runtime)
                           Scenario.two_answers
                           (Scenario.P "/exports") (Scenario.P "/raw")
                           (Scenario.P "/taxonomy.txt") (Some "secret")
                           "gemini-flash-lite-latest" 2000 "exiftool" None
                           (mkWorld Scenario.studio [] [])))).
  { vm_compute. reflexivity. }
  exact (proj1 (cli_main_success Scenario.two_answers Scenario.runtime
                  (fun _ => "") (fun s => s)
                  (Scenario.P "/exports") (Scenario.P "/raw")
                  (Scenario.P "/taxonomy.txt") "secret"
                  "gemini-flash-lite-latest" 2000 "exiftool" []
                  (mkWorld Scenario.studio [] []) _
                  [(Scenario.P "/raw/A.ARW", PList [PStr "z"])]
                  ltac:(discriminate) Hrun)).
Defined.

(** X25.  The name can be read back from the greeting: [say_hello] puts it
    between a fixed opening of 7 characters and a fixed ending of 34, so
    that different names get different greetings, and the greeting without
    a name is the greeting of [World]. *)
Theorem say_hello_round_trip (name : string) :
  let greeting := hello_world.say_hello (Some name) in
  pystr.take (String.length name) (pystr.drop 7 greeting) = name
  /\ String.length greeting = 41 + String.length name
  /\ (forall name', hello_world.say_hello (Some name') = greeting ->
                    name' = name)
  /\ (name = "World" -> hello_world.say_hello None = greeting).
Proof.
  cbv zeta. unfold hello_world.say_hello.
  change (pystr.drop 7 ("Hello, " ++ name ++ "! Welcome to Photo Keyword Tagger.")%string)
    with (name ++ "! Welcome to Photo Keyword Tagger.")%string.
  split; [apply take_length_append|]. split.
  - change ("Hello, " ++ name ++ "! Welcome to Photo Keyword Tagger.")%string
      with (String "H" (String "e" (String "l" (String "l" (String "o"
              (String "," (String " "
                 (name ++ "! Welcome to Photo Keyword Tagger.")))))))).
    cbn [String.length]. rewrite length_append. simpl. lia.
  - split; [|now intros ->].
    intros name' E.
    assert (E' : (name' ++ "! Welcome to Photo Keyword Tagger.")%string
                 = (name ++ "! Welcome to Photo Keyword Tagger.")%string).
    { cbn [append] in E. now injection E. }
    assert (L : String.length name' = String.length name).
    { apply (f_equal String.length) in E'. rewrite !length_append in E'. lia. }
    rewrite <- (take_length_append name' "! Welcome to Photo Keyword Tagger.").
    rewrite E', L. apply take_length_append.
Qed.

(* ================================================================== *)
(** * Further properties: values of another type, paths of another kind *)
(* ================================================================== *)

Section EdgeFacts.

Lemma map_py_str_PStr (repr : pyval -> string) (l : list string) :
  map (py_str repr) (map PStr l) = l.
Proof.
  induction l as [|x l IH]; [reflexivity|]. cbn [map py_str]. now rewrite IH.
Qed.

(** A search in something that is not a directory finds nothing. *)
Lemma first_match_not_directory (fs : FS) (base : Path) (jpeg_stem : string)
      (extensions : list string) :
  os.is_dir fs base = false ->
  (forall ext, In ext extensions ->
               pystr.has_substring "**" (jpeg_stem ++ ext) = false) ->
  first_match fs base jpeg_stem extensions = Returned None.
Proof.
  intros Hdir. induction extensions as [|ext rest IH]; intros Hvalid;
    [reflexivity|].
  cbn [first_match].
  destruct (glob_recursive_returns fs base (jpeg_stem ++ ext)
              (Hvalid ext (or_introl eq_refl))) as (l & Hglob).
  rewrite Hglob. rewrite glob_recursive in Hglob.
  destruct (glob.invalid_pattern _); [discriminate|].
  rewrite Hdir in Hglob. injection Hglob as <-.
  apply IH. intros e He. apply Hvalid. now right.
Qed.

End EdgeFacts.

(** X26.  The credential is the last thing [process_directory] asks for.
    With paths that pass the checks and at least one JPEG file whose RAW
    file has a sidecar, a missing credential (an empty key, or no key and
    [GEMINI_API_KEY] unset or empty) makes it raise the [ValueError] of
    [generate_keywords] for the first surviving JPEG file: no request has
    been sent, no process run, the world is unchanged. *)
Theorem process_directory_needs_credential
        (X : Externals) (KW : Keywords pyval)
        (jpeg_dir raw_search_path taxonomy_path : Path)
        (api_key : option string) (model : string) (thinking_budget : Z)
        (exiftool_path : string) (extensions : option (list string))
        (w : World) (jpeg_files : list Path) (jpeg_to_raw : dict.t Path Path)
        (missing : list Path) :
  os.is_dir (fs w) jpeg_dir = true ->
  os.exists_ (fs w) raw_search_path = true ->
  os.exists_ (fs w) taxonomy_path = true ->
  scan_jpeg_files (fs w) jpeg_dir = Returned jpeg_files ->
  locate_raw_files (fs w) jpeg_files raw_search_path extensions [] []
  = Returned (jpeg_to_raw, missing) ->
  survivors (fs w) jpeg_to_raw <> [] ->
  (api_key = Some ""
   \/ (api_key = None
       /\ (dict.get (environ w) "GEMINI_API_KEY" = None
           \/ dict.get (environ w) "GEMINI_API_KEY" = Some ""))) ->
  process_directory X jpeg_dir raw_search_path taxonomy_path api_key model
    thinking_budget exiftool_path extensions w
  = (Raised (ValueError
       "API key must be provided or set in GEMINI_API_KEY environment variable"),
     w).
Proof.
  intros Hdir Hraw Htax Hscan Hloc Hsome Hkey.
  rewrite (process_directory_stages X jpeg_dir raw_search_path taxonomy_path
             api_key model thinking_budget exiftool_path extensions w
             Hdir Hraw Htax).
  rewrite Hscan.
  assert (Hj : jpeg_to_raw <> []) by (intros ->; now apply Hsome).
  assert (Hfiles : is_empty jpeg_files = false).
  { destruct jpeg_files; [|reflexivity].
    cbn [locate_raw_files] in Hloc. injection Hloc as <- _. congruence. }
  rewrite Hfiles, Hloc. cbn [fst].
  assert (Hraws : is_empty jpeg_to_raw = false)
    by (destruct jpeg_to_raw; [congruence | reflexivity]).
  rewrite Hraws. cbv zeta.
  destruct (locate_raw_files_spec _ _ _ _ _ _ _ _ Hloc (NoDup_nil _)) as (Hnd & _).
  assert (Hwith : fst (ensure_xmp_sidecars (fs w) (dict.values jpeg_to_raw))
                  = map snd (survivors (fs w) jpeg_to_raw)).
  { unfold ensure_xmp_sidecars, survivors. rewrite partition_as_filter. cbn [fst].
    unfold dict.values. apply filter_values. }
  rewrite (with_xmp_only_filter (fs w) jpeg_to_raw Hnd).
  fold (survivors (fs w) jpeg_to_raw). rewrite Hwith.
  destruct (survivors (fs w) jpeg_to_raw) as [|[jpeg raw] rest] eqn:Es;
    [congruence|].
  cbn [map is_empty generate_all]. unfold bind at 1.
  assert (Hin : In (jpeg, raw) jpeg_to_raw).
  { assert (H : In (jpeg, raw) (survivors (fs w) jpeg_to_raw))
      by (rewrite Es; now left).
    unfold survivors in H. now apply filter_In in H. }
  destruct (locate_raw_files_found _ _ _ _ _ _ _ _ Hloc jpeg raw Hin)
    as [[] | [Hjpeg _]].
  assert (Himg : os.exists_ (fs w) jpeg = true).
  { apply exists_In.
    now apply (scan_jpeg_files_spec (fs w) jpeg_dir jpeg_files Hdir Hscan). }
  now rewrite (generate_keywords_without_key X jpeg taxonomy_path api_key model
                 thinking_budget w Himg Htax Hkey).
Qed.

Lemma process_directory_needs_credential_witness :
  process_directory (KW := Scenario.runtime) Scenario.two_answers
    (Scenario.P "/exports") (Scenario.P "/raw") (Scenario.P "/taxonomy.txt")
    None "gemini-flash-lite-latest" 8132 "exiftool" None
    (mkWorld Scenario.studio [("GEMINI_API_KEY", "")] [])
  = (Raised (ValueError
       "API key must be provided or set in GEMINI_API_KEY environment variable"),
     mkWorld Scenario.studio [("GEMINI_API_KEY", "")] []).
Proof.
  apply (process_directory_needs_credential Scenario.two_answers
           Scenario.runtime
           (Scenario.P "/exports") (Scenario.P "/raw")
           (Scenario.P "/taxonomy.txt") None "gemini-flash-lite-latest" 8132
           "exiftool" None (mkWorld Scenario.studio [("GEMINI_API_KEY", "")] [])
           [Scenario.P "/exports/A.jpg"; Scenario.P "/exports/A.JPG"]
           [(Scenario.P "/exports/A.jpg", Scenario.P "/raw/A.ARW");
            (Scenario.P "/exports/A.JPG", Scenario.P "/raw/A.ARW")]
           []);
    try reflexivity.
  - discriminate.
  - right. split; [reflexivity | right; reflexivity].
Defined.

(** X27.  The writer takes its keywords by duck typing, and the value of a
    response is passed to it unchecked.  A list of strings, the declared
    type, is written exactly as the same keywords given directly.  A
    non-empty string is iterated character by character, so that every
    character becomes a keyword argument of its own.  A number other than
    zero is true but cannot be iterated: the writer raises [TypeError]
    before any process is run.  [None], zero and the empty values are
    false: nothing is written for them. *)
Theorem add_keywords_duck_typing
        (X : Externals) (float_is_zero : string -> bool)
        (repr : pyval -> string) (xmp_file : Path) (exiftool_path : string)
        (w : World) :
  os.exists_ (fs w) xmp_file = true ->
  let add := add_keywords_to_xmp (H := pyval_Keywords float_is_zero repr) X
               xmp_file in
  (forall keywords : list string,
     add (PList (map PStr keywords)) exiftool_path w
     = add_keywords_to_xmp X xmp_file keywords exiftool_path w)
  /\ (forall s, s <> "" ->
        add (PStr s) exiftool_path w
        = add_keywords_to_xmp X xmp_file (chars s) exiftool_path w)
  /\ (forall n, n <> 0%Z ->
        add (PInt n) exiftool_path w
        = (Raised (TypeError "'int' object is not iterable"), w))
  /\ (forall value, In value [PNone; PInt 0; PStr ""; PList []; PDict []] ->
        add value exiftool_path w = (Returned tt, w)).
Proof.
  intros Hx. cbv zeta. split; [|split; [|split]].
  - intros keywords.
    unfold add_keywords_to_xmp, bind, with_fs. rewrite Hx. cbn [negb].
    cbn [truth subjects pyval_Keywords list_Keywords py_bool py_iter].
    destruct keywords as [|k ks]; [reflexivity|].
    cbn [map is_empty negb py_str].
    now rewrite (map_py_str_PStr repr ks).
  - intros s Hs.
    unfold add_keywords_to_xmp, bind, with_fs. rewrite Hx. cbn [negb].
    cbn [truth subjects pyval_Keywords list_Keywords py_bool py_iter].
    destruct s as [|c s]; [congruence|].
    change (String.eqb (String c s) "") with false. cbn [negb].
    assert (Hchars : is_empty (chars (String c s)) = false).
    { cbn [chars]. destruct (chars s); [reflexivity|].
      now destruct (starts_with_continuation s). }
    rewrite Hchars. cbn [negb]. now rewrite map_py_str_PStr.
  - intros n Hn.
    unfold add_keywords_to_xmp, bind, with_fs. rewrite Hx. cbn [negb].
    cbn [truth subjects pyval_Keywords py_bool py_iter].
    destruct (Z.eqb_spec n 0); [congruence|]. reflexivity.
  - intros value Hin.
    unfold add_keywords_to_xmp, bind, with_fs. rewrite Hx. cbn [negb].
    cbn [In] in Hin.
    destruct Hin as [<- | [<- | [<- | [<- | [<- | []]]]]]; reflexivity.
Qed.

Lemma add_keywords_duck_typing_witness :
  trace (snd (add_keywords_to_xmp (H := Scenario.runtime) Scenario.tool_ok
                (Scenario.P "/photos/DSC00089.xmp") (PStr "sun") "exiftool"
                Scenario.photo_world))
  = [Spawned ["exiftool"; "-overwrite_original"; "-XMP-dc:Subject+=s";
              "-XMP-dc:Subject+=u"; "-XMP-dc:Subject+=n";
              "/photos/DSC00089.xmp"]].
Proof.
  destruct (add_keywords_duck_typing Scenario.tool_ok (fun _ => false)
              (fun _ => "") (Scenario.P "/photos/DSC00089.xmp") "exiftool"
              Scenario.photo_world eq_refl) as (_ & Hstr & _).
  unfold Scenario.runtime. rewrite (Hstr "sun" ltac:(discriminate)).
  reflexivity.
Defined.

(** X28.  A search path that exists but is not a directory is accepted
    and searched in vain: [find_raw_file] returns [None] for every JPEG
    path, whatever the extensions (as long as no pattern of the search is
    rejected for holding [**] inside a component).  Only a path that does
    not exist at all is an error. *)
Theorem find_raw_file_base_not_directory
        (fs : FS) (jpeg_path base_path : Path)
        (extensions : option (list string)) :
  os.exists_ fs base_path = true ->
  os.is_dir fs base_path = false ->
  (forall ext, In ext (extensions_of extensions) ->
     pystr.has_substring "**" (pathlib.stem jpeg_path ++ ext) = false) ->
  find_raw_file fs jpeg_path base_path extensions = Returned None.
Proof.
  intros Hex Hdir Hvalid. unfold find_raw_file.
  fold (extensions_of extensions). rewrite Hex. cbn [negb].
  now apply first_match_not_directory.
Qed.

Lemma find_raw_file_base_not_directory_witness :
  find_raw_file Scenario.raws (Scenario.P "/exports/A.jpg")
    (Scenario.P "/raw/A.arw") None
  = Returned None.
Proof.
  apply (find_raw_file_base_not_directory Scenario.raws
           (Scenario.P "/exports/A.jpg") (Scenario.P "/raw/A.arw") None).
  - reflexivity.
  - reflexivity.
  - intros ext [<- | [<- | [<- | [<- | []]]]]; reflexivity.
Defined.
